(** * The credit ledger of intentkit: [app/core/credit.py]

    A shallow embedding of the orchestrators ([recharge], [reward],
    [adjustment], [update_daily_quota], [expense_message]) and of the query
    functions ([list_credit_events_by_user], [list_fee_events_by_agent],
    [fetch_credit_event_by_upstream_tx_id]).

    The orchestrators are [async] functions over an SQLAlchemy session.
    Every [await] is a database round trip, and a call runs to its end
    inside its own transaction, so a call is embedded as one function over
    the session state; a Python exception ends the call and leaves the
    session as it was when the exception was raised.

    The account store ([CreditAccount.get_in_session],
    [get_or_create_in_session], [income_in_session], [deduction_in_session],
    [expense_in_session]) and the idempotency check
    ([CreditEvent.check_upstream_tx_id_exists]) are code of [models/credit.py],
    which is not among the sources: they are modelled from the spec, as their
    definitions say. *)

From Stdlib Require Import ZArith QArith Qcanon Qcabs Qround Qpower Lqa String List.
From Stdlib Require Import Sorting.Sorted Sorting.Mergesort Sorting.Permutation.
From Stdlib Require Import Structures.Orders Structures.OrderedTypeEx.
From stdpp Require Import base option list gmap strings numbers pretty sorting.

Local Open Scope string_scope.
Local Open Scope list_scope.
Local Open Scope Qc_scope.

(** ** Decimal amounts

    [decimal.Decimal] values are embedded as canonical rationals, which
    hold every decimal exactly. [==], [<] and [abs] on [Decimal] act on
    the value, as [=], [<] and [Qcabs] on [Qc] do. *)

Abbreviation Decimal := Qc.

(** [Decimal("n")] for an integer [n], and the decimal [n / d]. *)
Definition dec (n : Z) : Decimal := Qc_of_Z n.
Definition frac (n : Z) (d : positive) : Decimal := Q2Qc (n # d).

(** ** [Decimal] arithmetic

    Python's [decimal] module computes [*], [+] and [-] exactly and then
    rounds the result to the precision of the context; [credit.py] uses the
    default context, of 28 significant digits and [ROUND_HALF_EVEN].
    Comparisons are exact. The exponent limits of the context (±999999) are
    out of reach of amounts and are left out. The products and sums of
    [expense_message] are written with these operations. [abs] of an amount
    and the sum of the three stored balances ([balance_after]) stay within
    the precision for amounts and balances of at most 28 digits, and are
    written with the exact operations. *)

(** [getcontext().prec]. *)
Definition prec : Z := 28.

(** The number of decimal digits of a positive integer. *)
Fixpoint digits_upto (fuel : nat) (n : Z) : Z :=
  match fuel with
  | O => 0
  | S fuel' => if (n <? 10)%Z then 1 else (1 + digits_upto fuel' (n / 10))%Z
  end.

Definition num_digits (n : Z) : Z := digits_upto (S (Z.to_nat (Z.log2 n))) n.

(** [Decimal.adjusted()] of a positive number [x]: the exponent of its
    first digit, [floor (log10 x)]. *)
Definition adjusted (x : Q) : Z :=
  let g := (num_digits (Qnum x) - num_digits (Zpos (Qden x)))%Z in
  if Qle_bool (10 ^ g)%Q x then g else (g - 1)%Z.

(** [ROUND_HALF_EVEN] of a number that is not negative: the nearest
    integer, and the even one of the two when they are equally near. *)
Definition round_half_even (y : Q) : Z :=
  let n := Qfloor y in
  match ((y - inject_Z n) ?= 1 # 2)%Q with
  | Lt => n
  | Gt => (n + 1)%Z
  | Eq => if Z.even n then n else (n + 1)%Z
  end.

(** A positive number rounded to [prec] significant digits. *)
Definition fix_positive (x : Q) : Q :=
  let shift := (prec - 1 - adjusted x)%Z in
  (inject_Z (round_half_even (x * 10 ^ shift)) * 10 ^ (- shift))%Q.

(** [Decimal._fix]: the rounding every arithmetic operation ends with. *)
Definition Decimal_fix (x : Decimal) : Decimal :=
  match (0 ?= x)%Q with
  | Lt => Q2Qc (fix_positive x)
  | Eq => 0
  | Gt => - Q2Qc (fix_positive (- x))
  end.

(** [Decimal.__mul__] and [Decimal.__add__]. *)
Definition Decimal_mul (a b : Decimal) : Decimal := Decimal_fix (a * b).
Definition Decimal_add (a b : Decimal) : Decimal := Decimal_fix (a + b).

(** The number has at most [prec] significant digits: an operation that
    yields it is exact. *)
Definition exact (x : Decimal) : Prop := Decimal_fix x = x.

(** ** The enumerations of [models/credit.py]

    The module that declares them is not among the sources; their members
    are the ones [credit.py] uses and the data model lists. *)

Inductive OwnerType := USER | AGENT | PLATFORM.
Inductive CreditType := FREE | REWARD | PERMANENT.
Inductive Direction := INCOME | EXPENSE.
Inductive CreditDebit := CREDIT | DEBIT.

Module UpstreamType.
Inductive t := API | EXECUTOR.
End UpstreamType.

Module EventType.
Inductive t := RECHARGE | REWARD | ADJUSTMENT | MESSAGE.
End EventType.

Module TransactionType.
Inductive t :=
  RECHARGE | REWARD | ADJUSTMENT | PAY | RECEIVE_FEE_PLATFORM | RECEIVE_FEE_AGENT.
End TransactionType.

#[global] Instance OwnerType_eq_dec : EqDecision OwnerType.
Proof. solve_decision. Defined.
#[global] Instance CreditType_eq_dec : EqDecision CreditType.
Proof. solve_decision. Defined.
#[global] Instance Direction_eq_dec : EqDecision Direction.
Proof. solve_decision. Defined.
#[global] Instance CreditDebit_eq_dec : EqDecision CreditDebit.
Proof. solve_decision. Defined.
#[global] Instance UpstreamType_eq_dec : EqDecision UpstreamType.t.
Proof. solve_decision. Defined.
#[global] Instance EventType_eq_dec : EqDecision EventType.t.
Proof. solve_decision. Defined.
#[global] Instance TransactionType_eq_dec : EqDecision TransactionType.t.
Proof. solve_decision. Defined.

#[global] Instance OwnerType_countable : Countable OwnerType.
Proof.
  refine (inj_countable'
            (fun o => match o with USER => 0%nat | AGENT => 1%nat | PLATFORM => 2%nat end)
            (fun n => match n with 0%nat => USER | 1%nat => AGENT | _ => PLATFORM end) _).
  intros []; reflexivity.
Defined.

(** The reserved owner ids of the platform accounts. *)
Definition DEFAULT_PLATFORM_ACCOUNT_RECHARGE : string := "RECHARGE".
Definition DEFAULT_PLATFORM_ACCOUNT_REWARD : string := "REWARD".
Definition DEFAULT_PLATFORM_ACCOUNT_ADJUSTMENT : string := "ADJUSTMENT".
Definition DEFAULT_PLATFORM_ACCOUNT_FEE : string := "FEE".

(** ** Rows *)

Module CreditAccount.
Record t := mk {
  id : string;
  owner_type : OwnerType;
  owner_id : string;
  credits : Decimal;
  free_credits : Decimal;
  reward_credits : Decimal;
  free_quota : Decimal;
  refill_amount : Decimal;
  last_refill_at : Z
}.

(** The column a credit type names. *)
Definition pool (ct : CreditType) (a : t) : Decimal :=
  match ct with
  | PERMANENT => credits a
  | FREE => free_credits a
  | REWARD => reward_credits a
  end.

Definition set_pool (ct : CreditType) (v : Decimal) (a : t) : t :=
  match ct with
  | PERMANENT =>
      mk (id a) (owner_type a) (owner_id a) v (free_credits a) (reward_credits a)
         (free_quota a) (refill_amount a) (last_refill_at a)
  | FREE =>
      mk (id a) (owner_type a) (owner_id a) (credits a) v (reward_credits a)
         (free_quota a) (refill_amount a) (last_refill_at a)
  | REWARD =>
      mk (id a) (owner_type a) (owner_id a) (credits a) (free_credits a) v
         (free_quota a) (refill_amount a) (last_refill_at a)
  end.

(** [credits + free_credits + reward_credits], as the events record it. *)
Definition balance (a : t) : Decimal :=
  credits a + free_credits a + reward_credits a.
End CreditAccount.

Module CreditEvent.
Record t := mk {
  id : string;
  event_type : EventType.t;
  upstream_type : UpstreamType.t;
  upstream_tx_id : string;
  direction : Direction;
  account_id : string;
  total_amount : Decimal;
  credit_type : CreditType;
  balance_after : Decimal;
  base_amount : Decimal;
  base_original_amount : Decimal;
  note : option string;
  agent_id : option string;
  message_id : option string;
  start_message_id : option string;
  base_llm_amount : option Decimal;
  fee_platform_amount : option Decimal;
  fee_agent_amount : option Decimal;
  fee_agent_account : option string
}.
End CreditEvent.

Module CreditTransaction.
Record t := mk {
  id : string;
  account_id : string;
  event_id : string;
  tx_type : TransactionType.t;
  credit_debit : CreditDebit;
  change_amount : Decimal;
  credit_type : CreditType
}.
End CreditTransaction.

(** ** The session

    [Db] holds the three tables. The accounts table has a unique index on
    [(owner_type, owner_id)] and is read and written through it only, so it
    is a finite map over that key; events and transactions are append-only
    and kept in insertion order.

    A [Session] carries the rows as the running transaction sees them
    ([db]), the rows of the last commit ([committed]), the number of ids
    [XID()] has handed out and the wall clock in seconds. [session.add] and
    the [UPDATE] statements act on [db]; [session.commit] makes [db] the
    committed state. Nothing in [credit.py] rolls back: when a call raises,
    [committed] is what the session's owner falls back to. *)

Record Db := mkDb {
  accounts : gmap (OwnerType * string) CreditAccount.t;
  events : list CreditEvent.t;
  transactions : list CreditTransaction.t
}.

Definition empty_db : Db := mkDb ∅ [] [].

Record Session := mkSession {
  db : Db;
  committed : Db;
  xids : nat;
  now : Z
}.

Definition fresh_session (clock : Z) : Session := mkSession empty_db empty_db 0 clock.

(** The exceptions. [ValueError] and [HTTPException] are the ones
    [credit.py] raises itself; the other three are the failures the spec
    gives to the primitives of [models/credit.py]. *)
Inductive Exn :=
| ValueError (msg : string)
| HTTPException (status_code : Z) (detail : string)
| DuplicateUpstreamTx
| InvalidAmount
| InsufficientFunds.

Inductive Result (A : Type) :=
| Ok (a : A)
| Raise (e : Exn).
Arguments Ok {A} a.
Arguments Raise {A} e.

(** A call: it reads and writes the session and returns or raises. *)
Definition M (A : Type) : Type := Session -> Result A * Session.

Definition ret {A} (a : A) : M A := fun s => (Ok a, s).

Definition raise {A} (e : Exn) : M A := fun s => (Raise e, s).

Definition bind {A B} (m : M A) (k : A -> M B) : M B :=
  fun s => match m s with
           | (Ok a, s') => k a s'
           | (Raise e, s') => (Raise e, s')
           end.

Declare Scope credit_scope.
Delimit Scope credit_scope with credit.
Notation "'let*' x ':=' m 'in' k" := (bind m (fun x => k))
  (at level 10, x pattern, m at level 100, k at level 200) : credit_scope.
Notation "m ';;' k" := (bind m (fun _ => k))
  (at level 100, k at level 200, right associativity) : credit_scope.
Local Open Scope credit_scope.

Definition set_db (d : Db) (s : Session) : Session :=
  mkSession d (committed s) (xids s) (now s).

(** [str(XID())]: a new id at every call. The embedding numbers them. *)
Definition xid_of (n : nat) : string := "xid" +:+ pretty n.

Definition XID : M string :=
  fun s => (Ok (xid_of (xids s)), mkSession (db s) (committed s) (S (xids s)) (now s)).

(** [session.add(event)] followed by [session.flush()]. *)
Definition add_event (e : CreditEvent.t) : M unit :=
  fun s => (Ok tt, set_db (mkDb (accounts (db s)) (events (db s) ++ [e])
                                (transactions (db s))) s).

(** [session.add(tx)]. *)
Definition add_transaction (t : CreditTransaction.t) : M unit :=
  fun s => (Ok tt, set_db (mkDb (accounts (db s)) (events (db s))
                                (transactions (db s) ++ [t])) s).

(** [session.commit()]. *)
Definition commit : M unit :=
  fun s => (Ok tt, mkSession (db s) (db s) (xids s) (now s)).

(** [UPDATE ... WHERE owner_type = .. AND owner_id = .. RETURNING]: the row
    after the update, or [None] when no row has the key. *)
Definition update_account (ot : OwnerType) (oid : string)
    (f : CreditAccount.t -> CreditAccount.t) : M (option CreditAccount.t) :=
  fun s => match accounts (db s) !! (ot, oid) with
           | Some a =>
               (Ok (Some (f a)),
                set_db (mkDb (<[(ot, oid) := f a]> (accounts (db s)))
                             (events (db s)) (transactions (db s))) s)
           | None => (Ok None, s)
           end.

(** ** The account store of [models/credit.py] *)

Definition Qcmin (a b : Decimal) : Decimal := if decide (a ≤ b) then a else b.
Definition Qcmax (a b : Decimal) : Decimal := if decide (a ≤ b) then b else a.

(** Modelled from the spec: [CreditAccount.get_in_session] of
    [models/credit.py], which is not among the sources. It reads the account
    of an owner and returns [None] when there is none (§4.5, missing-account
    policy). *)
Definition get_in_session (ot : OwnerType) (oid : string) : M (option CreditAccount.t) :=
  fun s => (Ok (accounts (db s) !! (ot, oid)), s).

(** Modelled from the spec: [CreditAccount.get_or_create_in_session] of
    [models/credit.py], which is not among the sources. §4.1: it returns the
    account and inserts a zeroed row if the account is absent; the row lock
    of [for_update] has no effect within one call. A new row takes its id
    from [XID] and the time of its creation as [last_refill_at]. *)
Definition get_or_create_in_session (ot : OwnerType) (oid : string)
    (for_update : bool) : M CreditAccount.t :=
  let* found := get_in_session ot oid in
  match found with
  | Some a => ret a
  | None =>
      let* new_id := XID in
      fun s =>
        let a := CreditAccount.mk new_id ot oid 0 0 0 0 0 (now s) in
        (Ok a, set_db (mkDb (<[(ot, oid) := a]> (accounts (db s)))
                            (events (db s)) (transactions (db s))) s)
  end.

(** Modelled from the spec: the daily refill of §4.2, which
    [models/credit.py] (not among the sources) runs inside [income],
    [deduction] and [expense] on a user account. If [last_refill_at] is at
    least one hour behind the clock and [refill_amount > 0], then
    [free_credits] becomes
    [min(free_quota, free_credits + refill_amount * floor(hours_elapsed))]
    and [last_refill_at] the clock truncated to the hour. *)
Definition daily_refill (clock : Z) (a : CreditAccount.t) : CreditAccount.t :=
  if decide (3600 ≤ clock - CreditAccount.last_refill_at a)%Z then
    if decide (0 < CreditAccount.refill_amount a) then
      let hours := ((clock - CreditAccount.last_refill_at a) / 3600)%Z in
      CreditAccount.mk (CreditAccount.id a) (CreditAccount.owner_type a)
        (CreditAccount.owner_id a) (CreditAccount.credits a)
        (Qcmin (CreditAccount.free_quota a)
               (CreditAccount.free_credits a + CreditAccount.refill_amount a * dec hours))
        (CreditAccount.reward_credits a) (CreditAccount.free_quota a)
        (CreditAccount.refill_amount a) (clock / 3600 * 3600)%Z
    else a
  else a.

(** The locked read that the three primitives share: get or create the
    account, then, for a user account, refill it if a refill is due. *)
Definition locked_account (ot : OwnerType) (oid : string) : M CreditAccount.t :=
  let* a := get_or_create_in_session ot oid true in
  fun s => (Ok (if decide (ot = USER) then daily_refill (now s) a else a), s).

(** The write of the primitives: the row of [(owner_type, owner_id)] is
    replaced. *)
Definition store_account (ot : OwnerType) (oid : string) (a : CreditAccount.t) : M unit :=
  fun s => (Ok tt,
            set_db (mkDb (<[(ot, oid) := a]> (accounts (db s)))
                         (events (db s)) (transactions (db s))) s).

(** Modelled from the spec: [CreditAccount.income_in_session] of
    [models/credit.py], which is not among the sources. §4.1 income: it fails
    with [InvalidAmount] if [amount <= 0]; otherwise it locks the account,
    refills it if due, adds [amount] to the pool named by [credit_type] and
    returns the updated account. *)
Definition income_in_session (ot : OwnerType) (oid : string) (amount : Decimal)
    (credit_type : CreditType) : M CreditAccount.t :=
  if decide (amount ≤ 0) then raise InvalidAmount
  else
    let* a := locked_account ot oid in
    let a' := CreditAccount.set_pool credit_type (CreditAccount.pool credit_type a + amount) a in
    store_account ot oid a';;
    ret a'.

(** Modelled from the spec: [CreditAccount.deduction_in_session] of
    [models/credit.py], which is not among the sources. §4.1 deduction: it
    locks the account, refills it if due, fails with [InsufficientFunds] if
    the pool named by [credit_type] holds less than [amount], and otherwise
    subtracts [amount] from that pool, without falling back to another
    pool, and returns the updated account. A platform account is not
    tested: §4.4.1 lets platform accounts go negative, and [recharge] and
    [reward] call this primitive on a platform pool that starts at zero. *)
Definition deduction_in_session (ot : OwnerType) (oid : string)
    (credit_type : CreditType) (amount : Decimal) : M CreditAccount.t :=
  let* a := locked_account ot oid in
  if decide (ot ≠ PLATFORM ∧ CreditAccount.pool credit_type a < amount)
  then raise InsufficientFunds
  else
    let a' :=
      CreditAccount.set_pool credit_type (CreditAccount.pool credit_type a - amount) a in
    store_account ot oid a';;
    ret a'.

(** Modelled from the spec: the tri-pool deduction of §4.1, the rule of
    [CreditAccount.expense_in_session] ([models/credit.py], not among the
    sources): [amount] is consumed in the order free_credits, reward_credits,
    credits, each pool covering what the ones before it left (a pool that is
    below zero gives nothing), and the credit type returned is the one of the
    deepest pool that was needed. *)
Definition tri_pool_deduction (a : CreditAccount.t) (amount : Decimal)
    : CreditAccount.t * CreditType :=
  let from_free := Qcmin (Qcmax 0 (CreditAccount.free_credits a)) amount in
  let rest1 := amount - from_free in
  let from_reward := Qcmin (Qcmax 0 (CreditAccount.reward_credits a)) rest1 in
  let rest2 := rest1 - from_reward in
  let credit_type :=
    if decide (0 < rest2) then PERMANENT
    else if decide (0 < rest1) then REWARD
    else FREE in
  (CreditAccount.mk (CreditAccount.id a) (CreditAccount.owner_type a)
     (CreditAccount.owner_id a) (CreditAccount.credits a - rest2)
     (CreditAccount.free_credits a - from_free)
     (CreditAccount.reward_credits a - from_reward)
     (CreditAccount.free_quota a) (CreditAccount.refill_amount a)
     (CreditAccount.last_refill_at a),
   credit_type).

(** Modelled from the spec: [CreditAccount.expense_in_session] of
    [models/credit.py], which is not among the sources. §4.1 expense: it
    locks the account, refills it if due, fails with [InsufficientFunds] if
    the three pools together hold less than [amount], and otherwise applies
    the tri-pool deduction and returns the account and the credit type. *)
Definition expense_in_session (ot : OwnerType) (oid : string) (amount : Decimal)
    : M (CreditAccount.t * CreditType) :=
  let* a := locked_account ot oid in
  if decide (CreditAccount.balance a < amount) then raise InsufficientFunds
  else
    let spent := tri_pool_deduction a amount in
    store_account ot oid spent.1;;
    ret spent.

(** An event has this upstream key. *)
Definition same_upstream (ut : UpstreamType.t) (tx : string) (e : CreditEvent.t) : bool :=
  bool_decide (CreditEvent.upstream_type e = ut) &&
  bool_decide (CreditEvent.upstream_tx_id e = tx).

(** Modelled from the spec: [CreditEvent.check_upstream_tx_id_exists] of
    [models/credit.py], which is not among the sources. §4.3: it queries for
    an event with the given [(upstream_type, upstream_tx_id)] and fails with
    [DuplicateUpstreamTx] if there is one. *)
Definition check_upstream_tx_id_exists (ut : UpstreamType.t) (tx : string) : M unit :=
  fun s => if existsb (same_upstream ut tx) (events (db s))
           then (Raise DuplicateUpstreamTx, s)
           else (Ok tt, s).

(** ** The orchestrators of [app/core/credit.py] *)

Definition recharge (user_id : string) (amount : Decimal) (upstream_tx_id : string)
    (note : option string) : M CreditAccount.t :=
  check_upstream_tx_id_exists UpstreamType.API upstream_tx_id;;
  if decide (amount ≤ 0) then raise (ValueError "Recharge amount must be positive")
  else
    let* user_account := income_in_session USER user_id amount PERMANENT in
    let* platform_account :=
      deduction_in_session PLATFORM DEFAULT_PLATFORM_ACCOUNT_RECHARGE PERMANENT amount in
    let* event_id := XID in
    add_event {|
      CreditEvent.id := event_id;
      CreditEvent.event_type := EventType.RECHARGE;
      CreditEvent.upstream_type := UpstreamType.API;
      CreditEvent.upstream_tx_id := upstream_tx_id;
      CreditEvent.direction := INCOME;
      CreditEvent.account_id := CreditAccount.id user_account;
      CreditEvent.total_amount := amount;
      CreditEvent.credit_type := PERMANENT;
      CreditEvent.balance_after :=
        CreditAccount.credits user_account + CreditAccount.free_credits user_account
        + CreditAccount.reward_credits user_account;
      CreditEvent.base_amount := amount;
      CreditEvent.base_original_amount := amount;
      CreditEvent.note := note;
      CreditEvent.agent_id := None;
      CreditEvent.message_id := None;
      CreditEvent.start_message_id := None;
      CreditEvent.base_llm_amount := None;
      CreditEvent.fee_platform_amount := None;
      CreditEvent.fee_agent_amount := None;
      CreditEvent.fee_agent_account := None
    |};;
    let* user_tx_id := XID in
    add_transaction {|
      CreditTransaction.id := user_tx_id;
      CreditTransaction.account_id := CreditAccount.id user_account;
      CreditTransaction.event_id := event_id;
      CreditTransaction.tx_type := TransactionType.RECHARGE;
      CreditTransaction.credit_debit := CREDIT;
      CreditTransaction.change_amount := amount;
      CreditTransaction.credit_type := PERMANENT
    |};;
    let* platform_tx_id := XID in
    add_transaction {|
      CreditTransaction.id := platform_tx_id;
      CreditTransaction.account_id := CreditAccount.id platform_account;
      CreditTransaction.event_id := event_id;
      CreditTransaction.tx_type := TransactionType.RECHARGE;
      CreditTransaction.credit_debit := DEBIT;
      CreditTransaction.change_amount := amount;
      CreditTransaction.credit_type := PERMANENT
    |};;
    commit;;
    ret user_account.

Definition reward (user_id : string) (amount : Decimal) (upstream_tx_id : string)
    (note : option string) : M CreditAccount.t :=
  check_upstream_tx_id_exists UpstreamType.API upstream_tx_id;;
  if decide (amount ≤ 0) then raise (ValueError "Reward amount must be positive")
  else
    let* user_account := income_in_session USER user_id amount REWARD in
    let* platform_account :=
      deduction_in_session PLATFORM DEFAULT_PLATFORM_ACCOUNT_REWARD REWARD amount in
    let* event_id := XID in
    add_event {|
      CreditEvent.id := event_id;
      CreditEvent.event_type := EventType.REWARD;
      CreditEvent.upstream_type := UpstreamType.API;
      CreditEvent.upstream_tx_id := upstream_tx_id;
      CreditEvent.direction := INCOME;
      CreditEvent.account_id := CreditAccount.id user_account;
      CreditEvent.total_amount := amount;
      CreditEvent.credit_type := REWARD;
      CreditEvent.balance_after :=
        CreditAccount.credits user_account + CreditAccount.free_credits user_account
        + CreditAccount.reward_credits user_account;
      CreditEvent.base_amount := amount;
      CreditEvent.base_original_amount := amount;
      CreditEvent.note := note;
      CreditEvent.agent_id := None;
      CreditEvent.message_id := None;
      CreditEvent.start_message_id := None;
      CreditEvent.base_llm_amount := None;
      CreditEvent.fee_platform_amount := None;
      CreditEvent.fee_agent_amount := None;
      CreditEvent.fee_agent_account := None
    |};;
    let* user_tx_id := XID in
    add_transaction {|
      CreditTransaction.id := user_tx_id;
      CreditTransaction.account_id := CreditAccount.id user_account;
      CreditTransaction.event_id := event_id;
      CreditTransaction.tx_type := TransactionType.REWARD;
      CreditTransaction.credit_debit := CREDIT;
      CreditTransaction.change_amount := amount;
      CreditTransaction.credit_type := REWARD
    |};;
    let* platform_tx_id := XID in
    add_transaction {|
      CreditTransaction.id := platform_tx_id;
      CreditTransaction.account_id := CreditAccount.id platform_account;
      CreditTransaction.event_id := event_id;
      CreditTransaction.tx_type := TransactionType.REWARD;
      CreditTransaction.credit_debit := DEBIT;
      CreditTransaction.change_amount := amount;
      CreditTransaction.credit_type := REWARD
    |};;
    commit;;
    ret user_account.

Definition adjustment (user_id : string) (credit_type : CreditType) (amount : Decimal)
    (upstream_tx_id : string) (note : string) : M CreditAccount.t :=
  check_upstream_tx_id_exists UpstreamType.API upstream_tx_id;;
  if decide (amount = 0) then raise (ValueError "Adjustment amount cannot be zero")
  else if decide (note = "")
  then raise (ValueError "Adjustment requires a note explaining the reason")
  else
    let is_income := bool_decide (0 < amount) in
    let abs_amount := Qcabs amount in
    let direction := if is_income then INCOME else EXPENSE in
    let credit_debit_user := if is_income then CREDIT else DEBIT in
    let credit_debit_platform := if is_income then DEBIT else CREDIT in
    let* user_account :=
      if is_income
      then income_in_session USER user_id abs_amount credit_type
      else deduction_in_session USER user_id credit_type abs_amount in
    let* platform_account :=
      if is_income
      then deduction_in_session PLATFORM DEFAULT_PLATFORM_ACCOUNT_ADJUSTMENT
             credit_type abs_amount
      else income_in_session PLATFORM DEFAULT_PLATFORM_ACCOUNT_ADJUSTMENT
             abs_amount credit_type in
    let* event_id := XID in
    add_event {|
      CreditEvent.id := event_id;
      CreditEvent.event_type := EventType.ADJUSTMENT;
      CreditEvent.upstream_type := UpstreamType.API;
      CreditEvent.upstream_tx_id := upstream_tx_id;
      CreditEvent.direction := direction;
      CreditEvent.account_id := CreditAccount.id user_account;
      CreditEvent.total_amount := abs_amount;
      CreditEvent.credit_type := credit_type;
      CreditEvent.balance_after :=
        CreditAccount.credits user_account + CreditAccount.free_credits user_account
        + CreditAccount.reward_credits user_account;
      CreditEvent.base_amount := abs_amount;
      CreditEvent.base_original_amount := abs_amount;
      CreditEvent.note := Some note;
      CreditEvent.agent_id := None;
      CreditEvent.message_id := None;
      CreditEvent.start_message_id := None;
      CreditEvent.base_llm_amount := None;
      CreditEvent.fee_platform_amount := None;
      CreditEvent.fee_agent_amount := None;
      CreditEvent.fee_agent_account := None
    |};;
    let* user_tx_id := XID in
    add_transaction {|
      CreditTransaction.id := user_tx_id;
      CreditTransaction.account_id := CreditAccount.id user_account;
      CreditTransaction.event_id := event_id;
      CreditTransaction.tx_type := TransactionType.ADJUSTMENT;
      CreditTransaction.credit_debit := credit_debit_user;
      CreditTransaction.change_amount := abs_amount;
      CreditTransaction.credit_type := credit_type
    |};;
    let* platform_tx_id := XID in
    add_transaction {|
      CreditTransaction.id := platform_tx_id;
      CreditTransaction.account_id := CreditAccount.id platform_account;
      CreditTransaction.event_id := event_id;
      CreditTransaction.tx_type := TransactionType.ADJUSTMENT;
      CreditTransaction.credit_debit := credit_debit_platform;
      CreditTransaction.change_amount := abs_amount;
      CreditTransaction.credit_type := credit_type
    |};;
    commit;;
    ret user_account.

Definition is_none {A} (o : option A) : bool :=
  match o with None => true | Some _ => false end.

(** [upstream_tx_id] is only logged. *)
Definition update_daily_quota (user_id : string) (free_quota refill_amount : option Decimal)
    (upstream_tx_id : string) (note : string) : M CreditAccount.t :=
  if is_none free_quota && is_none refill_amount
  then raise (ValueError "At least one of free_quota or refill_amount must be provided")
  else
    let* user_account := get_or_create_in_session USER user_id true in
    let* free_quota :=
      match free_quota with
      | None => ret (CreditAccount.free_quota user_account)
      | Some q =>
          if decide (q ≤ 0) then raise (ValueError "Daily quota must be positive")
          else ret q
      end in
    let* refill_amount :=
      match refill_amount with
      | None => ret (CreditAccount.refill_amount user_account)
      | Some r =>
          if decide (r < 0) then raise (ValueError "Refill amount cannot be negative")
          else ret r
      end in
    if decide (free_quota < refill_amount)
    then raise (ValueError "Refill amount cannot exceed daily quota")
    else if decide (note = "")
    then raise (ValueError "Quota update requires a note explaining the reason")
    else
      let* result :=
        update_account USER user_id
          (fun a => CreditAccount.mk (CreditAccount.id a) (CreditAccount.owner_type a)
                      (CreditAccount.owner_id a) (CreditAccount.credits a)
                      (CreditAccount.free_credits a) (CreditAccount.reward_credits a)
                      free_quota refill_amount (CreditAccount.last_refill_at a)) in
      match result with
      | None => raise (ValueError "Failed to update user account")
      | Some user_account =>
          commit;;
          ret user_account
      end.

(** The settings [expense_message] reads. The code converts the configured
    number with [Decimal(str(...))]; the field holds that decimal. *)
Record Config := mkConfig {
  payment_fee_platform_percentage : Decimal
}.

Section ExpenseMessage.

(** [app.config.config.config], which is not among the sources. *)
Variable config : Config.

Definition expense_message (agent_id user_id message_id start_message_id : string)
    (base_llm_amount agent_fee_percentage : Decimal) (agent_owner_id : string)
    : M CreditAccount.t :=
  check_upstream_tx_id_exists UpstreamType.EXECUTOR message_id;;
  if decide (base_llm_amount < 0)
  then raise (ValueError "Base LLM amount must be non-negative")
  else
    let base_original_amount := base_llm_amount in
    let base_amount := base_original_amount in
    let fee_platform_amount :=
      Decimal_mul base_amount (payment_fee_platform_percentage config) in
    let fee_agent_amount :=
      if decide (user_id ≠ agent_owner_id)
      then Decimal_mul base_amount agent_fee_percentage
      else 0 in
    let total_amount :=
      Decimal_add (Decimal_add base_amount fee_platform_amount) fee_agent_amount in
    let* (user_account, credit_type) := expense_in_session USER user_id total_amount in
    let* platform_account :=
      income_in_session PLATFORM DEFAULT_PLATFORM_ACCOUNT_FEE fee_platform_amount
        credit_type in
    (* [agent_account] is bound only under the test *)
    let* agent_account :=
      if decide (0 < fee_agent_amount)
      then let* a := income_in_session AGENT agent_id fee_agent_amount credit_type in
           ret (Some a)
      else ret None in
    let* event_id := XID in
    add_event {|
      CreditEvent.id := event_id;
      CreditEvent.event_type := EventType.MESSAGE;
      CreditEvent.upstream_type := UpstreamType.EXECUTOR;
      CreditEvent.upstream_tx_id := message_id;
      CreditEvent.direction := EXPENSE;
      CreditEvent.account_id := CreditAccount.id user_account;
      CreditEvent.total_amount := total_amount;
      CreditEvent.credit_type := credit_type;
      CreditEvent.balance_after :=
        CreditAccount.credits user_account + CreditAccount.free_credits user_account
        + CreditAccount.reward_credits user_account;
      CreditEvent.base_amount := base_amount;
      CreditEvent.base_original_amount := base_original_amount;
      CreditEvent.note := None;
      CreditEvent.agent_id := Some agent_id;
      CreditEvent.message_id := Some message_id;
      CreditEvent.start_message_id := Some start_message_id;
      CreditEvent.base_llm_amount := Some base_llm_amount;
      CreditEvent.fee_platform_amount := Some fee_platform_amount;
      CreditEvent.fee_agent_amount := Some fee_agent_amount;
      CreditEvent.fee_agent_account :=
        if decide (0 < fee_agent_amount) then CreditAccount.id <$> agent_account else None
    |};;
    let* user_tx_id := XID in
    add_transaction {|
      CreditTransaction.id := user_tx_id;
      CreditTransaction.account_id := CreditAccount.id user_account;
      CreditTransaction.event_id := event_id;
      CreditTransaction.tx_type := TransactionType.PAY;
      CreditTransaction.credit_debit := DEBIT;
      CreditTransaction.change_amount := total_amount;
      CreditTransaction.credit_type := credit_type
    |};;
    let* platform_tx_id := XID in
    add_transaction {|
      CreditTransaction.id := platform_tx_id;
      CreditTransaction.account_id := CreditAccount.id platform_account;
      CreditTransaction.event_id := event_id;
      CreditTransaction.tx_type := TransactionType.RECEIVE_FEE_PLATFORM;
      CreditTransaction.credit_debit := CREDIT;
      CreditTransaction.change_amount := fee_platform_amount;
      CreditTransaction.credit_type := credit_type
    |};;
    (if decide (0 < fee_agent_amount) then
       match agent_account with
       | Some agent_account =>
           let* agent_tx_id := XID in
           add_transaction {|
             CreditTransaction.id := agent_tx_id;
             CreditTransaction.account_id := CreditAccount.id agent_account;
             CreditTransaction.event_id := event_id;
             CreditTransaction.tx_type := TransactionType.RECEIVE_FEE_AGENT;
             CreditTransaction.credit_debit := CREDIT;
             CreditTransaction.change_amount := fee_agent_amount;
             CreditTransaction.credit_type := credit_type
           |}
       | None => ret tt
       end
     else ret tt);;
    commit;;
    ret user_account.

End ExpenseMessage.

(** ** The query layer *)

(** [ORDER BY id DESC]: ids are compared as strings, character by character. *)
Module EventIdDesc <: TotalLeBool.
Definition t := CreditEvent.t.
Definition leb (x y : t) : bool := String.leb (CreditEvent.id y) (CreditEvent.id x).
Lemma leb_total (x y : t) : leb x y = true \/ leb y x = true.
Proof. unfold leb. destruct (String.leb_total (CreditEvent.id x) (CreditEvent.id y)); auto. Qed.
End EventIdDesc.

Module EventSort := Sort EventIdDesc.

(** [SELECT ... WHERE p ORDER BY id DESC LIMIT n]. What a negative [LIMIT]
    does depends on the database engine; here it yields no row. *)
Definition select_events (p : CreditEvent.t -> bool) (n : Z) (d : Db) : list CreditEvent.t :=
  take (Z.to_nat n) (EventSort.sort (List.filter p (events d))).

(** The slice [l[:n]]: the first [n] elements, or all but the last [-n] when
    [n] is negative. *)
Definition slice_to {A} (l : list A) (n : Z) : list A :=
  if decide (0 ≤ n)%Z then take (Z.to_nat n) l
  else take (length l - Z.to_nat (- n)) l.

(** The [WHERE] clauses of [list_credit_events_by_user]. [if event_type:]
    holds for every member of the enumeration; [if cursor:] fails for
    [None] and for the empty string. *)
Definition user_events_filter (account : CreditAccount.t) (direction : Direction)
    (cursor : option string) (event_type : option EventType.t) (e : CreditEvent.t) : bool :=
  bool_decide (CreditEvent.account_id e = CreditAccount.id account)
  && bool_decide (CreditEvent.direction e = direction)
  && match event_type with
     | Some et => bool_decide (CreditEvent.event_type e = et)
     | None => true
     end
  && match cursor with
     | Some c => if decide (c = "") then true else String.ltb (CreditEvent.id e) c
     | None => true
     end.

Definition list_credit_events_by_user (user_id : string) (direction : Direction)
    (cursor : option string) (limit : Z) (event_type : option EventType.t)
    : M (list CreditEvent.t * option string * bool) :=
  let* account := get_in_session USER user_id in
  match account with
  | None => ret ([], None, false)
  | Some account =>
      fun s =>
        let events_data :=
          select_events (user_events_filter account direction cursor event_type)
            (limit + 1) (db s) in
        let has_more := bool_decide (limit < Z.of_nat (length events_data))%Z in
        let events_to_return := slice_to events_data limit in
        let next_cursor := CreditEvent.id <$> last events_to_return in
        (Ok (events_to_return, next_cursor, has_more), s)
  end.

(** [session.scalar(stmt)] is the first row of the result, or [None]. The
    [SELECT] has no [ORDER BY]: which of several rows comes first is the
    database's choice, taken here to be the order of the store. *)
Definition fetch_credit_event_by_upstream_tx_id (upstream_tx_id : string)
    : M CreditEvent.t :=
  fun s =>
    match List.find (fun e => bool_decide (CreditEvent.upstream_tx_id e = upstream_tx_id))
                    (events (db s)) with
    | Some result => (Ok result, s)
    | None =>
        (Raise (HTTPException 404
                  ("Credit event with upstream_tx_id '" +:+ upstream_tx_id +:+ "' not found")),
         s)
    end.

(** ** Notions the statements use *)

(** The row a primitive finds for an owner: the stored one, or the zeroed
    row that get-or-create inserts. *)
Definition new_row (ot : OwnerType) (oid : string) (s : Session) : CreditAccount.t :=
  CreditAccount.mk (xid_of (xids s)) ot oid 0 0 0 0 0 (now s).

Definition row_or_new (ot : OwnerType) (oid : string) (s : Session) : CreditAccount.t :=
  default (new_row ot oid s) (accounts (db s) !! (ot, oid)).

(** The session after get-or-create. *)
Definition with_row (ot : OwnerType) (oid : string) (s : Session) : Session :=
  match accounts (db s) !! (ot, oid) with
  | Some _ => s
  | None =>
      mkSession (mkDb (<[(ot, oid) := new_row ot oid s]> (accounts (db s)))
                      (events (db s)) (transactions (db s)))
                (committed s) (S (xids s)) (now s)
  end.

(** The row as the locked read returns it, after the refill that is due. *)
Definition locked_row (ot : OwnerType) (oid : string) (s : Session) : CreditAccount.t :=
  if decide (ot = USER) then daily_refill (now s) (row_or_new ot oid s)
  else row_or_new ot oid s.

Definition put_row (ot : OwnerType) (oid : string) (a : CreditAccount.t) (s : Session)
    : Session :=
  set_db (mkDb (<[(ot, oid) := a]> (accounts (db s))) (events (db s)) (transactions (db s))) s.

(** A pool of an owner in a database; an owner without a row holds nothing. *)
Definition pool_at (d : Db) (ot : OwnerType) (oid : string) (ct : CreditType) : Decimal :=
  match accounts d !! (ot, oid) with
  | Some a => CreditAccount.pool ct a
  | None => 0
  end.

(** An event with this upstream key is in the session's events. *)
Definition upstream_seen (ut : UpstreamType.t) (tx : string) (s : Session) : Prop :=
  ∃ e, e ∈ events (db s)
       ∧ CreditEvent.upstream_type e = ut ∧ CreditEvent.upstream_tx_id e = tx.

(** The sum of [change_amount] over the legs of one side and one credit
    type. *)
Definition leg_sum (side : CreditDebit) (ct : CreditType) (legs : list CreditTransaction.t)
    : Decimal :=
  foldr (fun t acc =>
           if bool_decide (CreditTransaction.credit_debit t = side)
              && bool_decide (CreditTransaction.credit_type t = ct)
           then CreditTransaction.change_amount t + acc
           else acc)
        0 legs.

(** The legs of an event. *)
Definition legs_of (event_id : string) (d : Db) : list CreditTransaction.t :=
  List.filter (fun t => bool_decide (CreditTransaction.event_id t = event_id))
              (transactions d).

(** ** The common shape of [recharge], [reward] and [adjustment]

    The three bodies differ in the enumeration members they write, in the
    platform account and in which side is credited. [user_platform_entry]
    is that body with these as parameters; each orchestrator is its checks
    followed by an instance of it. *)

Definition entry_event (event_id : string) (et : EventType.t) (upstream_tx_id : string)
    (direction : Direction) (user_account : CreditAccount.t) (amount : Decimal)
    (ct : CreditType) (note : option string) : CreditEvent.t :=
  {| CreditEvent.id := event_id;
     CreditEvent.event_type := et;
     CreditEvent.upstream_type := UpstreamType.API;
     CreditEvent.upstream_tx_id := upstream_tx_id;
     CreditEvent.direction := direction;
     CreditEvent.account_id := CreditAccount.id user_account;
     CreditEvent.total_amount := amount;
     CreditEvent.credit_type := ct;
     CreditEvent.balance_after :=
       CreditAccount.credits user_account + CreditAccount.free_credits user_account
       + CreditAccount.reward_credits user_account;
     CreditEvent.base_amount := amount;
     CreditEvent.base_original_amount := amount;
     CreditEvent.note := note;
     CreditEvent.agent_id := None;
     CreditEvent.message_id := None;
     CreditEvent.start_message_id := None;
     CreditEvent.base_llm_amount := None;
     CreditEvent.fee_platform_amount := None;
     CreditEvent.fee_agent_amount := None;
     CreditEvent.fee_agent_account := None |}.

Definition user_platform_entry (is_income : bool) (et : EventType.t)
    (tt : TransactionType.t) (platform_id : string) (ct : CreditType) (user_id : string)
    (amount : Decimal) (upstream_tx_id : string) (note : option string)
    : M CreditAccount.t :=
  let* user_account :=
    if is_income then income_in_session USER user_id amount ct
    else deduction_in_session USER user_id ct amount in
  let* platform_account :=
    if is_income then deduction_in_session PLATFORM platform_id ct amount
    else income_in_session PLATFORM platform_id amount ct in
  let* event_id := XID in
  add_event (entry_event event_id et upstream_tx_id (if is_income then INCOME else EXPENSE)
               user_account amount ct note);;
  let* user_tx_id := XID in
  add_transaction (CreditTransaction.mk user_tx_id (CreditAccount.id user_account) event_id
                     tt (if is_income then CREDIT else DEBIT) amount ct);;
  let* platform_tx_id := XID in
  add_transaction (CreditTransaction.mk platform_tx_id (CreditAccount.id platform_account)
                     event_id tt (if is_income then DEBIT else CREDIT) amount ct);;
  commit;;
  ret user_account.

(** ** The four orchestrators that write an event *)

Inductive Call :=
| Recharge (user_id : string) (amount : Decimal) (upstream_tx_id : string)
    (note : option string)
| Reward (user_id : string) (amount : Decimal) (upstream_tx_id : string)
    (note : option string)
| Adjustment (user_id : string) (credit_type : CreditType) (amount : Decimal)
    (upstream_tx_id : string) (note : string)
| ExpenseMessage (agent_id user_id message_id start_message_id : string)
    (base_llm_amount agent_fee_percentage : Decimal) (agent_owner_id : string).

Definition run_call (config : Config) (c : Call) : M CreditAccount.t :=
  match c with
  | Recharge user_id amount upstream_tx_id note =>
      recharge user_id amount upstream_tx_id note
  | Reward user_id amount upstream_tx_id note =>
      reward user_id amount upstream_tx_id note
  | Adjustment user_id credit_type amount upstream_tx_id note =>
      adjustment user_id credit_type amount upstream_tx_id note
  | ExpenseMessage agent_id user_id message_id start_message_id base_llm_amount
      agent_fee_percentage agent_owner_id =>
      expense_message config agent_id user_id message_id start_message_id
        base_llm_amount agent_fee_percentage agent_owner_id
  end.

(** The user a call is for. *)
Definition call_user (c : Call) : string :=
  match c with
  | Recharge user_id _ _ _ | Reward user_id _ _ _ | Adjustment user_id _ _ _ _
  | ExpenseMessage _ user_id _ _ _ _ _ => user_id
  end.

(** The idempotency key of a call: the three API orchestrators pass
    [UpstreamType.API] and their [upstream_tx_id], [expense_message] passes
    [UpstreamType.EXECUTOR] and its [message_id]. *)
Definition call_upstream_type (c : Call) : UpstreamType.t :=
  match c with
  | ExpenseMessage _ _ _ _ _ _ _ => UpstreamType.EXECUTOR
  | _ => UpstreamType.API
  end.

Definition call_upstream_tx_id (c : Call) : string :=
  match c with
  | Recharge _ _ upstream_tx_id _ | Reward _ _ upstream_tx_id _
  | Adjustment _ _ _ upstream_tx_id _ => upstream_tx_id
  | ExpenseMessage _ _ message_id _ _ _ _ => message_id
  end.

(** ** The errors by kind *)

(** Modelled from the spec: the error kinds of §7, which [credit.py] does
    not declare: it raises [ValueError] with a message, and [HTTPException]
    with status 404 for a missing event. *)
Module ErrorKind.
Inductive t :=
| DuplicateUpstreamTx | InvalidAmount | MissingNote | InsufficientFunds
| AccountNotFound | NotFound | StorageError.
End ErrorKind.

(** The messages of the [ValueError]s that §7 counts as invalid amounts (a
    negative refill amount, which §7 does not list, is taken as one too), and
    of those it counts as missing notes. *)
Definition invalid_amount_messages : list string :=
  [ "Recharge amount must be positive";
    "Reward amount must be positive";
    "Adjustment amount cannot be zero";
    "Daily quota must be positive";
    "Refill amount cannot be negative";
    "Refill amount cannot exceed daily quota";
    "Base LLM amount must be non-negative" ].

Definition missing_note_messages : list string :=
  [ "Adjustment requires a note explaining the reason";
    "Quota update requires a note explaining the reason" ].

(** Modelled from the spec: the kind §7 gives to a failure, read off the
    exception, by its message for a [ValueError]. *)
Definition error_kind (e : Exn) : option ErrorKind.t :=
  match e with
  | DuplicateUpstreamTx => Some ErrorKind.DuplicateUpstreamTx
  | InvalidAmount => Some ErrorKind.InvalidAmount
  | InsufficientFunds => Some ErrorKind.InsufficientFunds
  | HTTPException status_code _ =>
      if decide (status_code = 404%Z) then Some ErrorKind.NotFound else None
  | ValueError msg =>
      if bool_decide (msg ∈ invalid_amount_messages) then Some ErrorKind.InvalidAmount
      else if bool_decide (msg ∈ missing_note_messages) then Some ErrorKind.MissingNote
      else None
  end.

(** ** [update_daily_quota], its outcome *)

(** The account with its two quota fields overwritten. *)
Definition with_quota (free_quota refill_amount : Decimal) (a : CreditAccount.t)
    : CreditAccount.t :=
  CreditAccount.mk (CreditAccount.id a) (CreditAccount.owner_type a)
    (CreditAccount.owner_id a) (CreditAccount.credits a) (CreditAccount.free_credits a)
    (CreditAccount.reward_credits a) free_quota refill_amount
    (CreditAccount.last_refill_at a).

(** The session [update_daily_quota] leaves when it returns [user_account]. *)
Definition quota_committed (user_id : string) (user_account : CreditAccount.t) (s : Session)
    : Session :=
  let d := mkDb (<[(USER, user_id) := user_account]> (accounts (db s))) (events (db s))
                (transactions (db s)) in
  mkSession d d (xids (with_row USER user_id s)) (now s).

(** ** Stores and calls of the scenarios *)

(** The session after the recharge of 100 credits to U1 under the upstream
    id T1. *)
Definition after_recharge : Session :=
  (recharge "U1" (dec 100) "T1" None (fresh_session 0)).2.

(** The session after a recharge of 100 and a reward of 7 to U1: two INCOME
    events on U1's account. *)
Definition after_recharge_and_reward : Session :=
  (reward "U1" (dec 7) "T3" None after_recharge).2.

(** A store where user U1 holds 3 reward credits and nothing else. *)
Definition three_reward_credits : Session :=
  let u1 := CreditAccount.mk "acc1" USER "U1" 0 0 (dec 3) 0 0 0 in
  let d := mkDb {[ (USER, "U1") := u1 ]} [] [] in
  mkSession d d 0 0.

(** The spec's third scenario: user U1 holds 10 permanent, 3 free and 2
    reward credits; the platform fee is 25%. *)
Definition tri_pool_start : Session :=
  let u1 := CreditAccount.mk "acc1" USER "U1" (dec 10) (dec 3) (dec 2) 0 0 0 in
  let d := mkDb {[ (USER, "U1") := u1 ]} [] [] in
  mkSession d d 0 0.

Definition quarter_fee : Config := mkConfig (frac 1 4).

(** The session after the recharge under the API id T1 and a message whose
    id is T1 too: an API event and an EXECUTOR event with one upstream id. *)
Definition shared_upstream_id : Session :=
  (expense_message quarter_fee "A1" "U1" "T1" "M0" (dec 4) (frac 1 2) "U2" after_recharge).2.

(** ** [list_fee_events_by_agent] *)

(** [if cursor: stmt = stmt.where(CreditEventTable.id < cursor)], the clause
    the two listings share; [if cursor:] fails for [None] and for the empty
    string. *)
Definition cursor_clause (cursor : option string) (e : CreditEvent.t) : bool :=
  match cursor with
  | Some c => if decide (c = "") then true else String.ltb (CreditEvent.id e) c
  | None => true
  end.

(** The [WHERE] clauses of [list_fee_events_by_agent]. A comparison with a
    [NULL] column does not hold. *)
Definition agent_fee_events_filter (agent_account : CreditAccount.t)
    (cursor : option string) (e : CreditEvent.t) : bool :=
  bool_decide (CreditEvent.fee_agent_account e = Some (CreditAccount.id agent_account))
  && match CreditEvent.fee_agent_amount e with
     | Some fee => bool_decide (0 < fee)
     | None => false
     end
  && cursor_clause cursor e.

Definition list_fee_events_by_agent (agent_id : string) (cursor : option string)
    (limit : Z) : M (list CreditEvent.t * option string * bool) :=
  let* agent_account := get_in_session AGENT agent_id in
  match agent_account with
  | None => ret ([], None, false)
  | Some agent_account =>
      fun s =>
        let events_data :=
          select_events (agent_fee_events_filter agent_account cursor) (limit + 1) (db s) in
        let has_more := bool_decide (limit < Z.of_nat (length events_data))%Z in
        let events_to_return := slice_to events_data limit in
        let next_cursor := CreditEvent.id <$> last events_to_return in
        (Ok (events_to_return, next_cursor, has_more), s)
  end.

(** ** Notions of the statements on the listings *)

(** Everything a filter selects, in the order of the query, without a
    [LIMIT]. *)
Definition all_selected (p : CreditEvent.t -> bool) (d : Db) : list CreditEvent.t :=
  EventSort.sort (List.filter p (events d)).

(** The page both listings compute from their filter. *)
Definition page (p : CreditEvent.t -> bool) (limit : Z) (d : Db)
    : list CreditEvent.t * option string * bool :=
  let events_data := select_events p (limit + 1) d in
  (slice_to events_data limit,
   CreditEvent.id <$> last (slice_to events_data limit),
   bool_decide (limit < Z.of_nat (length events_data))%Z).

(** The part of the user listing's filter that does not depend on the
    cursor. *)
Definition user_events_base (account : CreditAccount.t) (direction : Direction)
    (event_type : option EventType.t) (e : CreditEvent.t) : bool :=
  bool_decide (CreditEvent.account_id e = CreditAccount.id account)
  && bool_decide (CreditEvent.direction e = direction)
  && match event_type with
     | Some et => bool_decide (CreditEvent.event_type e = et)
     | None => true
     end.

(** The same part of the agent listing's filter. *)
Definition agent_fee_events_base (agent_account : CreditAccount.t) (e : CreditEvent.t)
    : bool :=
  bool_decide (CreditEvent.fee_agent_account e = Some (CreditAccount.id agent_account))
  && match CreditEvent.fee_agent_amount e with
     | Some fee => bool_decide (0 < fee)
     | None => false
     end.

(** Event ids are a primary key, and [XID] gives no empty id. *)
Definition event_ids_sound (d : Db) : Prop :=
  NoDup (CreditEvent.id <$> events d) ∧ ∀ e, e ∈ events d -> CreditEvent.id e ≠ "".

(** ** Notions of the statements on the calls *)

(** The arguments pass the validation of the orchestrator: a positive
    amount for [recharge] and [reward], a non-zero amount and a note for
    [adjustment], a base amount that is not negative for
    [expense_message]. *)
Definition call_valid (c : Call) : Prop :=
  match c with
  | Recharge _ amount _ _ | Reward _ amount _ _ => 0 < amount
  | Adjustment _ _ amount _ note => amount ≠ 0 ∧ note ≠ ""
  | ExpenseMessage _ _ _ _ base_llm_amount _ _ => 0 ≤ base_llm_amount
  end.

(** The user's pool covers the debit of the call: a negative [adjustment]
    debits [|amount|] from the pool it names, as the locked read finds it;
    the other API calls debit no user. *)
Definition call_covered (c : Call) (s : Session) : Prop :=
  match c with
  | Adjustment user_id credit_type amount _ _ =>
      amount < 0 ->
      ¬ CreditAccount.pool credit_type (locked_row USER user_id s) < Qcabs amount
  | _ => True
  end.

(** No two events of the store have the same
    [(upstream_type, upstream_tx_id)]. *)
Definition upstream_keys_unique (d : Db) : Prop :=
  NoDup ((fun e => (CreditEvent.upstream_type e, CreditEvent.upstream_tx_id e))
           <$> events d).

(** The session after two messages of U1 to agent A1, which U2 owns: two
    events with an agent fee. *)
Definition after_message : Session :=
  (expense_message quarter_fee "A1" "U1" "M1" "M0" (dec 4) (frac 1 2) "U2" tri_pool_start).2.

Definition after_two_messages : Session :=
  (expense_message quarter_fee "A1" "U1" "M2" "M0" (dec 2) (frac 1 2) "U2" after_message).2.

(** * Properties *)

(** ** Arithmetic on amounts *)

Lemma this_plus (a b : Qc) : (this (a + b) == this a + this b)%Q.
Proof. unfold Qcplus. cbn [this Q2Qc]. apply Qred_correct. Qed.

Lemma this_opp (a : Qc) : (this (- a) == - this a)%Q.
Proof. unfold Qcopp. cbn [this Q2Qc]. apply Qred_correct. Qed.

Lemma this_minus (a b : Qc) : (this (a - b) == this a - this b)%Q.
Proof. unfold Qcminus. rewrite this_plus, this_opp. reflexivity. Qed.

Lemma this_mult (a b : Qc) : (this (a * b) == this a * this b)%Q.
Proof. unfold Qcmult. cbn [this Q2Qc]. apply Qred_correct. Qed.

Lemma this_Q2Qc (q : Q) : (this (Q2Qc q) == q)%Q.
Proof. cbn [this Q2Qc]. apply Qred_correct. Qed.

Lemma Qc_eq_this (a b : Qc) : a = b -> (this a == this b)%Q.
Proof. intros ->. reflexivity. Qed.

(** Linear goals over [Qc], sent to [lra] over [Q]. *)
Ltac qc_lra :=
  unfold Qcle, Qclt in *;
  repeat match goal with
         | H : @eq Qc _ _ |- _ => apply Qc_eq_this in H
         | H : ~ @eq Qc _ _ |- _ =>
             let H' := fresh in
             assert (H' : ~ (this _ == this _)%Q)
               by (intro; apply H; apply Qc_is_canon; eassumption);
             clear H
         end;
  try apply Qc_is_canon;
  rewrite ?this_plus, ?this_minus, ?this_opp, ?this_mult, ?this_Q2Qc in *;
  lra.

Lemma Qcabs_of_neg (a : Qc) : a < 0 -> Qcabs a = - a.
Proof. intros H. apply Qcabs_neg. apply Qclt_le_weak, H. Qed.

(** ** [Decimal] arithmetic keeps the sign *)

Lemma digits_upto_spec (fuel : nat) (n : Z) :
  (1 ≤ n)%Z -> (n < 2 ^ Z.of_nat fuel)%Z ->
  (1 ≤ digits_upto fuel n)%Z
  ∧ (10 ^ (digits_upto fuel n - 1) ≤ n < 10 ^ digits_upto fuel n)%Z.
Proof.
  revert n. induction fuel as [|fuel IH]; intros n Hn Hfuel.
  - change (2 ^ Z.of_nat 0)%Z with 1%Z in Hfuel. lia.
  - cbn [digits_upto]. destruct (Z.ltb_spec n 10) as [Hsmall|Hbig].
    + change (10 ^ (1 - 1))%Z with 1%Z. change (10 ^ 1)%Z with 10%Z. lia.
    + assert (Hdiv : (1 ≤ n / 10)%Z).
      { apply Z.div_le_lower_bound; lia. }
      assert (Hless : (n / 10 < 2 ^ Z.of_nat fuel)%Z).
      { apply Z.div_lt_upper_bound; [lia|].
        rewrite Nat2Z.inj_succ, Z.pow_succ_r in Hfuel by lia. lia. }
      destruct (IH (n / 10)%Z Hdiv Hless) as (Hd & Hlo & Hhi).
      set (d := digits_upto fuel (n / 10)) in *.
      replace (1 + d - 1)%Z with (Z.succ (d - 1)) by lia.
      replace (1 + d)%Z with (Z.succ d) by lia.
      rewrite !Z.pow_succ_r by lia.
      pose proof (Z.div_mod n 10 ltac:(lia)) as Hdm.
      pose proof (Z.mod_pos_bound n 10 ltac:(lia)) as Hmod.
      split; [lia|]. split; lia.
Qed.

Lemma num_digits_spec (n : Z) :
  (1 ≤ n)%Z ->
  (1 ≤ num_digits n)%Z ∧ (10 ^ (num_digits n - 1) ≤ n < 10 ^ num_digits n)%Z.
Proof.
  intros Hn. apply digits_upto_spec; [exact Hn|].
  rewrite Nat2Z.inj_succ, Z2Nat.id by apply Z.log2_nonneg.
  apply Z.log2_spec. lia.
Qed.

Lemma pow10_pos (k : Z) : (0 < 10 ^ k)%Q.
Proof. apply Qpower_0_lt. reflexivity. Qed.

Lemma inject_Z_pos (n : Z) : (0 < n)%Z -> (0 < inject_Z n)%Q.
Proof. intros H. change 0%Q with (inject_Z 0). rewrite <- Zlt_Qlt. exact H. Qed.

Lemma adjusted_le (x : Q) : (0 < x)%Q -> (10 ^ adjusted x <= x)%Q.
Proof.
  intros Hx. unfold adjusted.
  set (p := Qnum x). set (q := Zpos (Qden x)).
  destruct (Qle_bool (10 ^ (num_digits p - num_digits q)) x) eqn:Htest.
  - apply Qle_bool_iff, Htest.
  - assert (Hp : (1 ≤ p)%Z).
    { destruct x as [xn xd]. unfold Qlt in Hx. cbn in Hx, p. subst p. lia. }
    assert (Hq : (1 ≤ q)%Z) by (subst q; lia).
    destruct (num_digits_spec p Hp) as (Hdp & Hplo & _).
    destruct (num_digits_spec q Hq) as (Hdq & _ & Hqhi).
    set (dp := num_digits p) in *. set (dq := num_digits q) in *.
    replace (dp - dq - 1)%Z with ((dp - 1) + - dq)%Z by lia.
    rewrite Qpower_plus by discriminate. rewrite Qpower_opp.
    rewrite <- !(Zpower_Qpower 10) by lia.
    assert (Hx' : (x == inject_Z p / inject_Z q)%Q).
    { destruct x as [xn xd]. subst p q. cbn [Qnum Qden]. apply Qmake_Qdiv. }
    rewrite Hx'. unfold Qdiv.
    assert (Hqpos : (0 < inject_Z q)%Q) by (apply inject_Z_pos; lia).
    assert (Hdpos : (0 < inject_Z (10 ^ dq))%Q) by (apply inject_Z_pos; lia).
    apply Qle_shift_div_l; [exact Hqpos|].
    rewrite <- Qmult_assoc, (Qmult_comm (/ _)), Qmult_assoc.
    apply Qle_shift_div_r; [exact Hdpos|].
    rewrite <- !inject_Z_mult, <- Zle_Qle. nia.
Qed.

Lemma round_half_even_floor (y : Q) : (Qfloor y ≤ round_half_even y)%Z.
Proof.
  unfold round_half_even. destruct (_ ?= _)%Q; [destruct (Z.even _)| |]; lia.
Qed.

Lemma fix_positive_pos (x : Q) : (0 < x)%Q -> (0 < fix_positive x)%Q.
Proof.
  intros Hx. unfold fix_positive. set (shift := (prec - 1 - adjusted x)%Z).
  apply Qmult_lt_0_compat; [|apply pow10_pos].
  assert (Hone : (1 <= x * 10 ^ shift)%Q).
  { apply Qle_trans with (10 ^ adjusted x * 10 ^ shift)%Q.
    - rewrite <- Qpower_plus by discriminate.
      replace (adjusted x + shift)%Z with (prec - 1)%Z by (subst shift; lia).
      discriminate.
    - apply Qmult_le_compat_r; [apply adjusted_le, Hx|apply Qlt_le_weak, pow10_pos]. }
  apply Qfloor_resp_le in Hone. change (Qfloor 1) with 1%Z in Hone.
  pose proof (round_half_even_floor (x * 10 ^ shift)) as Hfloor.
  apply inject_Z_pos. lia.
Qed.

(** Rounding to 28 significant digits never reaches or crosses zero. *)
Lemma Decimal_fix_pos (x : Decimal) : 0 < Decimal_fix x ↔ 0 < x.
Proof.
  unfold Decimal_fix, Qclt. destruct (0 ?= x)%Q eqn:Hcmp.
  - apply Qeq_alt in Hcmp. change (this 0) with 0%Q. rewrite <- Hcmp. reflexivity.
  - apply Qlt_alt in Hcmp. rewrite (this_Q2Qc (fix_positive x)). change (this 0) with 0%Q.
    split; intros _; [exact Hcmp|]. apply fix_positive_pos, Hcmp.
  - apply Qgt_alt in Hcmp. rewrite this_opp, (this_Q2Qc (fix_positive (- x))).
    change (this 0) with 0%Q.
    assert (Hneg : (0 < - x)%Q) by lra.
    apply fix_positive_pos in Hneg. split; intros H; lra.
Qed.

(** A product that is not positive, of factors that are not negative,
    rounds to zero. *)
Lemma Decimal_mul_not_pos (a b : Decimal) :
  0 ≤ a -> 0 ≤ b -> ¬ 0 < Decimal_mul a b -> Decimal_mul a b = 0.
Proof.
  intros Ha Hb Hno. unfold Decimal_mul in *. rewrite Decimal_fix_pos in Hno.
  assert (Hzero : a * b = 0).
  { apply Qcle_antisym; [apply Qcnot_lt_le, Hno|].
    unfold Qcle in *. rewrite this_mult. change (this 0) with 0%Q in *.
    apply Qmult_le_0_compat; assumption. }
  rewrite Hzero. reflexivity.
Qed.

(** The sums of [total_amount], when both are exact. *)
Lemma Decimal_add_exact (a b c : Decimal) :
  exact (a + b) -> exact (a + b + c) -> Decimal_add (Decimal_add a b) c = a + b + c.
Proof. unfold exact, Decimal_add. intros H1 H2. rewrite H1. exact H2. Qed.

(** ** The primitives, run *)

Lemma get_or_create_run ot oid b s :
  get_or_create_in_session ot oid b s = (Ok (row_or_new ot oid s), with_row ot oid s).
Proof.
  unfold get_or_create_in_session, bind, get_in_session, row_or_new, with_row.
  destruct (accounts (db s) !! (ot, oid)); reflexivity.
Qed.

Lemma locked_account_run ot oid s :
  locked_account ot oid s = (Ok (locked_row ot oid s), with_row ot oid s).
Proof.
  unfold locked_account, bind. rewrite get_or_create_run.
  unfold locked_row, row_or_new, with_row.
  destruct (accounts (db s) !! (ot, oid)); reflexivity.
Qed.

Lemma income_run ot oid amount ct s :
  0 < amount ->
  income_in_session ot oid amount ct s =
    (let a := locked_row ot oid s in
     let a' := CreditAccount.set_pool ct (CreditAccount.pool ct a + amount) a in
     (Ok a', put_row ot oid a' (with_row ot oid s))).
Proof.
  intros Hpos. unfold income_in_session.
  destruct (decide (amount ≤ 0)) as [Hle|_].
  - exfalso. apply (Qclt_not_le _ _ Hpos Hle).
  - unfold bind. rewrite locked_account_run. reflexivity.
Qed.

Lemma income_invalid ot oid amount ct s :
  amount ≤ 0 -> income_in_session ot oid amount ct s = (Raise InvalidAmount, s).
Proof.
  intros Hle. unfold income_in_session. destruct (decide (amount ≤ 0)); [reflexivity|contradiction].
Qed.

Lemma deduction_run ot oid ct amount s :
  ot = PLATFORM ∨ ¬ CreditAccount.pool ct (locked_row ot oid s) < amount ->
  deduction_in_session ot oid ct amount s =
    (let a := locked_row ot oid s in
     let a' := CreditAccount.set_pool ct (CreditAccount.pool ct a - amount) a in
     (Ok a', put_row ot oid a' (with_row ot oid s))).
Proof.
  intros Hcovered. unfold deduction_in_session, bind. rewrite locked_account_run.
  destruct (decide (ot ≠ PLATFORM ∧ CreditAccount.pool ct (locked_row ot oid s) < amount))
    as [[Hne Hlow]|_]; [|reflexivity].
  destruct Hcovered; contradiction.
Qed.

Lemma deduction_insufficient ot oid ct amount s :
  ot ≠ PLATFORM ->
  CreditAccount.pool ct (locked_row ot oid s) < amount ->
  deduction_in_session ot oid ct amount s = (Raise InsufficientFunds, with_row ot oid s).
Proof.
  intros Hne Hlow. unfold deduction_in_session, bind. rewrite locked_account_run.
  destruct (decide (ot ≠ PLATFORM ∧ CreditAccount.pool ct (locked_row ot oid s) < amount))
    as [_|Hno]; [reflexivity|].
  exfalso. apply Hno. split; assumption.
Qed.

Lemma upstream_seen_existsb ut tx s :
  existsb (same_upstream ut tx) (events (db s)) = true <-> upstream_seen ut tx s.
Proof.
  unfold upstream_seen, same_upstream. rewrite existsb_exists. split.
  - intros (e & Hin & He). apply andb_prop in He as [H1 H2].
    exists e. rewrite list_elem_of_In. split; [exact Hin|].
    split; [exact (bool_decide_eq_true_1 _ H1) | exact (bool_decide_eq_true_1 _ H2)].
  - intros (e & Hin & H1 & H2). exists e. rewrite <- list_elem_of_In. split; [exact Hin|].
    rewrite !bool_decide_eq_true_2 by assumption. reflexivity.
Qed.

Lemma check_upstream_duplicate ut tx s :
  upstream_seen ut tx s ->
  check_upstream_tx_id_exists ut tx s = (Raise DuplicateUpstreamTx, s).
Proof.
  intros H. apply upstream_seen_existsb in H.
  unfold check_upstream_tx_id_exists. rewrite H. reflexivity.
Qed.

Lemma check_upstream_new ut tx s :
  ¬ upstream_seen ut tx s -> check_upstream_tx_id_exists ut tx s = (Ok tt, s).
Proof.
  intros H. unfold check_upstream_tx_id_exists.
  destruct (existsb _ _) eqn:E; [|reflexivity].
  exfalso. apply H, upstream_seen_existsb, E.
Qed.

(** What get-or-create leaves untouched. *)
Lemma with_row_events ot oid s : events (db (with_row ot oid s)) = events (db s).
Proof. unfold with_row. destruct (_ !! _); reflexivity. Qed.

Lemma with_row_transactions ot oid s :
  transactions (db (with_row ot oid s)) = transactions (db s).
Proof. unfold with_row. destruct (_ !! _); reflexivity. Qed.

Lemma with_row_committed ot oid s : committed (with_row ot oid s) = committed s.
Proof. unfold with_row. destruct (_ !! _); reflexivity. Qed.

Lemma with_row_now ot oid s : now (with_row ot oid s) = now s.
Proof. unfold with_row. destruct (_ !! _); reflexivity. Qed.

Lemma with_row_lookup ot oid s :
  accounts (db (with_row ot oid s)) !! (ot, oid) = Some (row_or_new ot oid s).
Proof.
  unfold with_row, row_or_new. destruct (accounts (db s) !! (ot, oid)) eqn:E; simpl.
  - exact E.
  - apply lookup_insert_eq.
Qed.

Lemma with_row_lookup_ne ot oid s k :
  k ≠ (ot, oid) -> accounts (db (with_row ot oid s)) !! k = accounts (db s) !! k.
Proof.
  intros Hk. unfold with_row. destruct (accounts (db s) !! (ot, oid)); simpl; [reflexivity|].
  apply lookup_insert_ne. congruence.
Qed.

(** A row of another owner is found as before. *)
Lemma row_or_new_other ot oid ot' oid' a s :
  (ot', oid') ≠ (ot, oid) ->
  accounts (db (put_row ot oid a (with_row ot oid s))) !! (ot', oid')
  = accounts (db s) !! (ot', oid').
Proof.
  intros Hk. unfold put_row. simpl. rewrite lookup_insert_ne by congruence.
  apply with_row_lookup_ne, Hk.
Qed.

Lemma daily_refill_credits c a :
  CreditAccount.credits (daily_refill c a) = CreditAccount.credits a.
Proof. unfold daily_refill. repeat case_decide; reflexivity. Qed.

Lemma daily_refill_reward_credits c a :
  CreditAccount.reward_credits (daily_refill c a) = CreditAccount.reward_credits a.
Proof. unfold daily_refill. repeat case_decide; reflexivity. Qed.

Lemma row_or_new_pool ot oid s ct :
  CreditAccount.pool ct (row_or_new ot oid s) = pool_at (db s) ot oid ct.
Proof.
  unfold row_or_new, pool_at. destruct (accounts (db s) !! (ot, oid)); simpl; [reflexivity|].
  destruct ct; reflexivity.
Qed.

(** The refill touches [free_credits] of user accounts only. *)
Lemma locked_row_pool ot oid s ct :
  ct ≠ FREE ∨ ot ≠ USER ->
  CreditAccount.pool ct (locked_row ot oid s) = pool_at (db s) ot oid ct.
Proof.
  intros H. unfold locked_row. destruct (decide (ot = USER)) as [->|Hne].
  - destruct H as [H|H]; [|contradiction]. rewrite <- row_or_new_pool.
    destruct ct; simpl; [contradiction| |].
    + apply daily_refill_reward_credits.
    + apply daily_refill_credits.
  - apply row_or_new_pool.
Qed.

Lemma pool_set_pool ct v a : CreditAccount.pool ct (CreditAccount.set_pool ct v a) = v.
Proof. destruct ct; reflexivity. Qed.

Lemma pool_at_other ot oid a s ot' oid' ct :
  (ot', oid') ≠ (ot, oid) ->
  pool_at (db (put_row ot oid a (with_row ot oid s))) ot' oid' ct = pool_at (db s) ot' oid' ct.
Proof. intros Hk. unfold pool_at. rewrite row_or_new_other by exact Hk. reflexivity. Qed.

(** ** The entries of [recharge], [reward] and [adjustment], run *)

(** Symbolic execution of the orchestrators: one tactic per kind of step.
    The row and the session after an account primitive get names. *)
Ltac run_check := unfold bind; rewrite check_upstream_new by assumption; cbv beta iota zeta.

Ltac run_income a s' :=
  unfold bind; rewrite income_run by assumption; cbv beta iota zeta;
  match goal with
  | |- context [put_row ?ot ?oid ?r (with_row ?ot ?oid ?s0)] =>
      set (a := r); set (s' := put_row ot oid a (with_row ot oid s0))
  end.

Ltac run_deduction a s' :=
  unfold bind;
  rewrite deduction_run by first [left; reflexivity | right; assumption];
  cbv beta iota zeta;
  match goal with
  | |- context [put_row ?ot ?oid ?r (with_row ?ot ?oid ?s0)] =>
      set (a := r); set (s' := put_row ot oid a (with_row ot oid s0))
  end.

Ltac run_journal :=
  unfold bind, XID, add_event, add_transaction, commit, ret;
  cbn [xids db set_db committed now events transactions accounts].

Ltac same_tables :=
  repeat (cbn [xids db set_db committed now events transactions accounts put_row];
          rewrite ?with_row_events, ?with_row_transactions, ?with_row_committed,
            ?with_row_now).

Lemma recharge_shape user_id amount upstream_tx_id note :
  recharge user_id amount upstream_tx_id note =
    (check_upstream_tx_id_exists UpstreamType.API upstream_tx_id;;
     if decide (amount ≤ 0) then raise (ValueError "Recharge amount must be positive")
     else user_platform_entry true EventType.RECHARGE TransactionType.RECHARGE
            DEFAULT_PLATFORM_ACCOUNT_RECHARGE PERMANENT user_id amount upstream_tx_id note).
Proof. reflexivity. Qed.

Lemma reward_shape user_id amount upstream_tx_id note :
  reward user_id amount upstream_tx_id note =
    (check_upstream_tx_id_exists UpstreamType.API upstream_tx_id;;
     if decide (amount ≤ 0) then raise (ValueError "Reward amount must be positive")
     else user_platform_entry true EventType.REWARD TransactionType.REWARD
            DEFAULT_PLATFORM_ACCOUNT_REWARD REWARD user_id amount upstream_tx_id note).
Proof. reflexivity. Qed.

Lemma adjustment_shape user_id ct amount upstream_tx_id note :
  adjustment user_id ct amount upstream_tx_id note =
    (check_upstream_tx_id_exists UpstreamType.API upstream_tx_id;;
     if decide (amount = 0) then raise (ValueError "Adjustment amount cannot be zero")
     else if decide (note = "")
     then raise (ValueError "Adjustment requires a note explaining the reason")
     else user_platform_entry (bool_decide (0 < amount)) EventType.ADJUSTMENT
            TransactionType.ADJUSTMENT DEFAULT_PLATFORM_ACCOUNT_ADJUSTMENT ct user_id
            (Qcabs amount) upstream_tx_id (Some note)).
Proof. reflexivity. Qed.

(** What an entry does, for a positive amount that the user's pool covers
    when the user is debited: both accounts are written, no other account
    is, and one event and two legs are appended and committed. *)
Lemma user_platform_entry_run (is_income : bool) et tt platform_id ct user_id amount tx note s :
  0 < amount ->
  (is_income = false -> ¬ CreditAccount.pool ct (locked_row USER user_id s) < amount) ->
  let found := locked_row USER user_id s in
  let user_account :=
    CreditAccount.set_pool ct
      (if is_income then CreditAccount.pool ct found + amount
       else CreditAccount.pool ct found - amount) found in
  ∃ platform_account s' event_id user_tx_id platform_tx_id,
    user_platform_entry is_income et tt platform_id ct user_id amount tx note s
    = (Ok user_account, s')
    ∧ committed s' = db s'
    ∧ accounts (db s') !! (USER, user_id) = Some user_account
    ∧ accounts (db s') !! (PLATFORM, platform_id) = Some platform_account
    ∧ CreditAccount.pool ct platform_account
      = (if is_income then pool_at (db s) PLATFORM platform_id ct - amount
         else pool_at (db s) PLATFORM platform_id ct + amount)
    ∧ (∀ k, k ≠ (USER, user_id) -> k ≠ (PLATFORM, platform_id) ->
            accounts (db s') !! k = accounts (db s) !! k)
    ∧ events (db s')
      = events (db s)
        ++ [entry_event event_id et tx (if is_income then INCOME else EXPENSE)
              user_account amount ct note]
    ∧ transactions (db s')
      = transactions (db s)
        ++ [CreditTransaction.mk user_tx_id (CreditAccount.id user_account) event_id tt
              (if is_income then CREDIT else DEBIT) amount ct;
            CreditTransaction.mk platform_tx_id (CreditAccount.id platform_account)
              event_id tt (if is_income then DEBIT else CREDIT) amount ct].
Proof.
  intros Hpos Hcovered found user_account. subst found user_account.
  assert (Hk : (PLATFORM, platform_id) ≠ (USER, user_id)) by congruence.
  unfold user_platform_entry.
  destruct is_income.
  - run_income ua s1. run_deduction pa s2. run_journal.
    assert (Hev : events (db s2) = events (db s)) by (subst s2 s1; same_tables; reflexivity).
    assert (Htx : transactions (db s2) = transactions (db s))
      by (subst s2 s1; same_tables; reflexivity).
    rewrite Hev, Htx, <- ?app_assoc. cbn [app].
    eexists pa, _, _, _, _. split; [reflexivity|].
    cbn [xids db set_db committed now events transactions accounts].
    split_and!; try reflexivity.
    + subst s2. cbn [put_row set_db db accounts]. rewrite lookup_insert_ne by exact Hk.
      rewrite with_row_lookup_ne by congruence. subst s1. apply lookup_insert_eq.
    + subst s2. apply lookup_insert_eq.
    + subst pa. rewrite pool_set_pool, locked_row_pool by (right; discriminate).
      f_equal. apply (pool_at_other USER user_id ua s), Hk.
    + intros k Hku Hkp. subst s2. cbn [put_row set_db db accounts].
      rewrite lookup_insert_ne by congruence. rewrite with_row_lookup_ne by exact Hkp.
      subst s1. apply row_or_new_other. destruct k. exact Hku.
  - pose proof (Hcovered eq_refl) as Hfunds.
    run_deduction ua s1. run_income pa s2. run_journal.
    assert (Hev : events (db s2) = events (db s)) by (subst s2 s1; same_tables; reflexivity).
    assert (Htx : transactions (db s2) = transactions (db s))
      by (subst s2 s1; same_tables; reflexivity).
    rewrite Hev, Htx, <- ?app_assoc. cbn [app].
    eexists pa, _, _, _, _. split; [reflexivity|].
    cbn [xids db set_db committed now events transactions accounts].
    split_and!; try reflexivity.
    + subst s2. cbn [put_row set_db db accounts]. rewrite lookup_insert_ne by exact Hk.
      rewrite with_row_lookup_ne by congruence. subst s1. apply lookup_insert_eq.
    + subst s2. apply lookup_insert_eq.
    + subst pa. rewrite pool_set_pool, locked_row_pool by (right; discriminate).
      f_equal. apply (pool_at_other USER user_id ua s), Hk.
    + intros k Hku Hkp. subst s2. cbn [put_row set_db db accounts].
      rewrite lookup_insert_ne by congruence. rewrite with_row_lookup_ne by exact Hkp.
      subst s1. apply row_or_new_other. destruct k. exact Hku.
Qed.

(** A debit that the user's pool does not cover stops the entry at its
    first primitive: only the row that get-or-create inserted is new. *)
Lemma user_platform_entry_short et tt platform_id ct user_id amount tx note s :
  CreditAccount.pool ct (locked_row USER user_id s) < amount ->
  user_platform_entry false et tt platform_id ct user_id amount tx note s
  = (Raise InsufficientFunds, with_row USER user_id s).
Proof.
  intros Hlow. unfold user_platform_entry. unfold bind at 1.
  rewrite deduction_insufficient by first [discriminate | exact Hlow]. reflexivity.
Qed.


(** The idempotency check either stops the call or leaves the session as
    it is. *)
Lemma check_upstream_cases ut tx s :
  (upstream_seen ut tx s
   ∧ check_upstream_tx_id_exists ut tx s = (Raise DuplicateUpstreamTx, s))
  ∨ (¬ upstream_seen ut tx s ∧ check_upstream_tx_id_exists ut tx s = (Ok tt, s)).
Proof.
  destruct (existsb (same_upstream ut tx) (events (db s))) eqn:E.
  - left. apply upstream_seen_existsb in E. split; [exact E|].
    apply check_upstream_duplicate, E.
  - right. assert (H : ¬ upstream_seen ut tx s).
    { intros H. apply upstream_seen_existsb in H. congruence. }
    split; [exact H|]. apply check_upstream_new, H.
Qed.

(** ** Recharge *)

(** C2. [recharge] of a positive amount under a new upstream id succeeds and
    commits: the user's permanent pool grows by [amount], the [credits] pool
    of the platform RECHARGE account shrinks by [amount] and is negative
    afterwards when it held nothing before; one RECHARGE event of direction
    INCOME, total [amount] and credit type PERMANENT is appended, and exactly
    two legs, a CREDIT on the user account and a DEBIT on the platform
    account. *)
Theorem recharge_credits_user_debits_platform
    (user_id upstream_tx_id : string) (amount : Decimal) (note : option string) (s : Session) :
  0 < amount ->
  ¬ upstream_seen UpstreamType.API upstream_tx_id s ->
  ∃ user_account platform_account s' e t_user t_platform,
    recharge user_id amount upstream_tx_id note s = (Ok user_account, s')
    ∧ committed s' = db s'
    ∧ accounts (committed s') !! (USER, user_id) = Some user_account
    ∧ accounts (committed s') !! (PLATFORM, DEFAULT_PLATFORM_ACCOUNT_RECHARGE)
      = Some platform_account
    ∧ CreditAccount.credits user_account = pool_at (db s) USER user_id PERMANENT + amount
    ∧ CreditAccount.credits platform_account
      = pool_at (db s) PLATFORM DEFAULT_PLATFORM_ACCOUNT_RECHARGE PERMANENT - amount
    ∧ (pool_at (db s) PLATFORM DEFAULT_PLATFORM_ACCOUNT_RECHARGE PERMANENT ≤ 0 ->
       CreditAccount.credits platform_account < 0)
    ∧ events (committed s') = events (db s) ++ [e]
    ∧ CreditEvent.event_type e = EventType.RECHARGE
    ∧ CreditEvent.direction e = INCOME
    ∧ CreditEvent.total_amount e = amount
    ∧ CreditEvent.credit_type e = PERMANENT
    ∧ CreditEvent.account_id e = CreditAccount.id user_account
    ∧ transactions (committed s') = transactions (db s) ++ [t_user; t_platform]
    ∧ t_user = CreditTransaction.mk (CreditTransaction.id t_user)
                 (CreditAccount.id user_account) (CreditEvent.id e)
                 TransactionType.RECHARGE CREDIT amount PERMANENT
    ∧ t_platform = CreditTransaction.mk (CreditTransaction.id t_platform)
                     (CreditAccount.id platform_account) (CreditEvent.id e)
                     TransactionType.RECHARGE DEBIT amount PERMANENT.
Proof.
  intros Hpos Hnew.
  destruct (user_platform_entry_run true EventType.RECHARGE TransactionType.RECHARGE
              DEFAULT_PLATFORM_ACCOUNT_RECHARGE PERMANENT user_id amount upstream_tx_id note s
              Hpos ltac:(discriminate))
    as (pa & s' & eid & tid1 & tid2 & Hrun & Hc & Hu & Hp & Hpp & _ & Hev & Htx).
  cbv zeta in Hrun, Hu, Hev, Htx.
  assert (Hcredits : CreditAccount.credits pa
            = pool_at (db s) PLATFORM DEFAULT_PLATFORM_ACCOUNT_RECHARGE PERMANENT - amount)
    by exact Hpp.
  eexists _, pa, s', _, _, _. split.
  { rewrite recharge_shape. unfold bind at 1. rewrite (check_upstream_new _ _ _ Hnew).
    destruct (decide (amount ≤ 0)) as [Hle|_]; [exfalso; exact (Qclt_not_le _ _ Hpos Hle)|].
    exact Hrun. }
  rewrite Hc. split_and!; first [eassumption | reflexivity | idtac].
  - change (CreditAccount.credits ?a) with (CreditAccount.pool PERMANENT a).
    rewrite pool_set_pool, locked_row_pool by (left; discriminate). reflexivity.
  - intros Hzero. rewrite Hcredits. qc_lra.
Qed.

(** C2, at the spec's scenario: 100 credits recharged into an empty store. *)
Lemma recharge_credits_user_debits_platform_witness :
  ∃ user_account platform_account s' e t_user t_platform,
    recharge "U1" (dec 100) "T1" None (fresh_session 0) = (Ok user_account, s')
    ∧ committed s' = db s'
    ∧ accounts (committed s') !! (USER, "U1") = Some user_account
    ∧ accounts (committed s') !! (PLATFORM, DEFAULT_PLATFORM_ACCOUNT_RECHARGE)
      = Some platform_account
    ∧ CreditAccount.credits user_account
      = pool_at (db (fresh_session 0)) USER "U1" PERMANENT + dec 100
    ∧ CreditAccount.credits platform_account
      = pool_at (db (fresh_session 0)) PLATFORM DEFAULT_PLATFORM_ACCOUNT_RECHARGE PERMANENT
        - dec 100
    ∧ (pool_at (db (fresh_session 0)) PLATFORM DEFAULT_PLATFORM_ACCOUNT_RECHARGE PERMANENT ≤ 0 ->
       CreditAccount.credits platform_account < 0)
    ∧ events (committed s') = events (db (fresh_session 0)) ++ [e]
    ∧ CreditEvent.event_type e = EventType.RECHARGE
    ∧ CreditEvent.direction e = INCOME
    ∧ CreditEvent.total_amount e = dec 100
    ∧ CreditEvent.credit_type e = PERMANENT
    ∧ CreditEvent.account_id e = CreditAccount.id user_account
    ∧ transactions (committed s') = transactions (db (fresh_session 0)) ++ [t_user; t_platform]
    ∧ t_user = CreditTransaction.mk (CreditTransaction.id t_user)
                 (CreditAccount.id user_account) (CreditEvent.id e)
                 TransactionType.RECHARGE CREDIT (dec 100) PERMANENT
    ∧ t_platform = CreditTransaction.mk (CreditTransaction.id t_platform)
                     (CreditAccount.id platform_account) (CreditEvent.id e)
                     TransactionType.RECHARGE DEBIT (dec 100) PERMANENT.
Proof.
  apply (recharge_credits_user_debits_platform "U1" "T1" (dec 100) None (fresh_session 0)).
  - reflexivity.
  - intros (e & Hin & _). inversion Hin.
Defined.

(** The figures of that scenario: the user holds 100, the platform RECHARGE
    account -100, the event records a balance of 100. *)
Example recharge_scenario :
  let s' := (recharge "U1" (dec 100) "T1" None (fresh_session 0)).2 in
  pool_at (committed s') USER "U1" PERMANENT = dec 100
  ∧ pool_at (committed s') PLATFORM DEFAULT_PLATFORM_ACCOUNT_RECHARGE PERMANENT = dec (-100)
  ∧ List.map CreditEvent.balance_after (events (committed s')) = [dec 100]%list
  ∧ length (transactions (committed s')) = 2%nat.
Proof.
  cbv zeta. split_and!.
  - apply Qc_is_canon. vm_compute. reflexivity.
  - apply Qc_is_canon. vm_compute. reflexivity.
  - vm_compute. f_equal. apply Qc_is_canon. reflexivity.
  - vm_compute. reflexivity.
Qed.

(** ** Adjustment *)

Lemma Qcabs_nonzero_pos (a : Qc) : a ≠ 0 -> 0 < Qcabs a.
Proof.
  intros Hne. destruct (Qclt_le_dec a 0) as [Hneg|Hpos].
  - rewrite (Qcabs_of_neg _ Hneg). qc_lra.
  - rewrite (Qcabs_pos _ Hpos). destruct (Qcle_lt_or_eq _ _ Hpos) as [H|H]; [exact H|].
    congruence.
Qed.

(** A successful call has passed its checks, and what remains of it is an
    entry. *)
Lemma recharge_ok_inv user_id amount tx note s ua s' :
  recharge user_id amount tx note s = (Ok ua, s') ->
  ¬ upstream_seen UpstreamType.API tx s ∧ 0 < amount
  ∧ user_platform_entry true EventType.RECHARGE TransactionType.RECHARGE
      DEFAULT_PLATFORM_ACCOUNT_RECHARGE PERMANENT user_id amount tx note s = (Ok ua, s').
Proof.
  rewrite recharge_shape. unfold bind at 1.
  destruct (check_upstream_cases UpstreamType.API tx s) as [[_ E]|[Hnew E]];
    rewrite E; [discriminate|].
  destruct (decide (amount ≤ 0)) as [|Hpos]; [discriminate|].
  intros H. split_and!; [exact Hnew| |exact H]. apply Qcnot_le_lt, Hpos.
Qed.

Lemma reward_ok_inv user_id amount tx note s ua s' :
  reward user_id amount tx note s = (Ok ua, s') ->
  ¬ upstream_seen UpstreamType.API tx s ∧ 0 < amount
  ∧ user_platform_entry true EventType.REWARD TransactionType.REWARD
      DEFAULT_PLATFORM_ACCOUNT_REWARD REWARD user_id amount tx note s = (Ok ua, s').
Proof.
  rewrite reward_shape. unfold bind at 1.
  destruct (check_upstream_cases UpstreamType.API tx s) as [[_ E]|[Hnew E]];
    rewrite E; [discriminate|].
  destruct (decide (amount ≤ 0)) as [|Hpos]; [discriminate|].
  intros H. split_and!; [exact Hnew| |exact H]. apply Qcnot_le_lt, Hpos.
Qed.

Lemma adjustment_ok_inv user_id ct amount tx note s ua s' :
  adjustment user_id ct amount tx note s = (Ok ua, s') ->
  ¬ upstream_seen UpstreamType.API tx s ∧ amount ≠ 0 ∧ note ≠ ""
  ∧ user_platform_entry (bool_decide (0 < amount)) EventType.ADJUSTMENT
      TransactionType.ADJUSTMENT DEFAULT_PLATFORM_ACCOUNT_ADJUSTMENT ct user_id
      (Qcabs amount) tx (Some note) s = (Ok ua, s').
Proof.
  rewrite adjustment_shape. unfold bind at 1.
  destruct (check_upstream_cases UpstreamType.API tx s) as [[_ E]|[Hnew E]];
    rewrite E; [discriminate|].
  destruct (decide (amount = 0)) as [|Hne]; [discriminate|].
  destruct (decide (note = "")) as [|Hnote]; [discriminate|].
  intros H. split_and!; assumption.
Qed.



(** The figures of that witness: the pool holds 3, less than the 5 to claw
    back; the call fails with [InsufficientFunds] and the pool still holds
    3. *)
Example adjustment_short_pool_scenario :
  let r := adjustment "U1" REWARD (dec (-5)) "T2" "claw back" three_reward_credits in
  pool_at (db three_reward_credits) USER "U1" REWARD = dec 3
  ∧ dec 3 < Qcabs (dec (-5))
  ∧ r.1 = Raise InsufficientFunds
  ∧ pool_at (db r.2) USER "U1" REWARD = dec 3
  ∧ pool_at (committed r.2) USER "U1" REWARD = dec 3.
Proof.
  cbv zeta. split_and!.
  - apply Qc_is_canon. vm_compute. reflexivity.
  - reflexivity.
  - vm_compute. reflexivity.
  - apply Qc_is_canon. vm_compute. reflexivity.
  - apply Qc_is_canon. vm_compute. reflexivity.
Qed.

(** ** Idempotency *)

(** C3. A call whose [(upstream_type, upstream_tx_id)] is the key of an event
    of the session raises [DuplicateUpstreamTx] and leaves the session as it
    found it: no account is written, no event or leg is added, nothing is
    committed, no id is drawn. *)
Theorem duplicate_upstream_is_rejected (config : Config) (c : Call) (s : Session) :
  upstream_seen (call_upstream_type c) (call_upstream_tx_id c) s ->
  run_call config c s = (Raise DuplicateUpstreamTx, s).
Proof.
  intros Hseen.
  destruct c; cbn [run_call call_upstream_type call_upstream_tx_id] in *.
  - unfold recharge, bind. rewrite (check_upstream_duplicate _ _ _ Hseen). reflexivity.
  - unfold reward, bind. rewrite (check_upstream_duplicate _ _ _ Hseen). reflexivity.
  - unfold adjustment, bind. rewrite (check_upstream_duplicate _ _ _ Hseen). reflexivity.
  - unfold expense_message, bind. rewrite (check_upstream_duplicate _ _ _ Hseen).
    reflexivity.
Qed.

(** C3, witness: the same recharge again (the spec's second scenario). *)
Lemma duplicate_upstream_is_rejected_witness :
  run_call (mkConfig (frac 1 4)) (Recharge "U1" (dec 100) "T1" None) after_recharge
  = (Raise DuplicateUpstreamTx, after_recharge).
Proof.
  apply (duplicate_upstream_is_rejected (mkConfig (frac 1 4))
           (Recharge "U1" (dec 100) "T1" None) after_recharge).
  apply upstream_seen_existsb. vm_compute. reflexivity.
Defined.

(** ** [expense_message], run *)

Lemma expense_run ot oid amount s :
  ¬ CreditAccount.balance (locked_row ot oid s) < amount ->
  expense_in_session ot oid amount s =
    (let spent := tri_pool_deduction (locked_row ot oid s) amount in
     (Ok spent, put_row ot oid spent.1 (with_row ot oid s))).
Proof.
  intros Hle. unfold expense_in_session, bind. rewrite locked_account_run.
  destruct (decide (CreditAccount.balance (locked_row ot oid s) < amount));
    [contradiction|reflexivity].
Qed.

Lemma expense_insufficient ot oid amount s :
  CreditAccount.balance (locked_row ot oid s) < amount ->
  expense_in_session ot oid amount s = (Raise InsufficientFunds, with_row ot oid s).
Proof.
  intros Hlt. unfold expense_in_session, bind. rewrite locked_account_run.
  destruct (decide (CreditAccount.balance (locked_row ot oid s) < amount));
    [reflexivity|contradiction].
Qed.

Ltac run_journal_in H :=
  unfold bind, XID, add_event, add_transaction, commit, ret in H;
  cbn [xids db set_db committed now events transactions accounts] in H.

(** What a successful [expense_message] has done. The legs are the user's
    PAY debit of the total, the platform's fee credit, and the agent's fee
    credit exactly when the agent fee is positive. *)
Lemma expense_message_ok_inv config agent_id user_id message_id start_message_id
    base_llm_amount agent_fee_percentage agent_owner_id s user_account s' :
  expense_message config agent_id user_id message_id start_message_id base_llm_amount
    agent_fee_percentage agent_owner_id s = (Ok user_account, s') ->
  let fee_platform_amount :=
    Decimal_mul base_llm_amount (payment_fee_platform_percentage config) in
  let fee_agent_amount :=
    if decide (user_id ≠ agent_owner_id)
    then Decimal_mul base_llm_amount agent_fee_percentage
    else 0 in
  let total_amount :=
    Decimal_add (Decimal_add base_llm_amount fee_platform_amount) fee_agent_amount in
  ∃ credit_type platform_account e user_tx_id platform_tx_id agent_legs,
    ¬ upstream_seen UpstreamType.EXECUTOR message_id s
    ∧ (user_account, credit_type)
      = tri_pool_deduction (locked_row USER user_id s) total_amount
    ∧ committed s' = db s'
    ∧ accounts (db s') !! (USER, user_id) = Some user_account
    ∧ events (db s') = events (db s) ++ [e]
    ∧ CreditEvent.event_type e = EventType.MESSAGE
    ∧ CreditEvent.upstream_type e = UpstreamType.EXECUTOR
    ∧ CreditEvent.upstream_tx_id e = message_id
    ∧ CreditEvent.direction e = EXPENSE
    ∧ CreditEvent.account_id e = CreditAccount.id user_account
    ∧ CreditEvent.total_amount e = total_amount
    ∧ CreditEvent.credit_type e = credit_type
    ∧ CreditEvent.balance_after e
      = CreditAccount.credits user_account + CreditAccount.free_credits user_account
        + CreditAccount.reward_credits user_account
    ∧ CreditEvent.base_amount e = base_llm_amount
    ∧ CreditEvent.fee_platform_amount e = Some fee_platform_amount
    ∧ CreditEvent.fee_agent_amount e = Some fee_agent_amount
    ∧ transactions (db s')
      = transactions (db s)
        ++ CreditTransaction.mk user_tx_id (CreditAccount.id user_account)
             (CreditEvent.id e) TransactionType.PAY DEBIT total_amount credit_type
        :: CreditTransaction.mk platform_tx_id (CreditAccount.id platform_account)
             (CreditEvent.id e) TransactionType.RECEIVE_FEE_PLATFORM CREDIT
             fee_platform_amount credit_type
        :: agent_legs
    ∧ ((0 < fee_agent_amount
        ∧ ∃ agent_tx_id agent_account,
            agent_legs = [CreditTransaction.mk agent_tx_id (CreditAccount.id agent_account)
                            (CreditEvent.id e) TransactionType.RECEIVE_FEE_AGENT CREDIT
                            fee_agent_amount credit_type]%list)
       ∨ (¬ 0 < fee_agent_amount ∧ agent_legs = [])).
Proof.
  intros Hrun fee_platform_amount fee_agent_amount total_amount.
  unfold expense_message in Hrun. unfold bind at 1 in Hrun.
  destruct (check_upstream_cases UpstreamType.EXECUTOR message_id s) as [[_ E]|[Hnew E]];
    rewrite E in Hrun; [discriminate|].
  destruct (decide (base_llm_amount < 0)); [discriminate|].
  cbv zeta in Hrun.
  fold fee_platform_amount fee_agent_amount in Hrun. fold total_amount in Hrun.
  unfold bind at 1 in Hrun.
  destruct (decide (CreditAccount.balance (locked_row USER user_id s) < total_amount))
    as [Hlow|Hfunds].
  { rewrite (expense_insufficient _ _ _ _ Hlow) in Hrun. discriminate. }
  rewrite (expense_run _ _ _ _ Hfunds) in Hrun. cbv zeta in Hrun.
  destruct (tri_pool_deduction (locked_row USER user_id s) total_amount)
    as [ua credit_type] eqn:Hspent.
  cbn [fst snd] in Hrun.
  set (s1 := put_row USER user_id ua (with_row USER user_id s)) in Hrun.
  unfold bind at 1 in Hrun.
  destruct (decide (fee_platform_amount ≤ 0)) as [Hfee|Hfee].
  { rewrite (income_invalid _ _ _ _ _ Hfee) in Hrun. discriminate. }
  apply Qcnot_le_lt in Hfee.
  rewrite (income_run _ _ _ _ _ Hfee) in Hrun. cbv zeta in Hrun.
  set (pa := CreditAccount.set_pool credit_type _ _) in Hrun.
  set (s2 := put_row PLATFORM _ pa _) in Hrun.
  assert (Hev2 : events (db s2) = events (db s)) by (subst s2 s1; same_tables; reflexivity).
  assert (Htx2 : transactions (db s2) = transactions (db s))
    by (subst s2 s1; same_tables; reflexivity).
  assert (Hu2 : accounts (db s2) !! (USER, user_id) = Some ua).
  { subst s2. cbn [put_row set_db db accounts]. rewrite lookup_insert_ne by congruence.
    rewrite with_row_lookup_ne by congruence. subst s1. apply lookup_insert_eq. }
  unfold bind at 1 in Hrun.
  destruct (decide (0 < fee_agent_amount)) as [Hagent|Hagent].
  - unfold bind at 1 in Hrun. rewrite (income_run _ _ _ _ _ Hagent) in Hrun.
    cbv zeta in Hrun.
    set (aa := CreditAccount.set_pool credit_type _ _) in Hrun.
    set (s3 := put_row AGENT _ aa _) in Hrun.
    assert (Hev3 : events (db s3) = events (db s))
      by (rewrite <- Hev2; subst s3; same_tables; reflexivity).
    assert (Htx3 : transactions (db s3) = transactions (db s))
      by (rewrite <- Htx2; subst s3; same_tables; reflexivity).
    assert (Hu3 : accounts (db s3) !! (USER, user_id) = Some ua).
    { subst s3. cbn [put_row set_db db accounts]. rewrite lookup_insert_ne by congruence.
      rewrite with_row_lookup_ne by congruence. exact Hu2. }
    unfold ret at 1 in Hrun. run_journal_in Hrun.
    rewrite Hev3, Htx3, <- ?app_assoc in Hrun. cbn [app] in Hrun.
    injection Hrun as <- <-.
    eexists credit_type, pa, _, _, _, _.
    cbn [xids db set_db committed now events transactions accounts].
    split_and!; first [eassumption | reflexivity | idtac].
    left. split; [exact Hagent|]. eexists _, aa. reflexivity.
  - unfold ret at 1 in Hrun. run_journal_in Hrun.
    rewrite Hev2, Htx2, <- ?app_assoc in Hrun. cbn [app] in Hrun.
    injection Hrun as <- <-.
    eexists credit_type, pa, _, _, _, _.
    cbn [xids db set_db committed now events transactions accounts].
    split_and!; first [eassumption | reflexivity | idtac].
    right. split; [exact Hagent|reflexivity].
Qed.

(** C5. After a successful [expense_message] the event it appended records
    [fee_agent_amount = base_llm_amount * agent_fee_percentage] when the user
    is not the agent's owner and [0] when he is, and
    [total_amount = base_amount + fee_platform_amount + fee_agent_amount],
    where [*] and [+] are those of [Decimal]: the product and the two sums
    are rounded to 28 significant digits, and they are the exact product
    and the exact sum whenever these have at most 28 significant digits.
    Among the legs it appended there is a RECEIVE_FEE_AGENT leg if and only
    if [fee_agent_amount > 0], and such a leg is a CREDIT of
    [fee_agent_amount] for that event. *)
Theorem expense_message_fee_split (config : Config)
    (agent_id user_id message_id start_message_id : string)
    (base_llm_amount agent_fee_percentage : Decimal) (agent_owner_id : string)
    (s : Session) (user_account : CreditAccount.t) (s' : Session) :
  expense_message config agent_id user_id message_id start_message_id base_llm_amount
    agent_fee_percentage agent_owner_id s = (Ok user_account, s') ->
  ∃ e legs fee_platform_amount fee_agent_amount,
    events (committed s') = events (db s) ++ [e]
    ∧ transactions (committed s') = transactions (db s) ++ legs
    ∧ CreditEvent.base_amount e = base_llm_amount
    ∧ CreditEvent.fee_platform_amount e = Some fee_platform_amount
    ∧ CreditEvent.fee_agent_amount e = Some fee_agent_amount
    ∧ fee_platform_amount = Decimal_mul base_llm_amount (payment_fee_platform_percentage config)
    ∧ (user_id ≠ agent_owner_id -> fee_agent_amount = Decimal_mul base_llm_amount agent_fee_percentage)
    ∧ (user_id = agent_owner_id -> fee_agent_amount = 0)
    ∧ CreditEvent.total_amount e
      = Decimal_add (Decimal_add (CreditEvent.base_amount e) fee_platform_amount)
          fee_agent_amount
    ∧ (user_id ≠ agent_owner_id -> exact (base_llm_amount * agent_fee_percentage) -> fee_agent_amount = base_llm_amount * agent_fee_percentage)
    ∧ (exact (CreditEvent.base_amount e + fee_platform_amount) ->
       exact (CreditEvent.base_amount e + fee_platform_amount + fee_agent_amount) ->
       CreditEvent.total_amount e
       = CreditEvent.base_amount e + fee_platform_amount + fee_agent_amount)
    ∧ ((∃ t, t ∈ legs ∧ CreditTransaction.tx_type t = TransactionType.RECEIVE_FEE_AGENT)
       ↔ 0 < fee_agent_amount)
    ∧ (∀ t, t ∈ legs -> CreditTransaction.tx_type t = TransactionType.RECEIVE_FEE_AGENT ->
            CreditTransaction.credit_debit t = CREDIT
            ∧ CreditTransaction.change_amount t = fee_agent_amount
            ∧ CreditTransaction.event_id t = CreditEvent.id e).
Proof.
  intros Hrun.
  destruct (expense_message_ok_inv _ _ _ _ _ _ _ _ _ _ _ Hrun)
    as (ct & pa & e & tid1 & tid2 & agent_legs & _ & _ & Hc & _ & Hev & _ & _ & _ & _ & _
        & Htotal & _ & _ & Hbase & Hfp & Hfa & Htx & Hagent).
  eexists e, _, _, _. rewrite Hc.
  split_and!;
    [exact Hev | exact Htx | exact Hbase | exact Hfp | exact Hfa | reflexivity
    | | | | | | | ].
  - intros Hne. destruct (decide (user_id ≠ agent_owner_id)); [reflexivity|contradiction].
  - intros Heq. destruct (decide (user_id ≠ agent_owner_id)); [contradiction|reflexivity].
  - rewrite Htotal, Hbase. reflexivity.
  - intros Hne Hexact. destruct (decide (user_id ≠ agent_owner_id)); [|contradiction].
    exact Hexact.
  - intros H1 H2. rewrite Htotal. rewrite Hbase in H1, H2 |- *.
    apply Decimal_add_exact; assumption.
  - split.
    + intros (t & Hin & Hty).
      destruct Hagent as [[Hpos _]|[_ ->]]; [exact Hpos|].
      rewrite !elem_of_cons in Hin. destruct Hin as [->|[->|Hin]]; try discriminate Hty.
      inversion Hin.
    + intros Hpos. destruct Hagent as [[_ (tid & aa & ->)]|[Hno _]]; [|contradiction].
      eexists. split; [do 2 apply list_elem_of_further; apply list_elem_of_here|reflexivity].
  - intros t Hin Hty. rewrite !elem_of_cons in Hin.
    destruct Hin as [->|[->|Hin]]; try discriminate Hty.
    destruct Hagent as [[_ (tid & aa & ->)]|[_ ->]].
    + apply list_elem_of_singleton in Hin. subst t. split_and!; reflexivity.
    + inversion Hin.
Qed.

(** C5, witness: the message of the spec's third scenario (base 4, platform
    fee 25%, agent fee 50%, the agent owned by another user). *)
Lemma expense_message_fee_split_witness :
  ∃ user_account s',
    expense_message quarter_fee "A1" "U1" "M1" "M0" (dec 4) (frac 1 2) "U2" tri_pool_start
    = (Ok user_account, s')
    ∧ ∃ e legs fee_platform_amount fee_agent_amount,
          events (committed s') = events (db tri_pool_start) ++ [e]
          ∧ transactions (committed s') = transactions (db tri_pool_start) ++ legs
          ∧ CreditEvent.base_amount e = dec 4
          ∧ CreditEvent.fee_platform_amount e = Some fee_platform_amount
          ∧ CreditEvent.fee_agent_amount e = Some fee_agent_amount
          ∧ fee_platform_amount = Decimal_mul (dec 4) (payment_fee_platform_percentage quarter_fee)
          ∧ ("U1" ≠ "U2" -> fee_agent_amount = Decimal_mul (dec 4) (frac 1 2))
          ∧ ("U1" = "U2" -> fee_agent_amount = 0)
          ∧ CreditEvent.total_amount e
            = Decimal_add (Decimal_add (CreditEvent.base_amount e) fee_platform_amount)
                fee_agent_amount
          ∧ ("U1" ≠ "U2" -> exact (dec 4 * frac 1 2) -> fee_agent_amount = dec 4 * frac 1 2)
          ∧ (exact (CreditEvent.base_amount e + fee_platform_amount) ->
             exact (CreditEvent.base_amount e + fee_platform_amount + fee_agent_amount) ->
             CreditEvent.total_amount e
             = CreditEvent.base_amount e + fee_platform_amount + fee_agent_amount)
          ∧ ((∃ t, t ∈ legs ∧ CreditTransaction.tx_type t = TransactionType.RECEIVE_FEE_AGENT)
             ↔ 0 < fee_agent_amount)
          ∧ (∀ t, t ∈ legs -> CreditTransaction.tx_type t = TransactionType.RECEIVE_FEE_AGENT ->
                  CreditTransaction.credit_debit t = CREDIT
                  ∧ CreditTransaction.change_amount t = fee_agent_amount
                  ∧ CreditTransaction.event_id t = CreditEvent.id e).
Proof.
  destruct (expense_message quarter_fee "A1" "U1" "M1" "M0" (dec 4) (frac 1 2) "U2"
              tri_pool_start) as [[user_account|x] s'] eqn:Hrun.
  - exists user_account, s'. split; [reflexivity|].
    exact (expense_message_fee_split quarter_fee "A1" "U1" "M1" "M0" (dec 4) (frac 1 2)
             "U2" tri_pool_start user_account s' Hrun).
  - vm_compute in Hrun. discriminate Hrun.
Defined.

(** A message whose amounts do not fit: with a base of
    1.000000000000000000000000001, a platform fee of 25% and an agent fee of
    33%, the platform fee is recorded as 0.2500000000000000000000000002, the
    agent fee as 0.3300000000000000000000000003 and the total as
    1.580000000000000000000000001, each rounded to 28 significant digits. *)
Example rounded_fee_scenario :
  let base := Q2Qc (1000000000000000000000000001 # 1000000000000000000000000000) in
  let s' := (expense_message quarter_fee "A1" "U1" "M1" "M0" base (frac 33 100) "U2"
               tri_pool_start).2 in
  List.map (fun e => this <$> CreditEvent.fee_platform_amount e) (events (committed s'))
  = [Some (1250000000000000000000000001 # 5000000000000000000000000000)%Q]%list
  ∧ List.map (fun e => this <$> CreditEvent.fee_agent_amount e) (events (committed s'))
    = [Some (3300000000000000000000000003 # 10000000000000000000000000000)%Q]%list
  ∧ List.map (fun e => this (CreditEvent.total_amount e)) (events (committed s'))
    = [(1580000000000000000000000001 # 1000000000000000000000000000)%Q]%list
  ∧ ¬ exact (base * frac 1 4).
Proof.
  cbv zeta. split_and!; [vm_compute; reflexivity..|].
  intros H. apply (f_equal this) in H. vm_compute in H. discriminate H.
Qed.

(** ** What the events and legs record *)

(** An entry that returns was covered. *)
Lemma user_platform_entry_ok_covered (is_income : bool) et tt platform_id ct user_id amount
    tx note s user_account s' :
  user_platform_entry is_income et tt platform_id ct user_id amount tx note s
  = (Ok user_account, s') ->
  is_income = false -> ¬ CreditAccount.pool ct (locked_row USER user_id s) < amount.
Proof.
  intros Hrun -> Hlow. rewrite (user_platform_entry_short _ _ _ _ _ _ _ _ _ Hlow) in Hrun.
  discriminate Hrun.
Qed.

Lemma user_platform_entry_ok (is_income : bool) et tt platform_id ct user_id amount tx note
    s user_account s' :
  0 < amount ->
  user_platform_entry is_income et tt platform_id ct user_id amount tx note s
  = (Ok user_account, s') ->
  ∃ platform_account event_id user_tx_id platform_tx_id,
    committed s' = db s'
    ∧ accounts (db s') !! (USER, user_id) = Some user_account
    ∧ events (db s')
      = events (db s)
        ++ [entry_event event_id et tx (if is_income then INCOME else EXPENSE)
              user_account amount ct note]
    ∧ transactions (db s')
      = transactions (db s)
        ++ [CreditTransaction.mk user_tx_id (CreditAccount.id user_account) event_id tt
              (if is_income then CREDIT else DEBIT) amount ct;
            CreditTransaction.mk platform_tx_id (CreditAccount.id platform_account)
              event_id tt (if is_income then DEBIT else CREDIT) amount ct].
Proof.
  intros Hpos Hrun.
  pose proof (user_platform_entry_ok_covered _ _ _ _ _ _ _ _ _ _ _ _ Hrun) as Hcovered.
  destruct (user_platform_entry_run is_income et tt platform_id ct user_id amount tx note s
              Hpos Hcovered)
    as (pa & s'' & eid & tid1 & tid2 & Hrun' & Hc & Hu & _ & _ & _ & Hev & Htx).
  rewrite Hrun' in Hrun. injection Hrun as <- <-.
  exists pa, eid, tid1, tid2. split_and!; assumption.
Qed.

(** A successful API call is a successful entry of a positive amount. *)
Lemma api_call_ok_inv config c s user_account s' :
  call_upstream_type c = UpstreamType.API ->
  run_call config c s = (Ok user_account, s') ->
  ∃ is_income et tt platform_id ct amount note,
    0 < amount
    ∧ user_platform_entry is_income et tt platform_id ct (call_user c) amount
        (call_upstream_tx_id c) note s = (Ok user_account, s').
Proof.
  intros Hapi Hrun. destruct c; cbn in Hapi, Hrun |- *; try discriminate Hapi.
  - apply recharge_ok_inv in Hrun as (_ & Hpos & Hrun). eauto 10.
  - apply reward_ok_inv in Hrun as (_ & Hpos & Hrun). eauto 10.
  - apply adjustment_ok_inv in Hrun as (_ & Hne & _ & Hrun).
    pose proof (Qcabs_nonzero_pos _ Hne). eauto 10.
Qed.



(** ** Double entry *)

Lemma leg_sum_cons side ct t legs :
  leg_sum side ct (t :: legs)
  = (if bool_decide (CreditTransaction.credit_debit t = side)
        && bool_decide (CreditTransaction.credit_type t = ct)
     then CreditTransaction.change_amount t + leg_sum side ct legs
     else leg_sum side ct legs).
Proof. reflexivity. Qed.

(** The legs that [recharge], [reward] and [adjustment] append balance: for
    every credit type the CREDIT legs and the DEBIT legs have the same sum. *)
Theorem api_call_legs_balance (config : Config) (c : Call) (s : Session)
    (user_account : CreditAccount.t) (s' : Session) :
  call_upstream_type c = UpstreamType.API ->
  run_call config c s = (Ok user_account, s') ->
  ∃ legs,
    transactions (committed s') = transactions (db s) ++ legs
    ∧ ∀ ct, leg_sum CREDIT ct legs = leg_sum DEBIT ct legs.
Proof.
  intros Hapi Hrun.
  destruct (api_call_ok_inv _ _ _ _ _ Hapi Hrun)
    as (is_income & et & tt & pid & ct & amount & note & Hpos & Hentry).
  destruct (user_platform_entry_ok _ _ _ _ _ _ _ _ _ _ _ _ Hpos Hentry)
    as (pa & eid & tid1 & tid2 & Hc & _ & _ & Htx).
  eexists. rewrite Hc. split; [exact Htx|].
  intros ct'. rewrite !leg_sum_cons. cbn [CreditTransaction.credit_debit
    CreditTransaction.credit_type CreditTransaction.change_amount leg_sum foldr].
  destruct is_income; repeat case_bool_decide; try congruence; cbn [andb]; ring.
Qed.

Lemma Qcmult_nonneg (a b : Qc) : 0 ≤ a -> 0 ≤ b -> 0 ≤ a * b.
Proof.
  unfold Qcle. rewrite this_mult. cbn [this Q2Qc]. rewrite Qred_correct.
  apply Qmult_le_0_compat.
Qed.

Lemma expense_message_ok_base config agent_id user_id message_id start_message_id
    base_llm_amount agent_fee_percentage agent_owner_id s user_account s' :
  expense_message config agent_id user_id message_id start_message_id base_llm_amount
    agent_fee_percentage agent_owner_id s = (Ok user_account, s') ->
  0 ≤ base_llm_amount.
Proof.
  unfold expense_message. unfold bind at 1.
  destruct (check_upstream_cases UpstreamType.EXECUTOR message_id s) as [[_ E]|[_ E]];
    rewrite E; [discriminate|].
  destruct (decide (base_llm_amount < 0)) as [|Hbase]; [discriminate|].
  intros _. apply Qcnot_lt_le, Hbase.
Qed.

(** The legs that [expense_message] appends do not: for an agent fee
    percentage that is not negative and amounts whose sums are exact, the
    DEBIT leg exceeds the CREDIT legs by [base_amount] under the event's
    credit type; under the other credit types there is no leg. *)
Theorem message_legs_differ_by_base (config : Config)
    (agent_id user_id message_id start_message_id : string)
    (base_llm_amount agent_fee_percentage : Decimal) (agent_owner_id : string)
    (s : Session) (user_account : CreditAccount.t) (s' : Session) :
  0 ≤ agent_fee_percentage ->
  expense_message config agent_id user_id message_id start_message_id base_llm_amount
    agent_fee_percentage agent_owner_id s = (Ok user_account, s') ->
  let fee_platform_amount :=
    Decimal_mul base_llm_amount (payment_fee_platform_percentage config) in
  let fee_agent_amount :=
    if decide (user_id ≠ agent_owner_id)
    then Decimal_mul base_llm_amount agent_fee_percentage
    else 0 in
  exact (base_llm_amount + fee_platform_amount) ->
  exact (base_llm_amount + fee_platform_amount + fee_agent_amount) ->
  ∃ e legs,
    events (committed s') = events (db s) ++ [e]
    ∧ transactions (committed s') = transactions (db s) ++ legs
    ∧ leg_sum DEBIT (CreditEvent.credit_type e) legs
      = leg_sum CREDIT (CreditEvent.credit_type e) legs + CreditEvent.base_amount e
    ∧ ∀ ct, ct ≠ CreditEvent.credit_type e ->
            leg_sum DEBIT ct legs = 0 ∧ leg_sum CREDIT ct legs = 0.
Proof.
  intros Hpct Hrun fee_platform_amount fee_agent_amount Hexact1 Hexact2.
  pose proof (expense_message_ok_base _ _ _ _ _ _ _ _ _ _ _ Hrun) as Hbase0.
  pose proof (Decimal_add_exact _ _ _ Hexact1 Hexact2) as Hsum.
  destruct (expense_message_ok_inv _ _ _ _ _ _ _ _ _ _ _ Hrun)
    as (ct & pa & e & tid1 & tid2 & agent_legs & _ & _ & Hc & _ & Hev & _ & _ & _ & _ & _
        & _ & Hct & _ & Hbase & _ & _ & Htx & Hagent).
  fold fee_platform_amount fee_agent_amount in Htx, Hagent.
  rewrite Hsum in Htx.
  eexists e, _. rewrite Hc, Hct, Hbase. split_and!; [exact Hev | exact Htx | | ].
  - destruct Hagent as [[_ (tid & aa & ->)]|[Hno ->]];
      rewrite !leg_sum_cons;
      cbn [CreditTransaction.credit_debit CreditTransaction.credit_type
           CreditTransaction.change_amount leg_sum foldr];
      repeat case_bool_decide; try congruence; cbn [andb]; [ring|].
    assert (Hfee : fee_agent_amount = 0).
    { subst fee_agent_amount.
      destruct (decide (user_id ≠ agent_owner_id)); [|reflexivity].
      apply Decimal_mul_not_pos; assumption. }
    rewrite Hfee. ring.
  - intros ct' Hne.
    destruct Hagent as [[_ (tid & aa & ->)]|[_ ->]];
      rewrite !leg_sum_cons;
      cbn [CreditTransaction.credit_debit CreditTransaction.credit_type
           CreditTransaction.change_amount leg_sum foldr];
      repeat case_bool_decide; try congruence; cbn [andb]; split; reflexivity.
Qed.

(** C1, at the message of the spec's third scenario: the event's DEBIT leg
    carries 7 permanent credits and its CREDIT legs 1 + 2 = 3; the base
    amount of 4 has no CREDIT leg. *)
Theorem expense_message_legs_unbalanced :
  let s' := (expense_message quarter_fee "A1" "U1" "M1" "M0" (dec 4) (frac 1 2) "U2"
               tri_pool_start).2 in
  ∃ e,
    events (committed s') = [e]%list
    ∧ CreditEvent.event_type e = EventType.MESSAGE
    ∧ CreditEvent.credit_type e = PERMANENT
    ∧ length (legs_of (CreditEvent.id e) (committed s')) = 3%nat
    ∧ leg_sum DEBIT PERMANENT (legs_of (CreditEvent.id e) (committed s')) = dec 7
    ∧ leg_sum CREDIT PERMANENT (legs_of (CreditEvent.id e) (committed s')) = dec 3
    ∧ leg_sum DEBIT PERMANENT (legs_of (CreditEvent.id e) (committed s'))
      ≠ leg_sum CREDIT PERMANENT (legs_of (CreditEvent.id e) (committed s')).
Proof.
  cbv zeta. eexists. split; [vm_compute; reflexivity|].
  split_and!.
  - reflexivity.
  - reflexivity.
  - vm_compute. reflexivity.
  - apply Qc_is_canon. vm_compute. reflexivity.
  - apply Qc_is_canon. vm_compute. reflexivity.
  - intros H. apply Qc_eq_this in H. vm_compute in H. discriminate H.
Qed.

(** ** [update_daily_quota] *)

Lemma with_row_insert ot oid a s :
  <[(ot, oid) := a]> (accounts (db (with_row ot oid s))) = <[(ot, oid) := a]> (accounts (db s)).
Proof.
  unfold with_row. destruct (accounts (db s) !! (ot, oid)); simpl; [reflexivity|].
  apply insert_insert_eq.
Qed.

(** The call, case by case: its outcome is decided by the arguments and by
    the quota fields of the row that get-or-create returns. *)
Lemma update_daily_quota_cases user_id free_quota refill_amount tx note s :
  let a := row_or_new USER user_id s in
  let q := default (CreditAccount.free_quota a) free_quota in
  let r := default (CreditAccount.refill_amount a) refill_amount in
  let result := update_daily_quota user_id free_quota refill_amount tx note s in
  (free_quota = None ∧ refill_amount = None
   ∧ result
     = (Raise (ValueError "At least one of free_quota or refill_amount must be provided"), s))
  ∨ (¬ (free_quota = None ∧ refill_amount = None)
     ∧ ((free_quota = Some q ∧ q ≤ 0
         ∧ result = (Raise (ValueError "Daily quota must be positive"),
                     with_row USER user_id s))
        ∨ ((∀ q', free_quota = Some q' -> 0 < q')
           ∧ ((refill_amount = Some r ∧ r < 0
               ∧ result = (Raise (ValueError "Refill amount cannot be negative"),
                           with_row USER user_id s))
              ∨ ((∀ r', refill_amount = Some r' -> 0 ≤ r')
                 ∧ ((q < r
                     ∧ result = (Raise (ValueError "Refill amount cannot exceed daily quota"),
                                 with_row USER user_id s))
                    ∨ (r ≤ q
                       ∧ ((note = ""
                           ∧ result
                             = (Raise (ValueError
                                         "Quota update requires a note explaining the reason"),
                                with_row USER user_id s))
                          ∨ (note ≠ ""
                             ∧ result = (Ok (with_quota q r a),
                                         quota_committed user_id (with_quota q r a) s)))))))))).
Proof.
  intros a q r result. subst result. unfold update_daily_quota.
  destruct free_quota as [q'|], refill_amount as [r'|];
    cbv [from_option id] in q, r; subst q r; cbn [is_none andb];
    try (left; split_and!; reflexivity); right;
    (split; [intros [? ?]; discriminate|]);
    unfold bind; rewrite get_or_create_run; fold a; unfold ret, raise.
  all: try (destruct (decide (q' ≤ 0)) as [Hq|Hq];
            [left; split_and!; [reflexivity|exact Hq|reflexivity]|]).
  all: right; split; [intros ? [= <-]; try (apply Qcnot_le_lt; assumption)|].
  all: try (destruct (decide (r' < 0)) as [Hr|Hr];
            [left; split_and!; [reflexivity|exact Hr|reflexivity]|]).
  all: right; split; [intros ? [= <-]; try (apply Qcnot_lt_le; assumption)|].
  all: match goal with
       | |- context [decide (?x < ?y)] =>
           destruct (decide (x < y)) as [Hqr|Hqr];
           [left; split; [exact Hqr|reflexivity]
           |right; split; [apply Qcnot_lt_le, Hqr|]]
       end.
  all: (destruct (decide (note = "")) as [Hn|Hn];
        [left; split; [exact Hn|reflexivity]
        |right; split; [exact Hn|]]).
  all: unfold update_account; rewrite with_row_lookup; fold a; unfold bind, commit;
    cbn [db set_db committed xids now accounts events transactions];
    unfold quota_committed; cbv zeta;
    rewrite with_row_insert, with_row_events, with_row_transactions, with_row_now;
    reflexivity.
Qed.

(** C7. With [q] and [r] the effective quota and refill amount (the
    argument, or the account's value where the argument is omitted):
    [update_daily_quota] fails with an [InvalidAmount] error whenever
    [r > q] and at least one argument is given; it fails when both are
    omitted, and it fails when the note is empty; no failure commits
    anything. When it returns, [r <= q], the account it returns is the
    user's account with exactly the two quota fields overwritten, that
    account is the only row written, and no event and no transaction is
    added. *)
Theorem update_daily_quota_validates
    (user_id : string) (free_quota refill_amount : option Decimal)
    (upstream_tx_id note : string) (s : Session) :
  let a := row_or_new USER user_id s in
  let q := default (CreditAccount.free_quota a) free_quota in
  let r := default (CreditAccount.refill_amount a) refill_amount in
  let result := update_daily_quota user_id free_quota refill_amount upstream_tx_id note s in
  (¬ (free_quota = None ∧ refill_amount = None) -> q < r ->
   ∃ e, result.1 = Raise e ∧ error_kind e = Some ErrorKind.InvalidAmount
        ∧ committed result.2 = committed s)
  ∧ (free_quota = None ∧ refill_amount = None -> ∃ e, result = (Raise e, s))
  ∧ (note = "" -> ∃ e, result.1 = Raise e ∧ committed result.2 = committed s)
  ∧ (∀ user_account, result.1 = Ok user_account ->
       r ≤ q
       ∧ user_account = with_quota q r a
       ∧ committed result.2 = db result.2
       ∧ accounts (committed result.2) = <[(USER, user_id) := user_account]> (accounts (db s))
       ∧ events (committed result.2) = events (db s)
       ∧ transactions (committed result.2) = transactions (db s)).
Proof.
  intros a q r result.
  pose proof (update_daily_quota_cases user_id free_quota refill_amount upstream_tx_id note s)
    as Hcases.
  cbv zeta in Hcases. fold a q r result in Hcases. fold a in Hcases. fold q r in Hcases.
  destruct Hcases as
    [(Hq & Hr & ->)
    |(Hsome & [(_ & Hle & ->)
              |(Hqpos & [(_ & Hneg & ->)
                        |(Hrpos & [(Hlt & ->)
                                  |(Hle & [(Hnote & ->)|(Hnote & ->)])])])])].
  - split_and!.
    + intros Hnot. exfalso. apply Hnot. split; assumption.
    + intros _. eexists. reflexivity.
    + intros _. eexists. split; reflexivity.
    + intros ua [=].
  - split_and!.
    + intros _ _. eexists. split_and!; [reflexivity|reflexivity|apply with_row_committed].
    + intros Hnone. contradiction.
    + intros _. eexists. split; [reflexivity|apply with_row_committed].
    + intros ua [=].
  - split_and!.
    + intros _ _. eexists. split_and!; [reflexivity|reflexivity|apply with_row_committed].
    + intros Hnone. contradiction.
    + intros _. eexists. split; [reflexivity|apply with_row_committed].
    + intros ua [=].
  - split_and!.
    + intros _ _. eexists. split_and!; [reflexivity|reflexivity|apply with_row_committed].
    + intros Hnone. contradiction.
    + intros _. eexists. split; [reflexivity|apply with_row_committed].
    + intros ua [=].
  - split_and!.
    + intros _ Hlt. exfalso. exact (Qcle_not_lt _ _ Hle Hlt).
    + intros Hnone. contradiction.
    + intros _. eexists. split; [reflexivity|apply with_row_committed].
    + intros ua [=].
  - split_and!.
    + intros _ Hlt. exfalso. exact (Qcle_not_lt _ _ Hle Hlt).
    + intros Hnone. contradiction.
    + intros Hempty. contradiction.
    + intros ua [= <-]. split_and!; try reflexivity. exact Hle.
Qed.

(** C7, witness: for a new user, a refill amount of 20 over a quota of 10
    is refused as an invalid amount, omitting both arguments fails, an empty
    note fails, and a refill amount of 5 under a quota of 10 is accepted. *)
Lemma update_daily_quota_validates_witness :
  (∃ e, (update_daily_quota "U1" (Some (dec 10)) (Some (dec 20)) "" "more"
           (fresh_session 0)).1 = Raise e
        ∧ error_kind e = Some ErrorKind.InvalidAmount
        ∧ committed (update_daily_quota "U1" (Some (dec 10)) (Some (dec 20)) "" "more"
                       (fresh_session 0)).2 = committed (fresh_session 0))
  ∧ (∃ e, update_daily_quota "U1" None None "" "more" (fresh_session 0)
          = (Raise e, fresh_session 0))
  ∧ (∃ e, (update_daily_quota "U1" (Some (dec 10)) (Some (dec 5)) "" ""
             (fresh_session 0)).1 = Raise e
          ∧ committed (update_daily_quota "U1" (Some (dec 10)) (Some (dec 5)) "" ""
                         (fresh_session 0)).2 = committed (fresh_session 0))
  ∧ (∃ user_account,
       (update_daily_quota "U1" (Some (dec 10)) (Some (dec 5)) "" "more"
          (fresh_session 0)).1 = Ok user_account
       ∧ CreditAccount.free_quota user_account = dec 10
       ∧ CreditAccount.refill_amount user_account = dec 5).
Proof.
  split_and!.
  - apply (update_daily_quota_validates "U1" (Some (dec 10)) (Some (dec 20)) "" "more"
             (fresh_session 0)).
    + intros [[=] _].
    + reflexivity.
  - apply (update_daily_quota_validates "U1" None None "" "more" (fresh_session 0)).
    split; reflexivity.
  - apply (update_daily_quota_validates "U1" (Some (dec 10)) (Some (dec 5)) "" ""
             (fresh_session 0)).
    reflexivity.
  - destruct (update_daily_quota "U1" (Some (dec 10)) (Some (dec 5)) "" "more"
                (fresh_session 0)) as [[user_account|x] s'] eqn:Hrun.
    + exists user_account. split; [reflexivity|].
      destruct (update_daily_quota_validates "U1" (Some (dec 10)) (Some (dec 5)) "" "more"
                  (fresh_session 0)) as (_ & _ & _ & Hok).
      cbv zeta in Hok. rewrite Hrun in Hok.
      destruct (Hok user_account eq_refl) as (_ & -> & _). split; reflexivity.
    + vm_compute in Hrun. discriminate Hrun.
Defined.

(** C6, as amended. For a user without an account, [update_daily_quota]
    gets the account created: when at least one argument is given, a given
    quota is positive, a given refill amount is not negative and does not
    exceed the quota (an omitted argument counting as the new row's zero),
    and the note is not empty, the call returns and commits a new account
    of the user with zero balances and these quota fields. *)
Theorem update_daily_quota_creates_account
    (user_id : string) (free_quota refill_amount : option Decimal)
    (upstream_tx_id note : string) (s : Session) :
  accounts (db s) !! (USER, user_id) = None ->
  ¬ (free_quota = None ∧ refill_amount = None) ->
  (∀ q, free_quota = Some q -> 0 < q) ->
  (∀ r, refill_amount = Some r -> 0 ≤ r) ->
  default 0 refill_amount ≤ default 0 free_quota ->
  note ≠ "" ->
  ∃ user_account s',
    update_daily_quota user_id free_quota refill_amount upstream_tx_id note s
    = (Ok user_account, s')
    ∧ user_account
      = CreditAccount.mk (xid_of (xids s)) USER user_id 0 0 0 (default 0 free_quota)
          (default 0 refill_amount) (now s)
    ∧ accounts (committed s') !! (USER, user_id) = Some user_account.
Proof.
  intros Hnone Hsome Hq Hr Hle Hnote.
  pose proof (update_daily_quota_cases user_id free_quota refill_amount upstream_tx_id note s)
    as Hcases.
  cbv zeta in Hcases. unfold row_or_new in Hcases. rewrite Hnone in Hcases.
  cbn [default from_option new_row CreditAccount.free_quota CreditAccount.refill_amount]
    in Hcases.
  destruct Hcases as
    [(Hq0 & Hr0 & _)
    |(_ & [(Hfq & Hbad & _)
          |(_ & [(Hra & Hbad & _)
                |(_ & [(Hbad & _)
                      |(_ & [(Hbad & _)|(_ & Hrun)])])])])].
  - exfalso. apply Hsome. split; assumption.
  - exfalso. apply (Qclt_not_le _ _ (Hq _ Hfq) Hbad).
  - exfalso. apply (Qclt_not_le _ _ Hbad (Hr _ Hra)).
  - exfalso. apply (Qclt_not_le _ _ Hbad Hle).
  - contradiction.
  - eexists _, _. split; [exact Hrun|]. split_and!; try reflexivity.
    cbn [quota_committed committed accounts]. apply lookup_insert_eq.
Qed.

(** C6, witness of the amended statement: a quota of 10 for the unknown
    user U9. *)
Lemma update_daily_quota_creates_account_witness :
  ∃ user_account s',
    update_daily_quota "U9" (Some (dec 10)) None "" "raise the quota" (fresh_session 0)
    = (Ok user_account, s')
    ∧ user_account
      = CreditAccount.mk (xid_of (xids (fresh_session 0))) USER "U9" 0 0 0
          (default 0 (Some (dec 10))) (default 0 None) (now (fresh_session 0))
    ∧ accounts (committed s') !! (USER, "U9") = Some user_account.
Proof.
  apply (update_daily_quota_creates_account "U9" (Some (dec 10)) None ""
           "raise the quota" (fresh_session 0)).
  - reflexivity.
  - intros [[=] _].
  - intros q [= <-]. reflexivity.
  - intros r [=].
  - intros H. vm_compute in H. discriminate H.
  - discriminate.
Defined.

(** C6, counterexample: user U9 has no account, and the call neither fails
    nor leaves the store without one: it returns, and the committed store
    holds an account of U9. *)
Lemma update_daily_quota_missing_account_counterexample :
  let r := update_daily_quota "U9" (Some (dec 10)) None "" "raise the quota"
             (fresh_session 0) in
  accounts (db (fresh_session 0)) !! (USER, "U9") = None
  ∧ (∃ user_account, r.1 = Ok user_account)
  ∧ (∃ created, accounts (committed r.2) !! (USER, "U9") = Some created).
Proof.
  cbv zeta. split_and!.
  - reflexivity.
  - eexists. vm_compute. reflexivity.
  - eexists. vm_compute. reflexivity.
Qed.

(** ** The listing of a user's events *)

Lemma string_ltb_lt a b : String.ltb a b = true ↔ String_as_OT.lt a b.
Proof.
  rewrite <- String_as_OT.cmp_lt. unfold String.ltb, String_as_OT.cmp.
  destruct (String.compare a b); split; congruence.
Qed.

Lemma string_leb_le a b : String.leb a b = true ↔ a = b ∨ String_as_OT.lt a b.
Proof.
  rewrite <- String_as_OT.cmp_lt. unfold String.leb, String_as_OT.cmp.
  destruct (String.compare a b) eqn:E.
  - split; [intros _|reflexivity]. left. apply String.compare_eq_iff, E.
  - split; [intros _|reflexivity]. right. reflexivity.
  - split; [discriminate|]. intros [->|H]; [|discriminate H].
    pose proof (proj2 (String_as_OT.cmp_eq b b) eq_refl) as Hbb.
    unfold String_as_OT.cmp in Hbb. congruence.
Qed.

Lemma string_leb_trans a b c :
  String.leb a b = true -> String.leb b c = true -> String.leb a c = true.
Proof.
  rewrite !string_leb_le. intros [->|Hab] [->|Hbc]; auto.
  right. exact (String_as_OT.lt_trans _ _ _ Hab Hbc).
Qed.

Lemma string_ltb_of_leb a b : String.leb a b = true -> a ≠ b -> String.ltb a b = true.
Proof. rewrite string_leb_le, string_ltb_lt. intros [->|H] Hne; [contradiction|exact H]. Qed.

Lemma event_id_desc_transitive :
  Transitive (fun x y : CreditEvent.t => is_true (EventIdDesc.leb x y)).
Proof.
  intros x y z Hxy Hyz. unfold is_true, EventIdDesc.leb in *.
  exact (string_leb_trans _ _ _ Hyz Hxy).
Qed.

Lemma filter_sublist {A} (p : A -> bool) (l : list A) : List.filter p l `sublist_of` l.
Proof.
  induction l as [|x l IH]; cbn [List.filter]; [constructor|].
  destruct (p x); constructor; exact IH.
Qed.

(** With unique ids, a list in descending id order is in strictly
    descending id order. *)
Lemma strictly_descending (l : list CreditEvent.t) :
  NoDup (CreditEvent.id <$> l) ->
  StronglySorted (fun x y => is_true (EventIdDesc.leb x y)) l ->
  StronglySorted (fun x y => String.ltb (CreditEvent.id y) (CreditEvent.id x) = true) l.
Proof.
  induction l as [|x l IH]; intros Hnd Hs; [constructor|].
  rewrite fmap_cons in Hnd. apply NoDup_cons in Hnd as [Hx Hnd].
  apply StronglySorted_inv in Hs as [Hs Hall].
  constructor; [exact (IH Hnd Hs)|].
  rewrite Forall_forall in Hall |- *. intros y Hy.
  apply string_ltb_of_leb; [exact (Hall y Hy)|].
  intros Heq. apply Hx. rewrite <- Heq. apply list_elem_of_fmap. exists y.
  split; [reflexivity|exact Hy].
Qed.






Lemma slice_of_fetched p limit d :
  (0 ≤ limit)%Z ->
  slice_to (select_events p (limit + 1) d) limit = select_events p limit d.
Proof.
  intros Hlimit. unfold slice_to, select_events.
  destruct (decide (0 ≤ limit)%Z); [|contradiction].
  rewrite take_take. f_equal. lia.
Qed.



(** The page of that witness: the reward event, the later of the two, and
    more to come. *)
Example list_credit_events_by_user_first_page :
  match (list_credit_events_by_user "U1" INCOME None 1 None after_recharge_and_reward).1 with
  | Ok (returned, next_cursor, has_more) =>
      List.map CreditEvent.event_type returned = [EventType.REWARD]%list
      ∧ next_cursor = Some "xid6" ∧ has_more = true
  | Raise _ => False
  end.
Proof. vm_compute. split_and!; reflexivity. Qed.

(** ** The lookup by upstream transaction id *)

(** C10. [fetch_credit_event_by_upstream_tx_id] compares [upstream_tx_id]
    only. When events of the store carry the id, it returns the first of
    them in the order of the store, whatever its upstream type; so where an
    API event and an EXECUTOR event carry the same id it returns an event
    with that id and does not fail. It raises the 404 [HTTPException], a
    [NotFound] error, exactly when no event carries the id. It changes
    nothing. *)
Theorem fetch_credit_event_ignores_upstream_type (upstream_tx_id : string) (s : Session) :
  let result := fetch_credit_event_by_upstream_tx_id upstream_tx_id s in
  result.2 = s
  ∧ (∀ e, e ∈ events (db s) -> CreditEvent.upstream_tx_id e = upstream_tx_id ->
       ∃ found before after,
         result.1 = Ok found
         ∧ CreditEvent.upstream_tx_id found = upstream_tx_id
         ∧ events (db s) = before ++ found :: after
         ∧ ∀ x, x ∈ before -> CreditEvent.upstream_tx_id x ≠ upstream_tx_id)
  ∧ (∀ e_api e_executor,
       e_api ∈ events (db s) -> e_executor ∈ events (db s) ->
       CreditEvent.upstream_type e_api = UpstreamType.API ->
       CreditEvent.upstream_type e_executor = UpstreamType.EXECUTOR ->
       CreditEvent.upstream_tx_id e_api = upstream_tx_id ->
       CreditEvent.upstream_tx_id e_executor = upstream_tx_id ->
       ∃ found, result.1 = Ok found ∧ found ∈ events (db s)
                ∧ CreditEvent.upstream_tx_id found = upstream_tx_id)
  ∧ ((∃ err, result.1 = Raise err)
     ↔ ∀ e, e ∈ events (db s) -> CreditEvent.upstream_tx_id e ≠ upstream_tx_id)
  ∧ (∀ err, result.1 = Raise err ->
       error_kind err = Some ErrorKind.NotFound
       ∧ ∃ detail, err = HTTPException 404 detail).
Proof.
  intros result.
  assert (Hfound : ∀ e, e ∈ events (db s) ->
            CreditEvent.upstream_tx_id e = upstream_tx_id ->
            ∃ found before after,
              result.1 = Ok found
              ∧ CreditEvent.upstream_tx_id found = upstream_tx_id
              ∧ events (db s) = before ++ found :: after
              ∧ ∀ x, x ∈ before -> CreditEvent.upstream_tx_id x ≠ upstream_tx_id).
  { subst result. unfold fetch_credit_event_by_upstream_tx_id.
    induction (events (db s)) as [|x l IH]; intros e Hin He; [inversion Hin|].
    cbn [List.find]. case_bool_decide as Hx.
    - exists x, [], l. split_and!; [reflexivity|exact Hx|reflexivity|].
      intros y Hy. inversion Hy.
    - apply elem_of_cons in Hin as [->|Hin]; [contradiction|].
      destruct (IH e Hin He) as (found & before & after & Hres & Htx & -> & Hbefore).
      exists found, (x :: before), after. split_and!; [|exact Htx|reflexivity|].
      + destruct (List.find _ _); [exact Hres|discriminate Hres].
      + intros y Hy. apply elem_of_cons in Hy as [->|Hy]; [exact Hx|exact (Hbefore y Hy)]. }
  assert (Hnone : (∀ e, e ∈ events (db s) -> CreditEvent.upstream_tx_id e ≠ upstream_tx_id) ->
            ∃ detail, result.1 = Raise (HTTPException 404 detail)).
  { subst result. unfold fetch_credit_event_by_upstream_tx_id. intros Hall.
    destruct (List.find _ _) as [e|] eqn:Hfind; [|eexists; reflexivity].
    apply find_some in Hfind as [Hin He]. apply bool_decide_eq_true in He.
    exfalso. apply (Hall e); [apply list_elem_of_In, Hin|exact He]. }
  assert (Hstate : result.2 = s).
  { subst result. unfold fetch_credit_event_by_upstream_tx_id.
    destruct (List.find _ _); reflexivity. }
  assert (Hraise : ∀ err, result.1 = Raise err ->
            ∀ e, e ∈ events (db s) -> CreditEvent.upstream_tx_id e ≠ upstream_tx_id).
  { intros err Herr e Hin He.
    destruct (Hfound e Hin He) as (found & _ & _ & Hres & _). congruence. }
  split_and!.
  - exact Hstate.
  - exact Hfound.
  - intros e_api e_executor Hin _ _ _ Htx _.
    destruct (Hfound e_api Hin Htx) as (found & before & after & Hres & Hf & Hev & _).
    exists found. split_and!; [exact Hres| |exact Hf].
    rewrite Hev. apply elem_of_app. right. apply list_elem_of_here.
  - split.
    + intros [err Herr]. exact (Hraise err Herr).
    + intros Hall. destruct (Hnone Hall) as [detail Hres]. eexists. exact Hres.
  - intros err Herr. destruct (Hnone (Hraise err Herr)) as [detail Hres].
    rewrite Hres in Herr. injection Herr as <-. split; [reflexivity|]. eexists. reflexivity.
Qed.

(** In that session the lookup of T1 returns the RECHARGE event, the API one,
    which the store holds first. *)
Example fetch_shared_upstream_id :
  List.map (fun e => (CreditEvent.upstream_type e, CreditEvent.upstream_tx_id e))
    (events (db shared_upstream_id))
  = [(UpstreamType.API, "T1"); (UpstreamType.EXECUTOR, "T1")]%list
  ∧ ∃ found, (fetch_credit_event_by_upstream_tx_id "T1" shared_upstream_id).1 = Ok found
             ∧ CreditEvent.event_type found = EventType.RECHARGE
             ∧ CreditEvent.upstream_type found = UpstreamType.API.
Proof.
  split; [vm_compute; reflexivity|]. eexists. split; [vm_compute; reflexivity|].
  split; reflexivity.
Qed.

(** C10, witness: the lookup of T1 in that session, where an API event and an
    EXECUTOR event carry T1. *)
Lemma fetch_credit_event_ignores_upstream_type_witness :
  ∃ found,
    (fetch_credit_event_by_upstream_tx_id "T1" shared_upstream_id).1 = Ok found
    ∧ found ∈ events (db shared_upstream_id)
    ∧ CreditEvent.upstream_tx_id found = "T1".
Proof.
  assert (Hev : ∃ e_api e_executor,
            events (db shared_upstream_id) = [e_api; e_executor]%list
            ∧ CreditEvent.upstream_type e_api = UpstreamType.API
            ∧ CreditEvent.upstream_type e_executor = UpstreamType.EXECUTOR
            ∧ CreditEvent.upstream_tx_id e_api = "T1"
            ∧ CreditEvent.upstream_tx_id e_executor = "T1").
  { eexists _, _. split; [vm_compute; reflexivity|]. split_and!; reflexivity. }
  destruct Hev as (e_api & e_executor & Hev & Ht1 & Ht2 & Hx1 & Hx2).
  destruct (fetch_credit_event_ignores_upstream_type "T1" shared_upstream_id)
    as (_ & _ & Hboth & _).
  apply (Hboth e_api e_executor); try assumption.
  - rewrite Hev. apply list_elem_of_here.
  - rewrite Hev. apply list_elem_of_further, list_elem_of_here.
Defined.

(** ** The spec's scenarios on the modelled account store

    The primitives of [models/credit.py] are modelled from the spec; these
    runs show that the model gives the figures of the spec's scenarios. *)

(** Scenario 3: out of 10 permanent, 3 free and 2 reward credits a message
    of total 7 takes the 3 free, the 2 reward and 2 permanent credits; the
    event's credit type is PERMANENT; the platform FEE account receives 1
    and the agent 2. *)
Example tri_pool_scenario :
  let s' := (expense_message quarter_fee "A1" "U1" "M1" "M0" (dec 4) (frac 1 2) "U2"
               tri_pool_start).2 in
  pool_at (committed s') USER "U1" FREE = 0
  ∧ pool_at (committed s') USER "U1" REWARD = 0
  ∧ pool_at (committed s') USER "U1" PERMANENT = dec 8
  ∧ List.map CreditEvent.credit_type (events (committed s')) = [PERMANENT]%list
  ∧ pool_at (committed s') PLATFORM DEFAULT_PLATFORM_ACCOUNT_FEE PERMANENT = dec 1
  ∧ pool_at (committed s') AGENT "A1" PERMANENT = dec 2.
Proof.
  cbv zeta. split_and!; try (apply Qc_is_canon; vm_compute; reflexivity).
  vm_compute. reflexivity.
Qed.

(** Scenario 4: the user owns the agent; the agent fee is 0, the total 5, and
    there are two legs. *)
Example self_agent_scenario :
  let s' := (expense_message quarter_fee "A1" "U1" "M1" "M0" (dec 4) (frac 1 2) "U1"
               tri_pool_start).2 in
  List.map (fun e => this <$> CreditEvent.fee_agent_amount e) (events (committed s'))
  = [Some 0%Q]%list
  ∧ List.map (fun e => this (CreditEvent.total_amount e)) (events (committed s'))
    = [5%Q]%list
  ∧ List.map CreditTransaction.tx_type (transactions (committed s'))
    = [TransactionType.PAY; TransactionType.RECEIVE_FEE_PLATFORM]%list.
Proof. cbv zeta. split_and!; vm_compute; reflexivity. Qed.

(** Scenario 5: 5 reward credits out of 5 are clawed back; the pool is at
    zero, the event is an EXPENSE, the user's leg a DEBIT and the platform's a
    CREDIT. *)
Example negative_adjustment_scenario :
  let u1 := CreditAccount.mk "acc1" USER "U1" 0 0 (dec 5) 0 0 0 in
  let d := mkDb {[ (USER, "U1") := u1 ]} [] [] in
  let s' := (adjustment "U1" REWARD (dec (-5)) "T2" "claw back" (mkSession d d 0 0)).2 in
  pool_at (committed s') USER "U1" REWARD = 0
  ∧ List.map CreditEvent.direction (events (committed s')) = [EXPENSE]%list
  ∧ List.map CreditTransaction.credit_debit (transactions (committed s'))
    = [DEBIT; CREDIT]%list.
Proof.
  cbv zeta. split_and!; [apply Qc_is_canon| |]; vm_compute; reflexivity.
Qed.

(** Scenario 6: with a quota of 100, a refill amount of 20 and the last
    refill two hours ago, the next locked read finds 40 free credits. *)
Example hourly_refill_scenario :
  let u1 := CreditAccount.mk "acc1" USER "U1" 0 0 0 (dec 100) (dec 20) 0 in
  let d := mkDb {[ (USER, "U1") := u1 ]} [] [] in
  CreditAccount.free_credits (locked_row USER "U1" (mkSession d d 0 7200)) = dec 40.
Proof. cbv zeta. apply Qc_is_canon. vm_compute. reflexivity. Qed.

(** * The listings, page after page *)

(** ** Pages *)

Lemma list_credit_events_by_user_run user_id direction cursor limit event_type s account :
  accounts (db s) !! (USER, user_id) = Some account ->
  list_credit_events_by_user user_id direction cursor limit event_type s
  = (Ok (page (fun e => user_events_base account direction event_type e
                        && cursor_clause cursor e) limit (db s)), s).
Proof.
  intros Hacc. unfold list_credit_events_by_user, bind, get_in_session. rewrite Hacc.
  reflexivity.
Qed.

Lemma list_fee_events_by_agent_run agent_id cursor limit s agent_account :
  accounts (db s) !! (AGENT, agent_id) = Some agent_account ->
  list_fee_events_by_agent agent_id cursor limit s
  = (Ok (page (fun e => agent_fee_events_base agent_account e && cursor_clause cursor e)
           limit (db s)), s).
Proof.
  intros Hacc. unfold list_fee_events_by_agent, bind, get_in_session. rewrite Hacc.
  reflexivity.
Qed.

Lemma string_ltb_irrefl a : String.ltb a a = false.
Proof.
  destruct (String.ltb a a) eqn:E; [|reflexivity].
  apply string_ltb_lt in E. exfalso. exact (String_as_OT.lt_not_eq _ _ E eq_refl).
Qed.

Lemma string_ltb_trans a b c :
  String.ltb a b = true -> String.ltb b c = true -> String.ltb a c = true.
Proof. rewrite !string_ltb_lt. apply String_as_OT.lt_trans. Qed.

Lemma string_ltb_asym a b : String.ltb a b = true -> String.ltb b a = false.
Proof.
  intros Hab. destruct (String.ltb b a) eqn:Hba; [|reflexivity].
  pose proof (string_ltb_trans _ _ _ Hab Hba) as H. rewrite string_ltb_irrefl in H.
  discriminate H.
Qed.

Lemma filter_filter_and {A} (f g : A -> bool) (l : list A) :
  List.filter f (List.filter g l) = List.filter (fun a => g a && f a) l.
Proof.
  induction l as [|a l IH]; [reflexivity|]. cbn [List.filter].
  destruct (g a); cbn [List.filter andb]; [destruct (f a)|]; rewrite IH; reflexivity.
Qed.

Lemma filter_permutation {A} (f : A -> bool) (l l' : list A) :
  l ≡ₚ l' -> List.filter f l ≡ₚ List.filter f l'.
Proof.
  induction 1 as [|a l l' _ IH|a b l|l l' l'' _ IH1 _ IH2]; cbn [List.filter].
  - constructor.
  - destruct (f a); [constructor|]; exact IH.
  - destruct (f a), (f b); try reflexivity. constructor.
  - etransitivity; eassumption.
Qed.

Lemma all_selected_sorted p d :
  NoDup (CreditEvent.id <$> events d) ->
  StronglySorted (fun x y => String.ltb (CreditEvent.id y) (CreditEvent.id x) = true)
    (all_selected p d).
Proof.
  intros Hnd. unfold all_selected. apply strictly_descending.
  - rewrite <- (EventSort.Permuted_sort (List.filter p (events d))).
    apply (sublist_NoDup _ _ Hnd). apply fmap_sublist, filter_sublist.
  - apply EventSort.StronglySorted_sort, event_id_desc_transitive.
Qed.

Lemma all_selected_elem p d e : e ∈ all_selected p d ↔ e ∈ events d ∧ p e = true.
Proof.
  unfold all_selected. rewrite <- (EventSort.Permuted_sort (List.filter p (events d))).
  rewrite !list_elem_of_In. apply filter_In.
Qed.

Lemma strongly_sorted_app_inv {A} (R : A -> A -> Prop) (l1 l2 : list A) :
  StronglySorted R (l1 ++ l2) ->
  StronglySorted R l1 ∧ StronglySorted R l2 ∧ ∀ x y, x ∈ l1 -> y ∈ l2 -> R x y.
Proof.
  induction l1 as [|a l1 IH]; cbn [app]; intros Hs.
  - split_and!; [constructor|exact Hs|]. intros x y Hx. inversion Hx.
  - apply StronglySorted_inv in Hs as [Hs Hall]. destruct (IH Hs) as (H1 & H2 & H12).
    apply Forall_app in Hall as [Ha1 Ha2]. split_and!; [constructor; assumption|exact H2|].
    intros x y Hx Hy. apply elem_of_cons in Hx as [->|Hx]; [|exact (H12 x y Hx Hy)].
    rewrite Forall_forall in Ha2. exact (Ha2 y Hy).
Qed.

Lemma filter_none {A} (f : A -> bool) (l : list A) :
  (forall a, a ∈ l -> f a = false) -> List.filter f l = [].
Proof.
  induction l as [|a l IH]; intros H; [reflexivity|]. cbn [List.filter].
  rewrite (H a) by apply list_elem_of_here. apply IH. intros b Hb. apply H.
  apply list_elem_of_further, Hb.
Qed.

Lemma filter_all {A} (f : A -> bool) (l : list A) :
  (forall a, a ∈ l -> f a = true) -> List.filter f l = l.
Proof.
  induction l as [|a l IH]; intros H; [reflexivity|]. cbn [List.filter].
  rewrite (H a) by apply list_elem_of_here. f_equal. apply IH. intros b Hb. apply H.
  apply list_elem_of_further, Hb.
Qed.

(** The events a listing selects below the id of one of its events are the
    events that follow it in the listing. *)
Lemma selected_below (base : CreditEvent.t -> bool) (cursor : option string) (d : Db)
    (pre : list CreditEvent.t) (x : CreditEvent.t) (post : list CreditEvent.t) :
  NoDup (CreditEvent.id <$> events d) ->
  CreditEvent.id x ≠ "" ->
  all_selected (fun e => base e && cursor_clause cursor e) d = pre ++ x :: post ->
  all_selected (fun e => base e && cursor_clause (Some (CreditEvent.id x)) e) d = post.
Proof.
  intros Hnd Hid Hall.
  set (below := fun e : CreditEvent.t => String.ltb (CreditEvent.id e) (CreditEvent.id x)).
  pose proof (all_selected_sorted (fun e => base e && cursor_clause cursor e) d Hnd) as Hsorted.
  rewrite Hall in Hsorted.
  apply strongly_sorted_app_inv in Hsorted as (_ & Hxpost & Hpre).
  apply StronglySorted_inv in Hxpost as [Hpost Hx].
  assert (Hxsel : x ∈ events d ∧ base x && cursor_clause cursor x = true).
  { apply (all_selected_elem (fun e => base e && cursor_clause cursor e)).
    rewrite Hall. apply elem_of_app. right. apply list_elem_of_here. }
  destruct Hxsel as [_ Hxp]. apply andb_true_iff in Hxp as [_ Hxcur].
  assert (Hfilter :
    List.filter (fun e => base e && cursor_clause (Some (CreditEvent.id x)) e) (events d)
    = List.filter below
        (List.filter (fun e => base e && cursor_clause cursor e) (events d))).
  { rewrite filter_filter_and. apply filter_ext. intros e.
    unfold cursor_clause at 1. destruct (decide (CreditEvent.id x = "")); [contradiction|].
    fold (below e). destruct (below e) eqn:Hbe; [|rewrite !andb_false_r; reflexivity].
    rewrite !andb_true_r.
    assert (Hcur : cursor_clause cursor e = true).
    { unfold cursor_clause in *. destruct cursor as [c|]; [|reflexivity].
      destruct (decide (c = "")); [reflexivity|].
      exact (string_ltb_trans _ _ _ Hbe Hxcur). }
    rewrite Hcur, andb_true_r. reflexivity. }
  assert (Hperm : all_selected (fun e => base e && cursor_clause (Some (CreditEvent.id x)) e) d
                  ≡ₚ post).
  { unfold all_selected at 1. rewrite <- EventSort.Permuted_sort, Hfilter.
    rewrite (filter_permutation below _ _
               (EventSort.Permuted_sort
                  (List.filter (fun e => base e && cursor_clause cursor e) (events d)))).
    fold (all_selected (fun e => base e && cursor_clause cursor e) d). rewrite Hall.
    rewrite List.filter_app. cbn [List.filter].
    assert (Hnone : List.filter below pre = []).
    { apply filter_none. intros y Hy. unfold below. apply string_ltb_asym.
      apply (Hpre y x Hy). apply list_elem_of_here. }
    unfold below at 2. rewrite string_ltb_irrefl. rewrite Hnone. cbn [app].
    assert (Hkeep : List.filter below post = post).
    { apply filter_all. intros y Hy. rewrite Forall_forall in Hx. exact (Hx y Hy). }
    rewrite Hkeep. reflexivity. }
  apply (StronglySorted_unique_strong
           (fun a b => String.ltb (CreditEvent.id b) (CreditEvent.id a) = true)).
  - intros a b _ _ Hab Hba. apply string_ltb_asym in Hab. congruence.
  - apply all_selected_sorted, Hnd.
  - exact Hpost.
  - exact Hperm.
Qed.

Lemma select_events_all p n d : select_events p n d = take (Z.to_nat n) (all_selected p d).
Proof. reflexivity. Qed.

Lemma drop_nonempty_length {A} (n : nat) (l : list A) : drop n l ≠ [] ↔ (n < length l)%nat.
Proof.
  split.
  - intros Hne. destruct (decide (n < length l)%nat) as [|Hge]; [assumption|].
    exfalso. apply Hne, drop_ge. lia.
  - intros Hlt Hnil. apply (f_equal length) in Hnil. rewrite length_drop in Hnil.
    cbn in Hnil. lia.
Qed.

(** A page that names a next cursor is the first [limit] events of what its
    filter selects; the page under that cursor is the next [limit] events,
    and [has_more] of the first page says whether there is such an event. *)
Lemma page_next (base : CreditEvent.t -> bool) (cursor : option string) (limit : Z)
    (d : Db) (page1 : list CreditEvent.t) (c1 : string) (has_more1 : bool) :
  event_ids_sound d ->
  page (fun e => base e && cursor_clause cursor e) limit d = (page1, Some c1, has_more1) ->
  let selected := all_selected (fun e => base e && cursor_clause cursor e) d in
  let n := Z.to_nat limit in
  (0 < limit)%Z
  ∧ page1 = take n selected
  ∧ (page (fun e => base e && cursor_clause (Some c1) e) limit d).1.1
    = take n (drop n selected)
  ∧ (has_more1 = true ↔ drop n selected ≠ []).
Proof.
  intros [Hnd Hids] Hpage selected n. unfold page in Hpage.
  injection Hpage as Hp1 Hc1 Hhm.
  destruct (decide (0 < limit)%Z) as [Hpos|Hnpos].
  2:{ exfalso. rewrite Hp1 in Hc1. subst page1. unfold slice_to, select_events in Hc1.
      destruct (decide (0 ≤ limit)%Z).
      - replace (Z.to_nat limit) with 0%nat in Hc1 by lia. discriminate Hc1.
      - replace (Z.to_nat (limit + 1)) with 0%nat in Hc1 by lia.
        cbn in Hc1. discriminate Hc1. }
  rewrite slice_of_fetched, select_events_all in Hp1, Hc1 by lia.
  fold selected n in Hp1, Hc1. rewrite Hp1 in Hc1.
  apply fmap_Some in Hc1 as (x & Hlast & Hx).
  apply last_Some in Hlast as [pre Hpre].
  assert (Hsel : selected = pre ++ x :: drop n selected).
  { rewrite <- (take_drop n selected) at 1. rewrite Hp1, Hpre, <- app_assoc. reflexivity. }
  assert (Hxin : x ∈ events d).
  { apply (all_selected_elem (fun e => base e && cursor_clause cursor e) d x).
    fold selected. rewrite Hsel. apply elem_of_app. right. apply list_elem_of_here. }
  pose proof (selected_below base cursor d pre x (drop n selected) Hnd (Hids x Hxin) Hsel)
    as Hnext.
  split_and!.
  - exact Hpos.
  - symmetry. exact Hp1.
  - unfold page. cbn [fst]. rewrite slice_of_fetched, select_events_all by lia.
    rewrite Hx, Hnext. reflexivity.
  - rewrite drop_nonempty_length. rewrite <- Hhm, select_events_all. fold selected.
    rewrite bool_decide_eq_true, length_take. lia.
Qed.

Lemma take_two_pages {A} (n : nat) (l : list A) :
  take n l ++ take n (drop n l) = take (2 * n) l.
Proof.
  rewrite <- (take_drop n (take (2 * n) l)).
  rewrite take_take, skipn_firstn_comm. do 2 f_equal; lia.
Qed.

Lemma event_ids_sound_by_check (d : Db) :
  bool_decide (NoDup (CreditEvent.id <$> events d))
  && forallb (fun e => negb (bool_decide (CreditEvent.id e = ""))) (events d) = true ->
  event_ids_sound d.
Proof.
  intros H. apply andb_true_iff in H as [Hnd Hids]. split.
  - apply bool_decide_eq_true in Hnd. exact Hnd.
  - intros e He. rewrite forallb_forall in Hids.
    specialize (Hids e (proj1 (list_elem_of_In _ _) He)).
    apply negb_true_iff, bool_decide_eq_false in Hids. exact Hids.
Qed.

(** X1. Pages of [list_credit_events_by_user] are contiguous. When event ids
    are unique and not empty and a call returns a next cursor, the call
    under that cursor (same user, direction, limit and event type) returns
    the events that directly follow the first page in the listing: the two
    pages together are the first [2 * limit] matching events, none skipped
    and none twice. [has_more] of the first page is true exactly when the
    second page is not empty. *)
Theorem list_credit_events_by_user_next_page (user_id : string) (direction : Direction)
    (cursor : option string) (limit : Z) (event_type : option EventType.t) (s : Session)
    (account : CreditAccount.t) (page1 : list CreditEvent.t) (c1 : string)
    (has_more1 : bool) :
  event_ids_sound (db s) ->
  accounts (db s) !! (USER, user_id) = Some account ->
  list_credit_events_by_user user_id direction cursor limit event_type s
  = (Ok (page1, Some c1, has_more1), s) ->
  ∃ page2 next2 has_more2,
    list_credit_events_by_user user_id direction (Some c1) limit event_type s
    = (Ok (page2, next2, has_more2), s)
    ∧ page1 ++ page2
      = take (2 * Z.to_nat limit)
          (all_selected (user_events_filter account direction cursor event_type) (db s))
    ∧ (has_more1 = true ↔ page2 ≠ []).
Proof.
  intros Hsound Hacc Hrun.
  rewrite (list_credit_events_by_user_run _ _ _ _ _ _ _ Hacc) in Hrun.
  assert (Hpage : page (fun e => user_events_base account direction event_type e
                                 && cursor_clause cursor e) limit (db s)
                  = (page1, Some c1, has_more1)) by congruence.
  destruct (page_next _ _ _ _ _ _ _ Hsound Hpage) as (Hpos & Hp1 & Hp2 & Hhm).
  rewrite (list_credit_events_by_user_run _ _ _ _ _ _ _ Hacc).
  destruct (page (fun e => user_events_base account direction event_type e
                           && cursor_clause (Some c1) e) limit (db s))
    as [[page2 next2] has_more2].
  exists page2, next2, has_more2. cbn [fst] in Hp2. split_and!; [reflexivity| |].
  - rewrite Hp1, Hp2.
    change (user_events_filter account direction cursor event_type)
      with (fun e => user_events_base account direction event_type e
                     && cursor_clause cursor e).
    apply take_two_pages.
  - rewrite Hhm, Hp2. split.
    + intros Hne Hnil. apply Hne. destruct (drop _ _); [reflexivity|].
      destruct (Z.to_nat limit) eqn:Hn; [lia|discriminate Hnil].
    + intros Hne Hnil. apply Hne. rewrite Hnil. apply take_nil.
Qed.

(** X1, witness: the page of size 1 after the first of U1's two INCOME
    events. *)
Lemma list_credit_events_by_user_next_page_witness :
  ∃ account page1 page2 next2 has_more2,
    list_credit_events_by_user "U1" INCOME None 1 None after_recharge_and_reward
    = (Ok (page1, Some "xid6", true), after_recharge_and_reward)
    ∧ list_credit_events_by_user "U1" INCOME (Some "xid6") 1 None after_recharge_and_reward
      = (Ok (page2, next2, has_more2), after_recharge_and_reward)
    ∧ page1 ++ page2
      = take (2 * Z.to_nat 1)
          (all_selected (user_events_filter account INCOME None None)
             (db after_recharge_and_reward))
    ∧ (true = true ↔ page2 ≠ []).
Proof.
  pose (account := row_or_new USER "U1" after_recharge_and_reward).
  pose (page1 := match (list_credit_events_by_user "U1" INCOME None 1 None
                          after_recharge_and_reward).1 with
                 | Ok (returned, _, _) => returned
                 | Raise _ => []
                 end).
  assert (Hsound : event_ids_sound (db after_recharge_and_reward))
    by (apply event_ids_sound_by_check; vm_compute; reflexivity).
  assert (Hacc : accounts (db after_recharge_and_reward) !! (USER, "U1") = Some account)
    by (vm_compute; reflexivity).
  assert (Hrun : list_credit_events_by_user "U1" INCOME None 1 None after_recharge_and_reward
                 = (Ok (page1, Some "xid6", true), after_recharge_and_reward))
    by (vm_compute; reflexivity).
  destruct (list_credit_events_by_user_next_page "U1" INCOME None 1 None
              after_recharge_and_reward account page1 "xid6" true Hsound Hacc Hrun)
    as (page2 & next2 & has_more2 & H).
  exists account, page1, page2, next2, has_more2. split; [exact Hrun|exact H].
Defined.

(** X2. Pages of [list_fee_events_by_agent] are contiguous in the same way:
    the call under the cursor a page returned gives the events that directly
    follow that page among the agent's fee events, and [has_more] of the
    first page is true exactly when that second page is not empty. *)
Theorem list_fee_events_by_agent_next_page (agent_id : string) (cursor : option string)
    (limit : Z) (s : Session) (agent_account : CreditAccount.t)
    (page1 : list CreditEvent.t) (c1 : string) (has_more1 : bool) :
  event_ids_sound (db s) ->
  accounts (db s) !! (AGENT, agent_id) = Some agent_account ->
  list_fee_events_by_agent agent_id cursor limit s = (Ok (page1, Some c1, has_more1), s) ->
  ∃ page2 next2 has_more2,
    list_fee_events_by_agent agent_id (Some c1) limit s = (Ok (page2, next2, has_more2), s)
    ∧ page1 ++ page2
      = take (2 * Z.to_nat limit)
          (all_selected (agent_fee_events_filter agent_account cursor) (db s))
    ∧ (has_more1 = true ↔ page2 ≠ []).
Proof.
  intros Hsound Hacc Hrun.
  rewrite (list_fee_events_by_agent_run _ _ _ _ _ Hacc) in Hrun.
  assert (Hpage : page (fun e => agent_fee_events_base agent_account e
                                 && cursor_clause cursor e) limit (db s)
                  = (page1, Some c1, has_more1)) by congruence.
  destruct (page_next _ _ _ _ _ _ _ Hsound Hpage) as (Hpos & Hp1 & Hp2 & Hhm).
  rewrite (list_fee_events_by_agent_run _ _ _ _ _ Hacc).
  destruct (page (fun e => agent_fee_events_base agent_account e
                           && cursor_clause (Some c1) e) limit (db s))
    as [[page2 next2] has_more2].
  exists page2, next2, has_more2. cbn [fst] in Hp2. split_and!; [reflexivity| |].
  - rewrite Hp1, Hp2. apply take_two_pages.
  - rewrite Hhm, Hp2. split.
    + intros Hne Hnil. apply Hne. destruct (drop _ _); [reflexivity|].
      destruct (Z.to_nat limit) eqn:Hn; [lia|discriminate Hnil].
    + intros Hne Hnil. apply Hne. rewrite Hnil. apply take_nil.
Qed.

(** X2, witness: the page of size 1 after the first of A1's two fee
    events. *)
Lemma list_fee_events_by_agent_next_page_witness :
  ∃ agent_account page1 page2 next2 has_more2,
    list_fee_events_by_agent "A1" None 1 after_two_messages
    = (Ok (page1, Some "xid6", true), after_two_messages)
    ∧ list_fee_events_by_agent "A1" (Some "xid6") 1 after_two_messages
      = (Ok (page2, next2, has_more2), after_two_messages)
    ∧ page1 ++ page2
      = take (2 * Z.to_nat 1)
          (all_selected (agent_fee_events_filter agent_account None) (db after_two_messages))
    ∧ (true = true ↔ page2 ≠ []).
Proof.
  pose (agent_account := row_or_new AGENT "A1" after_two_messages).
  pose (page1 := match (list_fee_events_by_agent "A1" None 1 after_two_messages).1 with
                 | Ok (returned, _, _) => returned
                 | Raise _ => []
                 end).
  assert (Hsound : event_ids_sound (db after_two_messages))
    by (apply event_ids_sound_by_check; vm_compute; reflexivity).
  assert (Hacc : accounts (db after_two_messages) !! (AGENT, "A1") = Some agent_account)
    by (vm_compute; reflexivity).
  assert (Hrun : list_fee_events_by_agent "A1" None 1 after_two_messages
                 = (Ok (page1, Some "xid6", true), after_two_messages))
    by (vm_compute; reflexivity).
  destruct (list_fee_events_by_agent_next_page "A1" None 1 after_two_messages agent_account
              page1 "xid6" true Hsound Hacc Hrun)
    as (page2 & next2 & has_more2 & H).
  exists agent_account, page1, page2, next2, has_more2. split; [exact Hrun|exact H].
Defined.




(** The page of these witnesses: the event of the later message, and more
    to come. *)
Example list_fee_events_by_agent_first_page :
  match (list_fee_events_by_agent "A1" None 1 after_two_messages).1 with
  | Ok (returned, next_cursor, has_more) =>
      List.map CreditEvent.upstream_tx_id returned = ["M2"]%list
      ∧ next_cursor = Some "xid6" ∧ has_more = true
  | Raise _ => False
  end.
Proof. vm_compute. split_and!; reflexivity. Qed.

(** * The calls: failure, repetition, and what the queries see *)

(** ** [expense_message], the accounts *)

(** What a successful [expense_message] has done to the accounts, and what
    its event records of the agent. *)
Lemma expense_message_ok_accounts config agent_id user_id message_id start_message_id
    base_llm_amount agent_fee_percentage agent_owner_id s user_account s' :
  expense_message config agent_id user_id message_id start_message_id base_llm_amount
    agent_fee_percentage agent_owner_id s = (Ok user_account, s') ->
  let fee_platform_amount :=
    Decimal_mul base_llm_amount (payment_fee_platform_percentage config) in
  let fee_agent_amount :=
    if decide (user_id ≠ agent_owner_id)
    then Decimal_mul base_llm_amount agent_fee_percentage
    else 0 in
  ∃ e platform_account,
    events (db s') = events (db s) ++ [e]
    ∧ CreditEvent.agent_id e = Some agent_id
    ∧ CreditEvent.message_id e = Some message_id
    ∧ CreditEvent.start_message_id e = Some start_message_id
    ∧ CreditEvent.fee_agent_amount e = Some fee_agent_amount
    ∧ accounts (db s') !! (PLATFORM, DEFAULT_PLATFORM_ACCOUNT_FEE) = Some platform_account
    ∧ CreditAccount.pool (CreditEvent.credit_type e) platform_account
      = pool_at (db s) PLATFORM DEFAULT_PLATFORM_ACCOUNT_FEE (CreditEvent.credit_type e)
        + fee_platform_amount
    ∧ (0 < fee_agent_amount ->
       ∃ agent_account,
         accounts (db s') !! (AGENT, agent_id) = Some agent_account
         ∧ CreditEvent.fee_agent_account e = Some (CreditAccount.id agent_account)
         ∧ CreditAccount.pool (CreditEvent.credit_type e) agent_account
           = pool_at (db s) AGENT agent_id (CreditEvent.credit_type e) + fee_agent_amount)
    ∧ (¬ 0 < fee_agent_amount ->
       CreditEvent.fee_agent_account e = None
       ∧ accounts (db s') !! (AGENT, agent_id) = accounts (db s) !! (AGENT, agent_id))
    ∧ (∀ k, k ≠ (USER, user_id) -> k ≠ (PLATFORM, DEFAULT_PLATFORM_ACCOUNT_FEE) ->
            k ≠ (AGENT, agent_id) -> accounts (db s') !! k = accounts (db s) !! k).
Proof.
  intros Hrun fee_platform_amount fee_agent_amount.
  set (total_amount :=
         Decimal_add (Decimal_add base_llm_amount fee_platform_amount) fee_agent_amount).
  unfold expense_message in Hrun. unfold bind at 1 in Hrun.
  destruct (check_upstream_cases UpstreamType.EXECUTOR message_id s) as [[_ E]|[Hnew E]];
    rewrite E in Hrun; [discriminate|].
  destruct (decide (base_llm_amount < 0)); [discriminate|].
  cbv zeta in Hrun.
  fold fee_platform_amount fee_agent_amount in Hrun. fold total_amount in Hrun.
  unfold bind at 1 in Hrun.
  destruct (decide (CreditAccount.balance (locked_row USER user_id s) < total_amount))
    as [Hlow|Hfunds].
  { rewrite (expense_insufficient _ _ _ _ Hlow) in Hrun. discriminate. }
  rewrite (expense_run _ _ _ _ Hfunds) in Hrun. cbv zeta in Hrun.
  destruct (tri_pool_deduction (locked_row USER user_id s) total_amount)
    as [ua credit_type] eqn:Hspent.
  cbn [fst snd] in Hrun.
  set (s1 := put_row USER user_id ua (with_row USER user_id s)) in Hrun.
  unfold bind at 1 in Hrun.
  destruct (decide (fee_platform_amount ≤ 0)) as [Hfee|Hfee].
  { rewrite (income_invalid _ _ _ _ _ Hfee) in Hrun. discriminate. }
  apply Qcnot_le_lt in Hfee.
  rewrite (income_run _ _ _ _ _ Hfee) in Hrun. cbv zeta in Hrun.
  set (pa := CreditAccount.set_pool credit_type _ _) in Hrun.
  set (s2 := put_row PLATFORM _ pa _) in Hrun.
  assert (Hev2 : events (db s2) = events (db s)) by (subst s2 s1; same_tables; reflexivity).
  assert (Hp2 : accounts (db s2) !! (PLATFORM, DEFAULT_PLATFORM_ACCOUNT_FEE) = Some pa).
  { subst s2. apply lookup_insert_eq. }
  assert (Hpool : CreditAccount.pool credit_type pa
                  = pool_at (db s) PLATFORM DEFAULT_PLATFORM_ACCOUNT_FEE credit_type
                    + fee_platform_amount).
  { subst pa. rewrite pool_set_pool, locked_row_pool by (right; discriminate).
    f_equal. apply (pool_at_other USER user_id ua s). congruence. }
  assert (Hk2 : ∀ k, k ≠ (USER, user_id) -> k ≠ (PLATFORM, DEFAULT_PLATFORM_ACCOUNT_FEE) ->
                     accounts (db s2) !! k = accounts (db s) !! k).
  { intros k Hku Hkp. subst s2. cbn [put_row set_db db accounts].
    rewrite lookup_insert_ne by congruence. rewrite with_row_lookup_ne by exact Hkp.
    subst s1. destruct k. apply row_or_new_other. exact Hku. }
  unfold bind at 1 in Hrun.
  destruct (decide (0 < fee_agent_amount)) as [Hagent|Hagent].
  - unfold bind at 1 in Hrun. rewrite (income_run _ _ _ _ _ Hagent) in Hrun.
    cbv zeta in Hrun.
    set (aa := CreditAccount.set_pool credit_type _ _) in Hrun.
    set (s3 := put_row AGENT _ aa _) in Hrun.
    assert (Hev3 : events (db s3) = events (db s))
      by (rewrite <- Hev2; subst s3; same_tables; reflexivity).
    assert (Hp3 : accounts (db s3) !! (PLATFORM, DEFAULT_PLATFORM_ACCOUNT_FEE) = Some pa).
    { subst s3. cbn [put_row set_db db accounts]. rewrite lookup_insert_ne by congruence.
      rewrite with_row_lookup_ne by congruence. exact Hp2. }
    assert (Ha3 : accounts (db s3) !! (AGENT, agent_id) = Some aa).
    { subst s3. apply lookup_insert_eq. }
    assert (Hapool : CreditAccount.pool credit_type aa
                     = pool_at (db s) AGENT agent_id credit_type + fee_agent_amount).
    { subst aa. rewrite pool_set_pool, locked_row_pool by (right; discriminate).
      f_equal. unfold pool_at. rewrite Hk2 by congruence. reflexivity. }
    assert (Hk3 : ∀ k, k ≠ (USER, user_id) ->
                       k ≠ (PLATFORM, DEFAULT_PLATFORM_ACCOUNT_FEE) ->
                       k ≠ (AGENT, agent_id) ->
                       accounts (db s3) !! k = accounts (db s) !! k).
    { intros k Hku Hkp Hka. subst s3. cbn [put_row set_db db accounts].
      rewrite lookup_insert_ne by congruence. rewrite with_row_lookup_ne by exact Hka.
      apply Hk2; assumption. }
    unfold ret at 1 in Hrun. run_journal_in Hrun.
    rewrite Hev3 in Hrun. injection Hrun as <- <-.
    eexists _, pa.
    cbn [xids db set_db committed now events transactions accounts].
    split; [reflexivity|].
    cbn [CreditEvent.agent_id CreditEvent.message_id CreditEvent.start_message_id
         CreditEvent.fee_agent_amount CreditEvent.fee_agent_account CreditEvent.credit_type].
    split_and!; first [eassumption | reflexivity | idtac].
    + intros _. exists aa. split_and!; [exact Ha3| |exact Hapool].
      destruct (decide (0 < fee_agent_amount)); [reflexivity|contradiction].
    + intros Hno. contradiction.
  - unfold ret at 1 in Hrun. run_journal_in Hrun.
    rewrite Hev2 in Hrun. injection Hrun as <- <-.
    eexists _, pa.
    cbn [xids db set_db committed now events transactions accounts].
    split; [reflexivity|].
    cbn [CreditEvent.agent_id CreditEvent.message_id CreditEvent.start_message_id
         CreditEvent.fee_agent_amount CreditEvent.fee_agent_account CreditEvent.credit_type].
    split_and!; first [eassumption | reflexivity | idtac].
    + intros Hyes. contradiction.
    + intros _. split.
      * destruct (decide (0 < fee_agent_amount)); [contradiction|reflexivity].
      * destruct (decide ((AGENT, agent_id) = (USER, user_id))); [congruence|].
        apply Hk2; congruence.
    + intros k Hku Hkp _. apply Hk2; assumption.
Qed.

(** A failed [expense_message] has committed nothing and journalled
    nothing. *)
Lemma expense_message_raise_inv config agent_id user_id message_id start_message_id
    base_llm_amount agent_fee_percentage agent_owner_id s exn s' :
  expense_message config agent_id user_id message_id start_message_id base_llm_amount
    agent_fee_percentage agent_owner_id s = (Raise exn, s') ->
  committed s' = committed s
  ∧ events (db s') = events (db s)
  ∧ transactions (db s') = transactions (db s).
Proof.
  intros Hrun.
  set (fee_platform_amount :=
         Decimal_mul base_llm_amount (payment_fee_platform_percentage config)).
  set (fee_agent_amount :=
         if decide (user_id ≠ agent_owner_id)
         then Decimal_mul base_llm_amount agent_fee_percentage
         else 0).
  set (total_amount :=
         Decimal_add (Decimal_add base_llm_amount fee_platform_amount) fee_agent_amount).
  unfold expense_message in Hrun. unfold bind at 1 in Hrun.
  destruct (check_upstream_cases UpstreamType.EXECUTOR message_id s) as [[_ E]|[Hnew E]];
    rewrite E in Hrun.
  { injection Hrun as _ <-. split_and!; reflexivity. }
  destruct (decide (base_llm_amount < 0)).
  { injection Hrun as _ <-. split_and!; reflexivity. }
  cbv zeta in Hrun.
  fold fee_platform_amount fee_agent_amount in Hrun. fold total_amount in Hrun.
  unfold bind at 1 in Hrun.
  destruct (decide (CreditAccount.balance (locked_row USER user_id s) < total_amount))
    as [Hlow|Hfunds].
  { rewrite (expense_insufficient _ _ _ _ Hlow) in Hrun. injection Hrun as _ <-.
    split_and!; [apply with_row_committed|apply with_row_events|apply with_row_transactions]. }
  rewrite (expense_run _ _ _ _ Hfunds) in Hrun. cbv zeta in Hrun.
  destruct (tri_pool_deduction (locked_row USER user_id s) total_amount)
    as [ua credit_type] eqn:Hspent.
  cbn [fst snd] in Hrun.
  set (s1 := put_row USER user_id ua (with_row USER user_id s)) in Hrun.
  unfold bind at 1 in Hrun.
  destruct (decide (fee_platform_amount ≤ 0)) as [Hfee|Hfee].
  { rewrite (income_invalid _ _ _ _ _ Hfee) in Hrun. injection Hrun as _ <-.
    subst s1. split_and!; same_tables; reflexivity. }
  apply Qcnot_le_lt in Hfee.
  rewrite (income_run _ _ _ _ _ Hfee) in Hrun. cbv zeta in Hrun.
  unfold bind at 1 in Hrun.
  destruct (decide (0 < fee_agent_amount)) as [Hagent|Hagent].
  - unfold bind at 1 in Hrun. rewrite (income_run _ _ _ _ _ Hagent) in Hrun.
    cbv zeta in Hrun. unfold ret at 1 in Hrun. run_journal_in Hrun. discriminate Hrun.
  - unfold ret at 1 in Hrun. run_journal_in Hrun. discriminate Hrun.
Qed.

(** ** Failure *)

(** An API call, case by case: a duplicate, arguments that fail the
    validation, a debit that the user's pool does not cover, or success. *)
Lemma api_call_cases config c s :
  call_upstream_type c = UpstreamType.API ->
  (upstream_seen UpstreamType.API (call_upstream_tx_id c) s
   ∧ run_call config c s = (Raise DuplicateUpstreamTx, s))
  ∨ (¬ upstream_seen UpstreamType.API (call_upstream_tx_id c) s
     ∧ ¬ call_valid c
     ∧ ∃ message, run_call config c s = (Raise (ValueError message), s)
                  ∧ (message ∈ invalid_amount_messages ∨ message ∈ missing_note_messages))
  ∨ (¬ upstream_seen UpstreamType.API (call_upstream_tx_id c) s
     ∧ call_valid c
     ∧ ¬ call_covered c s
     ∧ run_call config c s = (Raise InsufficientFunds, with_row USER (call_user c) s))
  ∨ (¬ upstream_seen UpstreamType.API (call_upstream_tx_id c) s
     ∧ call_valid c
     ∧ call_covered c s
     ∧ ∃ user_account s', run_call config c s = (Ok user_account, s')).
Proof.
  intros Hapi.
  destruct c as [user_id amount tx note|user_id amount tx note|user_id ct amount tx note|];
    cbn [run_call call_upstream_type call_upstream_tx_id call_valid call_covered call_user]
      in *;
    try discriminate Hapi.
  - remember (recharge user_id amount tx note s) as result eqn:Hres.
    rewrite recharge_shape in Hres. unfold bind at 1 in Hres.
    destruct (check_upstream_cases UpstreamType.API tx s) as [[Hseen E]|[Hnew E]];
      rewrite E in Hres.
    { left. split; [exact Hseen|exact Hres]. }
    right. destruct (decide (amount ≤ 0)) as [Hle|Hpos].
    + left. split_and!; [exact Hnew|intros H; exact (Qclt_not_le _ _ H Hle)|].
      eexists. split; [exact Hres|]. left. set_solver.
    + right. right. apply Qcnot_le_lt in Hpos. split_and!; [exact Hnew|exact Hpos|exact I|].
      destruct (user_platform_entry_run true EventType.RECHARGE TransactionType.RECHARGE
                  DEFAULT_PLATFORM_ACCOUNT_RECHARGE PERMANENT user_id amount tx note s Hpos
                  ltac:(discriminate))
        as (pa & s' & eid & tid1 & tid2 & Hrun & _).
      eexists _, s'. rewrite Hres. exact Hrun.
  - remember (reward user_id amount tx note s) as result eqn:Hres.
    rewrite reward_shape in Hres. unfold bind at 1 in Hres.
    destruct (check_upstream_cases UpstreamType.API tx s) as [[Hseen E]|[Hnew E]];
      rewrite E in Hres.
    { left. split; [exact Hseen|exact Hres]. }
    right. destruct (decide (amount ≤ 0)) as [Hle|Hpos].
    + left. split_and!; [exact Hnew|intros H; exact (Qclt_not_le _ _ H Hle)|].
      eexists. split; [exact Hres|]. left. set_solver.
    + right. right. apply Qcnot_le_lt in Hpos. split_and!; [exact Hnew|exact Hpos|exact I|].
      destruct (user_platform_entry_run true EventType.REWARD TransactionType.REWARD
                  DEFAULT_PLATFORM_ACCOUNT_REWARD REWARD user_id amount tx note s Hpos
                  ltac:(discriminate))
        as (pa & s' & eid & tid1 & tid2 & Hrun & _).
      eexists _, s'. rewrite Hres. exact Hrun.
  - remember (adjustment user_id ct amount tx note s) as result eqn:Hres.
    rewrite adjustment_shape in Hres. unfold bind at 1 in Hres.
    destruct (check_upstream_cases UpstreamType.API tx s) as [[Hseen E]|[Hnew E]];
      rewrite E in Hres.
    { left. split; [exact Hseen|exact Hres]. }
    right. destruct (decide (amount = 0)) as [Hz|Hnz].
    { left. split_and!; [exact Hnew|intros [H _]; contradiction|].
      eexists. split; [exact Hres|]. left. set_solver. }
    destruct (decide (note = "")) as [Hn|Hn].
    { left. split_and!; [exact Hnew|intros [_ H]; contradiction|].
      eexists. split; [exact Hres|]. right. set_solver. }
    right.
    destruct (decide (amount < 0
                      ∧ CreditAccount.pool ct (locked_row USER user_id s) < Qcabs amount))
      as [[Hneg Hlow]|Hcovered].
    + left. split_and!; [exact Hnew|exact Hnz|exact Hn|intros H; exact (H Hneg Hlow)|].
      rewrite Hres.
      rewrite (bool_decide_eq_false_2 (0 < amount)) by (intros Hpos; qc_lra).
      apply user_platform_entry_short, Hlow.
    + right. split_and!; [exact Hnew|exact Hnz|exact Hn| |].
      { intros Hneg Hlow. apply Hcovered. split; assumption. }
      assert (Hcov : bool_decide (0 < amount) = false ->
                     ¬ CreditAccount.pool ct (locked_row USER user_id s) < Qcabs amount).
      { intros Hdir Hlow. apply Hcovered. split; [|exact Hlow].
        apply bool_decide_eq_false in Hdir.
        destruct (Qclt_le_dec amount 0) as [Hneg|Hge]; [exact Hneg|].
        destruct (Qcle_lt_or_eq _ _ Hge) as [Hpos|Heq]; [contradiction|].
        exfalso. apply Hnz. symmetry. exact Heq. }
      destruct (user_platform_entry_run (bool_decide (0 < amount)) EventType.ADJUSTMENT
                  TransactionType.ADJUSTMENT DEFAULT_PLATFORM_ACCOUNT_ADJUSTMENT ct user_id
                  (Qcabs amount) tx (Some note) s (Qcabs_nonzero_pos _ Hnz) Hcov)
        as (pa & s' & eid & tid1 & tid2 & Hrun & _).
      eexists _, s'. rewrite Hres. exact Hrun.
Qed.

(** A failed call has committed nothing and journalled nothing. *)
Lemma run_call_raise_inv config c s exn s' :
  run_call config c s = (Raise exn, s') ->
  committed s' = committed s
  ∧ events (db s') = events (db s)
  ∧ transactions (db s') = transactions (db s).
Proof.
  intros Hrun.
  destruct (decide (call_upstream_type c = UpstreamType.API)) as [Hapi|Hexec].
  - destruct (api_call_cases config c s Hapi)
      as [[_ E]|[(_ & _ & m & E & _)|[(_ & _ & _ & E)|(_ & _ & _ & ua & s'' & E)]]];
      rewrite E in Hrun; try discriminate Hrun;
      injection Hrun as _ <-;
      rewrite ?with_row_committed, ?with_row_events, ?with_row_transactions;
      split_and!; reflexivity.
  - destruct c; try (exfalso; apply Hexec; reflexivity).
    exact (expense_message_raise_inv _ _ _ _ _ _ _ _ _ _ _ Hrun).
Qed.

(** X4. A call that fails has committed nothing and has added no event and
    no leg to the session, whichever orchestrator it is and whatever the
    failure: the committed store and the two journals are those of before.
    (An account row that get-or-create put into the session before the
    failure is not committed.) *)
Theorem failed_call_commits_nothing (config : Config) (c : Call) (s : Session) (exn : Exn)
    (s' : Session) :
  run_call config c s = (Raise exn, s') ->
  committed s' = committed s
  ∧ events (db s') = events (db s)
  ∧ transactions (db s') = transactions (db s).
Proof. apply run_call_raise_inv. Qed.

(** X4, witness: a message of total 7 for a user who holds 3. *)
Lemma failed_call_commits_nothing_witness :
  ∃ s',
    run_call quarter_fee (ExpenseMessage "A1" "U1" "M1" "M0" (dec 4) (frac 1 2) "U2")
      three_reward_credits = (Raise InsufficientFunds, s')
    ∧ committed s' = committed three_reward_credits
    ∧ events (db s') = events (db three_reward_credits)
    ∧ transactions (db s') = transactions (db three_reward_credits).
Proof.
  eexists. split; [vm_compute; reflexivity|].
  apply (failed_call_commits_nothing quarter_fee
           (ExpenseMessage "A1" "U1" "M1" "M0" (dec 4) (frac 1 2) "U2")
           three_reward_credits InsufficientFunds).
  vm_compute. reflexivity.
Defined.



(** ** [reward] and a positive [adjustment] *)

(** X6. [reward] of a positive amount under a new upstream id succeeds and
    commits: the user's reward pool grows by [amount] and the reward pool of
    the platform REWARD account shrinks by [amount]; no other account row
    changes; one REWARD event of direction INCOME, total [amount] and credit
    type REWARD with the given note is appended, and exactly two legs, a
    CREDIT on the user account and a DEBIT on the platform account. *)
Theorem reward_credits_user_debits_platform
    (user_id upstream_tx_id : string) (amount : Decimal) (note : option string) (s : Session) :
  0 < amount ->
  ¬ upstream_seen UpstreamType.API upstream_tx_id s ->
  ∃ user_account platform_account s' e t_user t_platform,
    reward user_id amount upstream_tx_id note s = (Ok user_account, s')
    ∧ committed s' = db s'
    ∧ accounts (committed s') !! (USER, user_id) = Some user_account
    ∧ accounts (committed s') !! (PLATFORM, DEFAULT_PLATFORM_ACCOUNT_REWARD)
      = Some platform_account
    ∧ CreditAccount.reward_credits user_account = pool_at (db s) USER user_id REWARD + amount
    ∧ CreditAccount.reward_credits platform_account
      = pool_at (db s) PLATFORM DEFAULT_PLATFORM_ACCOUNT_REWARD REWARD - amount
    ∧ (∀ k, k ≠ (USER, user_id) -> k ≠ (PLATFORM, DEFAULT_PLATFORM_ACCOUNT_REWARD) ->
            accounts (committed s') !! k = accounts (db s) !! k)
    ∧ events (committed s') = events (db s) ++ [e]
    ∧ CreditEvent.event_type e = EventType.REWARD
    ∧ CreditEvent.direction e = INCOME
    ∧ CreditEvent.total_amount e = amount
    ∧ CreditEvent.credit_type e = REWARD
    ∧ CreditEvent.note e = note
    ∧ CreditEvent.account_id e = CreditAccount.id user_account
    ∧ transactions (committed s') = transactions (db s) ++ [t_user; t_platform]
    ∧ t_user = CreditTransaction.mk (CreditTransaction.id t_user)
                 (CreditAccount.id user_account) (CreditEvent.id e)
                 TransactionType.REWARD CREDIT amount REWARD
    ∧ t_platform = CreditTransaction.mk (CreditTransaction.id t_platform)
                     (CreditAccount.id platform_account) (CreditEvent.id e)
                     TransactionType.REWARD DEBIT amount REWARD.
Proof.
  intros Hpos Hnew.
  destruct (user_platform_entry_run true EventType.REWARD TransactionType.REWARD
              DEFAULT_PLATFORM_ACCOUNT_REWARD REWARD user_id amount upstream_tx_id note s
              Hpos ltac:(discriminate))
    as (pa & s' & eid & tid1 & tid2 & Hrun & Hc & Hu & Hp & Hpp & Hk & Hev & Htx).
  cbv zeta in Hrun, Hu, Hev, Htx.
  assert (Hcredits : CreditAccount.reward_credits pa
            = pool_at (db s) PLATFORM DEFAULT_PLATFORM_ACCOUNT_REWARD REWARD - amount)
    by exact Hpp.
  eexists _, pa, s', _, _, _. split.
  { rewrite reward_shape. unfold bind at 1. rewrite (check_upstream_new _ _ _ Hnew).
    destruct (decide (amount ≤ 0)) as [Hle|_]; [exfalso; exact (Qclt_not_le _ _ Hpos Hle)|].
    exact Hrun. }
  rewrite Hc. split_and!; first [eassumption | reflexivity | idtac].
  change (CreditAccount.reward_credits ?a) with (CreditAccount.pool REWARD a).
  rewrite pool_set_pool, locked_row_pool by (left; discriminate). reflexivity.
Qed.

(** X6, witness: 7 credits rewarded to U1 after the recharge. *)
Lemma reward_credits_user_debits_platform_witness :
  ∃ user_account platform_account s' e t_user t_platform,
    reward "U1" (dec 7) "T3" None after_recharge = (Ok user_account, s')
    ∧ committed s' = db s'
    ∧ accounts (committed s') !! (USER, "U1") = Some user_account
    ∧ accounts (committed s') !! (PLATFORM, DEFAULT_PLATFORM_ACCOUNT_REWARD)
      = Some platform_account
    ∧ CreditAccount.reward_credits user_account
      = pool_at (db after_recharge) USER "U1" REWARD + dec 7
    ∧ CreditAccount.reward_credits platform_account
      = pool_at (db after_recharge) PLATFORM DEFAULT_PLATFORM_ACCOUNT_REWARD REWARD - dec 7
    ∧ (∀ k, k ≠ (USER, "U1") -> k ≠ (PLATFORM, DEFAULT_PLATFORM_ACCOUNT_REWARD) ->
            accounts (committed s') !! k = accounts (db after_recharge) !! k)
    ∧ events (committed s') = events (db after_recharge) ++ [e]
    ∧ CreditEvent.event_type e = EventType.REWARD
    ∧ CreditEvent.direction e = INCOME
    ∧ CreditEvent.total_amount e = dec 7
    ∧ CreditEvent.credit_type e = REWARD
    ∧ CreditEvent.note e = None
    ∧ CreditEvent.account_id e = CreditAccount.id user_account
    ∧ transactions (committed s') = transactions (db after_recharge) ++ [t_user; t_platform]
    ∧ t_user = CreditTransaction.mk (CreditTransaction.id t_user)
                 (CreditAccount.id user_account) (CreditEvent.id e)
                 TransactionType.REWARD CREDIT (dec 7) REWARD
    ∧ t_platform = CreditTransaction.mk (CreditTransaction.id t_platform)
                     (CreditAccount.id platform_account) (CreditEvent.id e)
                     TransactionType.REWARD DEBIT (dec 7) REWARD.
Proof.
  apply (reward_credits_user_debits_platform "U1" "T3" (dec 7) None after_recharge).
  - reflexivity.
  - intros H. apply upstream_seen_existsb in H. vm_compute in H. discriminate H.
Defined.



(** ** Repetition *)

(** The event a successful call appends: it carries the call's idempotency
    key, which was new, and it is on the account of the call's user. *)
Lemma run_call_ok_event config c s user_account s' :
  run_call config c s = (Ok user_account, s') ->
  ∃ e, events (db s') = events (db s) ++ [e]
       ∧ CreditEvent.upstream_type e = call_upstream_type c
       ∧ CreditEvent.upstream_tx_id e = call_upstream_tx_id c
       ∧ ¬ upstream_seen (call_upstream_type c) (call_upstream_tx_id c) s
       ∧ committed s' = db s'
       ∧ accounts (db s') !! (USER, call_user c) = Some user_account
       ∧ CreditEvent.account_id e = CreditAccount.id user_account.
Proof.
  intros Hrun.
  destruct (decide (call_upstream_type c = UpstreamType.API)) as [Hapi|Hexec].
  - assert (Hnew : ¬ upstream_seen (call_upstream_type c) (call_upstream_tx_id c) s).
    { rewrite Hapi.
      destruct (api_call_cases config c s Hapi)
        as [[_ E]|[(_ & _ & m & E & _)|[(_ & _ & _ & E)|(Hnew & _)]]];
        [rewrite E in Hrun; discriminate Hrun|rewrite E in Hrun; discriminate Hrun
        |rewrite E in Hrun; discriminate Hrun|].
      exact Hnew. }
    destruct (api_call_ok_inv config c s user_account s' Hapi Hrun)
      as (is_income & et & tt & pid & ct & amount & note & Hpos & Hentry).
    destruct (user_platform_entry_ok _ _ _ _ _ _ _ _ _ _ _ _ Hpos Hentry)
      as (pa & eid & tid1 & tid2 & Hc & Hu & Hev & _).
    eexists. split; [exact Hev|]. rewrite Hapi.
    split_and!; [reflexivity|reflexivity| |exact Hc|exact Hu|reflexivity].
    rewrite <- Hapi. exact Hnew.
  - destruct c; try (exfalso; apply Hexec; reflexivity).
    cbn [run_call call_upstream_type call_upstream_tx_id call_user] in *.
    destruct (expense_message_ok_inv _ _ _ _ _ _ _ _ _ _ _ Hrun)
      as (ct & pa & e & tid1 & tid2 & legs & Hnew & _ & Hc & Hu & Hev & _ & Hut & Htx & _
          & Hacc & _).
    exists e. split_and!; assumption.
Qed.

(** X8. A successful call makes its own repetition fail: on the session it
    leaves, every call with the same idempotency key (the same upstream id
    through the API orchestrators, or the same message id through
    [expense_message]), whatever its other arguments, raises
    [DuplicateUpstreamTx] and changes nothing. *)
Theorem successful_call_blocks_repeat (config : Config) (c c' : Call) (s : Session)
    (user_account : CreditAccount.t) (s' : Session) :
  run_call config c s = (Ok user_account, s') ->
  call_upstream_type c' = call_upstream_type c ->
  call_upstream_tx_id c' = call_upstream_tx_id c ->
  run_call config c' s' = (Raise DuplicateUpstreamTx, s').
Proof.
  intros Hrun Hut Htx.
  destruct (run_call_ok_event config c s user_account s' Hrun)
    as (e & Hev & Heut & Hetx & _).
  assert (Hseen : upstream_seen (call_upstream_type c') (call_upstream_tx_id c') s').
  { exists e. rewrite Hev, Hut, Htx. split_and!; [|assumption|assumption].
    apply elem_of_app. right. apply list_elem_of_here. }
  destruct c'; cbn [run_call call_upstream_type call_upstream_tx_id] in *.
  - unfold recharge, bind. rewrite (check_upstream_duplicate _ _ _ Hseen). reflexivity.
  - unfold reward, bind. rewrite (check_upstream_duplicate _ _ _ Hseen). reflexivity.
  - unfold adjustment, bind. rewrite (check_upstream_duplicate _ _ _ Hseen). reflexivity.
  - unfold expense_message, bind. rewrite (check_upstream_duplicate _ _ _ Hseen).
    reflexivity.
Qed.

(** X8, witness: after the recharge under T1, a reward under T1 is
    rejected. *)
Lemma successful_call_blocks_repeat_witness :
  run_call quarter_fee (Reward "U1" (dec 7) "T1" None) after_recharge
  = (Raise DuplicateUpstreamTx, after_recharge).
Proof.
  pose (user_account := row_or_new USER "U1" after_recharge).
  apply (successful_call_blocks_repeat quarter_fee (Recharge "U1" (dec 100) "T1" None)
           (Reward "U1" (dec 7) "T1" None) (fresh_session 0) user_account after_recharge).
  - vm_compute. reflexivity.
  - reflexivity.
  - reflexivity.
Defined.

(** X9. The orchestrators keep the idempotency keys unique: if no two
    events of the session share [(upstream_type, upstream_tx_id)] before a
    call, none do after it, whether the call succeeds or fails. *)
Theorem run_call_keeps_upstream_keys_unique (config : Config) (c : Call) (s : Session) :
  upstream_keys_unique (db s) ->
  upstream_keys_unique (db (run_call config c s).2).
Proof.
  intros Huniq. destruct (run_call config c s) as [[user_account|exn] s'] eqn:Hrun;
    cbn [snd].
  - destruct (run_call_ok_event config c s user_account s' Hrun)
      as (e & Hev & Heut & Hetx & Hnew & _).
    unfold upstream_keys_unique in *. rewrite Hev, fmap_app. cbn [fmap list_fmap].
    apply NoDup_app. split_and!; [exact Huniq| |apply NoDup_singleton].
    intros k Hk Hin. apply list_elem_of_singleton in Hin. subst k.
    apply list_elem_of_fmap in Hk as (e0 & Hkey & He0). injection Hkey as Hut Htx.
    apply Hnew. exists e0. split_and!; [exact He0|congruence|congruence].
  - destruct (run_call_raise_inv config c s exn s' Hrun) as (_ & Hev & _).
    unfold upstream_keys_unique in *. rewrite Hev. exact Huniq.
Qed.

(** X9, witness: the reward after the recharge. *)
Lemma run_call_keeps_upstream_keys_unique_witness :
  upstream_keys_unique
    (db (run_call quarter_fee (Reward "U1" (dec 7) "T3" None) after_recharge).2).
Proof.
  apply (run_call_keeps_upstream_keys_unique quarter_fee (Reward "U1" (dec 7) "T3" None)
           after_recharge).
  unfold upstream_keys_unique. apply (bool_decide_eq_true_1 _). vm_compute. reflexivity.
Defined.

(** ** [expense_message] and the fee accounts *)

(** X10. A successful [expense_message] credits the fee accounts with the
    fees its event records, which are the [Decimal] products
    [base_llm_amount * payment_fee_platform_percentage] and, unless the
    user owns the agent, [base_llm_amount * agent_fee_percentage], rounded
    to 28 significant digits: the platform FEE account holds
    [fee_platform_amount] more in the pool of the event's credit type; when
    the agent fee is positive the agent's account holds [fee_agent_amount]
    more in that pool and the event's [fee_agent_account] is the id of that
    account; when it is not, [fee_agent_account] is empty and the agent's
    account is as before, not even created; no account other than the
    user's, the platform's and the agent's changes. The event names the
    agent, the message and the start message. *)
Theorem expense_message_credits_fee_accounts (config : Config)
    (agent_id user_id message_id start_message_id : string)
    (base_llm_amount agent_fee_percentage : Decimal) (agent_owner_id : string)
    (s : Session) (user_account : CreditAccount.t) (s' : Session) :
  expense_message config agent_id user_id message_id start_message_id base_llm_amount
    agent_fee_percentage agent_owner_id s = (Ok user_account, s') ->
  let fee_platform_amount :=
    Decimal_mul base_llm_amount (payment_fee_platform_percentage config) in
  let fee_agent_amount :=
    if decide (user_id ≠ agent_owner_id) then Decimal_mul base_llm_amount agent_fee_percentage else 0 in
  ∃ e platform_account,
    events (committed s') = events (db s) ++ [e]
    ∧ CreditEvent.agent_id e = Some agent_id
    ∧ CreditEvent.message_id e = Some message_id
    ∧ CreditEvent.start_message_id e = Some start_message_id
    ∧ CreditEvent.fee_platform_amount e = Some fee_platform_amount
    ∧ CreditEvent.fee_agent_amount e = Some fee_agent_amount
    ∧ accounts (committed s') !! (PLATFORM, DEFAULT_PLATFORM_ACCOUNT_FEE)
      = Some platform_account
    ∧ CreditAccount.pool (CreditEvent.credit_type e) platform_account
      = pool_at (db s) PLATFORM DEFAULT_PLATFORM_ACCOUNT_FEE (CreditEvent.credit_type e)
        + fee_platform_amount
    ∧ (0 < fee_agent_amount ->
       ∃ agent_account,
         accounts (committed s') !! (AGENT, agent_id) = Some agent_account
         ∧ CreditEvent.fee_agent_account e = Some (CreditAccount.id agent_account)
         ∧ CreditAccount.pool (CreditEvent.credit_type e) agent_account
           = pool_at (db s) AGENT agent_id (CreditEvent.credit_type e) + fee_agent_amount)
    ∧ (¬ 0 < fee_agent_amount ->
       CreditEvent.fee_agent_account e = None
       ∧ accounts (committed s') !! (AGENT, agent_id) = accounts (db s) !! (AGENT, agent_id))
    ∧ (∀ k, k ≠ (USER, user_id) -> k ≠ (PLATFORM, DEFAULT_PLATFORM_ACCOUNT_FEE) ->
            k ≠ (AGENT, agent_id) ->
            accounts (committed s') !! k = accounts (db s) !! k).
Proof.
  intros Hrun fee_platform_amount fee_agent_amount.
  destruct (expense_message_ok_inv _ _ _ _ _ _ _ _ _ _ _ Hrun)
    as (_ & _ & e0 & _ & _ & _ & _ & _ & Hc & _ & Hev0 & _ & _ & _ & _ & _ & _ & _ & _ & _
        & Hfp & _).
  destruct (expense_message_ok_accounts _ _ _ _ _ _ _ _ _ _ _ Hrun)
    as (e & pa & Hev & Hag & Hmsg & Hstart & Hfa & Hp & Hpool & Hpos & Hzero & Hk).
  assert (Hsame : e0 = e).
  { rewrite Hev0 in Hev. apply app_inj_tail in Hev as [_ He]. exact He. }
  subst e0.
  exists e, pa. rewrite Hc. split_and!; assumption.
Qed.

(** X10, witness: the message of the third scenario, with an agent fee
    of 2. *)
Lemma expense_message_credits_fee_accounts_witness :
  let fee_platform_amount :=
    Decimal_mul (dec 4) (payment_fee_platform_percentage quarter_fee) in
  let fee_agent_amount :=
    if decide ("U1" ≠ "U2") then Decimal_mul (dec 4) (frac 1 2) else 0 in
  ∃ e platform_account,
    events (committed after_message) = events (db tri_pool_start) ++ [e]
    ∧ CreditEvent.agent_id e = Some "A1"
    ∧ CreditEvent.message_id e = Some "M1"
    ∧ CreditEvent.start_message_id e = Some "M0"
    ∧ CreditEvent.fee_platform_amount e = Some fee_platform_amount
    ∧ CreditEvent.fee_agent_amount e = Some fee_agent_amount
    ∧ accounts (committed after_message) !! (PLATFORM, DEFAULT_PLATFORM_ACCOUNT_FEE)
      = Some platform_account
    ∧ CreditAccount.pool (CreditEvent.credit_type e) platform_account
      = pool_at (db tri_pool_start) PLATFORM DEFAULT_PLATFORM_ACCOUNT_FEE (CreditEvent.credit_type e)
        + fee_platform_amount
    ∧ (0 < fee_agent_amount ->
       ∃ agent_account,
         accounts (committed after_message) !! (AGENT, "A1") = Some agent_account
         ∧ CreditEvent.fee_agent_account e = Some (CreditAccount.id agent_account)
         ∧ CreditAccount.pool (CreditEvent.credit_type e) agent_account
           = pool_at (db tri_pool_start) AGENT "A1" (CreditEvent.credit_type e) + fee_agent_amount)
    ∧ (¬ 0 < fee_agent_amount ->
       CreditEvent.fee_agent_account e = None
       ∧ accounts (committed after_message) !! (AGENT, "A1") = accounts (db tri_pool_start) !! (AGENT, "A1"))
    ∧ (∀ k, k ≠ (USER, "U1") -> k ≠ (PLATFORM, DEFAULT_PLATFORM_ACCOUNT_FEE) ->
            k ≠ (AGENT, "A1") ->
            accounts (committed after_message) !! k = accounts (db tri_pool_start) !! k).
Proof.
  pose (user_account := row_or_new USER "U1" after_message).
  apply (expense_message_credits_fee_accounts quarter_fee "A1" "U1" "M1" "M0" (dec 4)
           (frac 1 2) "U2" tri_pool_start user_account after_message).
  vm_compute. reflexivity.
Defined.

(** X11. A user who is the owner of the agent pays no agent fee: when
    [user_id] is [agent_owner_id], whatever the agent's fee percentage, a
    successful [expense_message] records an agent fee of 0 and no agent
    account, charges [base_llm_amount + fee_platform_amount + 0] with the
    sums of [Decimal], which is [base_llm_amount] plus the platform fee
    when that sum has at most 28 significant digits, writes exactly two
    legs (the user's PAY debit of the total and the platform's fee credit),
    and leaves the agent's account as it was. *)
Theorem expense_message_own_agent_pays_no_agent_fee (config : Config)
    (agent_id user_id message_id start_message_id : string)
    (base_llm_amount agent_fee_percentage : Decimal)
    (s : Session) (user_account : CreditAccount.t) (s' : Session) :
  expense_message config agent_id user_id message_id start_message_id base_llm_amount
    agent_fee_percentage user_id s = (Ok user_account, s') ->
  let fee_platform_amount :=
    Decimal_mul base_llm_amount (payment_fee_platform_percentage config) in
  ∃ e t_user t_platform,
    events (committed s') = events (db s) ++ [e]
    ∧ CreditEvent.fee_agent_amount e = Some 0
    ∧ CreditEvent.fee_agent_account e = None
    ∧ CreditEvent.fee_platform_amount e = Some fee_platform_amount
    ∧ CreditEvent.total_amount e
      = Decimal_add (Decimal_add base_llm_amount fee_platform_amount) 0
    ∧ (exact (base_llm_amount + fee_platform_amount) ->
       CreditEvent.total_amount e = base_llm_amount + fee_platform_amount)
    ∧ transactions (committed s') = transactions (db s) ++ [t_user; t_platform]
    ∧ CreditTransaction.tx_type t_user = TransactionType.PAY
    ∧ CreditTransaction.credit_debit t_user = DEBIT
    ∧ CreditTransaction.change_amount t_user = CreditEvent.total_amount e
    ∧ CreditTransaction.tx_type t_platform = TransactionType.RECEIVE_FEE_PLATFORM
    ∧ CreditTransaction.credit_debit t_platform = CREDIT
    ∧ CreditTransaction.change_amount t_platform = fee_platform_amount
    ∧ accounts (committed s') !! (AGENT, agent_id) = accounts (db s) !! (AGENT, agent_id).
Proof.
  intros Hrun fee_platform_amount.
  pose proof (expense_message_ok_inv _ _ _ _ _ _ _ _ _ _ _ Hrun) as Hinv.
  pose proof (expense_message_ok_accounts _ _ _ _ _ _ _ _ _ _ _ Hrun) as Hacc.
  cbv zeta in Hinv, Hacc. fold fee_platform_amount in Hinv, Hacc.
  destruct (decide (user_id ≠ user_id)) as [Hne|_]; [contradiction|].
  destruct Hinv as (ct & pa & e & tid1 & tid2 & legs & _ & _ & Hc & _ & Hev & _ & _ & _ & _
                    & _ & Htotal & _ & _ & _ & Hfp & Hfee & Htx & Hlegs).
  destruct Hacc as (e' & pa' & Hev' & _ & _ & _ & _ & _ & _ & _ & Hzero & _).
  assert (Hsame : e' = e).
  { rewrite Hev in Hev'. apply app_inj_tail in Hev' as [_ He]. symmetry. exact He. }
  subst e'.
  assert (Hnopos : ¬ (0 : Qc) < 0) by (intros H; qc_lra).
  destruct (Hzero Hnopos) as [Hnone Hagent].
  destruct Hlegs as [[Hpos _]|[_ ->]]; [contradiction|].
  eexists e, _, _. rewrite Hc.
  split_and!; first [eassumption | reflexivity | idtac].
  - intros Hexact. rewrite Htotal. unfold exact, Decimal_add in *. rewrite Hexact.
    replace (base_llm_amount + fee_platform_amount + 0)
      with (base_llm_amount + fee_platform_amount) by ring.
    exact Hexact.
  - cbn [CreditTransaction.change_amount]. symmetry. exact Htotal.
Qed.

(** X11, witness: the fourth scenario, where U1 owns agent A1. *)
Lemma expense_message_own_agent_pays_no_agent_fee_witness :
  let fee_platform_amount :=
    Decimal_mul (dec 4) (payment_fee_platform_percentage quarter_fee) in
  ∃ s' e t_user t_platform,
    events (committed s') = events (db tri_pool_start) ++ [e]
    ∧ CreditEvent.fee_agent_amount e = Some 0
    ∧ CreditEvent.fee_agent_account e = None
    ∧ CreditEvent.fee_platform_amount e = Some fee_platform_amount
    ∧ CreditEvent.total_amount e
      = Decimal_add (Decimal_add (dec 4) fee_platform_amount) 0
    ∧ (exact (dec 4 + fee_platform_amount) ->
       CreditEvent.total_amount e = dec 4 + fee_platform_amount)
    ∧ transactions (committed s') = transactions (db tri_pool_start) ++ [t_user; t_platform]
    ∧ CreditTransaction.tx_type t_user = TransactionType.PAY
    ∧ CreditTransaction.credit_debit t_user = DEBIT
    ∧ CreditTransaction.change_amount t_user = CreditEvent.total_amount e
    ∧ CreditTransaction.tx_type t_platform = TransactionType.RECEIVE_FEE_PLATFORM
    ∧ CreditTransaction.credit_debit t_platform = CREDIT
    ∧ CreditTransaction.change_amount t_platform = fee_platform_amount
    ∧ accounts (committed s') !! (AGENT, "A1") = accounts (db tri_pool_start) !! (AGENT, "A1").
Proof.
  pose (s' := (expense_message quarter_fee "A1" "U1" "M1" "M0" (dec 4) (frac 1 2) "U1"
                 tri_pool_start).2).
  pose (user_account := row_or_new USER "U1" s').
  intros fee_platform_amount. exists s'.
  apply (expense_message_own_agent_pays_no_agent_fee quarter_fee "A1" "U1" "M1" "M0" (dec 4)
           (frac 1 2) tri_pool_start user_account s').
  vm_compute. reflexivity.
Defined.

(** ** What the queries see of a call *)

Lemma all_selected_length p d : (length (all_selected p d) ≤ length (events d))%nat.
Proof.
  unfold all_selected.
  rewrite <- (Permutation_length (EventSort.Permuted_sort (List.filter p (events d)))).
  apply List.filter_length_le.
Qed.

(** With a limit that covers the whole store, a page is everything the
    filter selects. *)
Lemma page_all p limit d :
  (Z.of_nat (length (events d)) ≤ limit)%Z ->
  page p limit d
  = (all_selected p d, CreditEvent.id <$> last (all_selected p d), false).
Proof.
  intros Hlimit. pose proof (all_selected_length p d) as Hlen. unfold page.
  rewrite slice_of_fetched, !select_events_all by lia.
  rewrite !take_ge by lia. repeat f_equal.
  apply bool_decide_eq_false_2. lia.
Qed.

(** X12. The event of a successful call is listed for the call's user:
    on the session the call leaves, [list_credit_events_by_user] for that
    user and the event's direction, without cursor or event type and with a
    limit that covers the store, returns a page that holds the event, and
    reports no further page. *)
Theorem call_event_is_listed (config : Config) (c : Call) (s : Session)
    (user_account : CreditAccount.t) (s' : Session) (limit : Z) :
  run_call config c s = (Ok user_account, s') ->
  (Z.of_nat (length (events (db s'))) ≤ limit)%Z ->
  ∃ e returned next_cursor,
    events (db s') = events (db s) ++ [e]
    ∧ list_credit_events_by_user (call_user c) (CreditEvent.direction e) None limit None s'
      = (Ok (returned, next_cursor, false), s')
    ∧ e ∈ returned.
Proof.
  intros Hrun Hlimit.
  destruct (run_call_ok_event config c s user_account s' Hrun)
    as (e & Hev & _ & _ & _ & _ & Hu & Hacc).
  exists e. eexists _, _. split; [exact Hev|].
  rewrite (list_credit_events_by_user_run _ _ _ _ _ _ _ Hu), (page_all _ _ _ Hlimit).
  split; [reflexivity|].
  apply all_selected_elem. split.
  - rewrite Hev. apply elem_of_app. right. apply list_elem_of_here.
  - unfold user_events_base, cursor_clause. rewrite Hacc.
    rewrite !bool_decide_eq_true_2 by reflexivity. reflexivity.
Qed.

(** X12, witness: the reward after the recharge, with a limit of 10. *)
Lemma call_event_is_listed_witness :
  ∃ e returned next_cursor,
    events (db after_recharge_and_reward) = events (db after_recharge) ++ [e]
    ∧ list_credit_events_by_user (call_user (Reward "U1" (dec 7) "T3" None))
        (CreditEvent.direction e) None 10 None after_recharge_and_reward
      = (Ok (returned, next_cursor, false), after_recharge_and_reward)
    ∧ e ∈ returned.
Proof.
  pose (user_account := row_or_new USER "U1" after_recharge_and_reward).
  apply (call_event_is_listed quarter_fee (Reward "U1" (dec 7) "T3" None) after_recharge
           user_account after_recharge_and_reward 10).
  - vm_compute. reflexivity.
  - vm_compute. discriminate.
Defined.

(** X13. The event of a successful [expense_message] is among the agent's
    fee events exactly when its agent fee is positive: on the session the
    call leaves, [list_fee_events_by_agent] for the agent, without cursor
    and with a limit that covers the store, returns a page that holds the
    event if [fee_agent_amount > 0] and does not hold it otherwise. *)
Theorem message_event_listed_for_agent (config : Config)
    (agent_id user_id message_id start_message_id : string)
    (base_llm_amount agent_fee_percentage : Decimal) (agent_owner_id : string)
    (s : Session) (user_account : CreditAccount.t) (s' : Session) (limit : Z) :
  expense_message config agent_id user_id message_id start_message_id base_llm_amount
    agent_fee_percentage agent_owner_id s = (Ok user_account, s') ->
  (Z.of_nat (length (events (db s'))) ≤ limit)%Z ->
  let fee_agent_amount :=
    if decide (user_id ≠ agent_owner_id) then base_llm_amount * agent_fee_percentage
    else 0 in
  ∃ e returned next_cursor has_more,
    events (db s') = events (db s) ++ [e]
    ∧ list_fee_events_by_agent agent_id None limit s'
      = (Ok (returned, next_cursor, has_more), s')
    ∧ (e ∈ returned ↔ 0 < fee_agent_amount).
Proof.
  intros Hrun Hlimit fee_agent_amount.
  destruct (expense_message_ok_accounts _ _ _ _ _ _ _ _ _ _ _ Hrun)
    as (e & pa & Hev & _ & _ & _ & Hfee & _ & _ & Hpos & Hzero & _).
  set (recorded := if decide (user_id ≠ agent_owner_id)
                   then Decimal_mul base_llm_amount agent_fee_percentage
                   else 0) in *.
  assert (Hsign : 0 < recorded ↔ 0 < fee_agent_amount).
  { subst recorded fee_agent_amount.
    destruct (decide (user_id ≠ agent_owner_id)); [apply Decimal_fix_pos|reflexivity]. }
  cut (∃ returned next_cursor has_more,
         list_fee_events_by_agent agent_id None limit s'
         = (Ok (returned, next_cursor, has_more), s')
         ∧ (e ∈ returned ↔ 0 < recorded)).
  { intros (returned & next_cursor & has_more & Hlist & Hiff).
    exists e, returned, next_cursor, has_more.
    split_and!; [exact Hev|exact Hlist|]. rewrite Hiff. exact Hsign. }
  clearbody recorded. clear Hsign fee_agent_amount.
  destruct (accounts (db s') !! (AGENT, agent_id)) as [agent_account|] eqn:Hagent.
  - eexists _, _, _.
    rewrite (list_fee_events_by_agent_run _ _ _ _ _ Hagent), (page_all _ _ _ Hlimit).
    split; [reflexivity|].
    rewrite all_selected_elem. unfold agent_fee_events_base, cursor_clause.
    rewrite Hfee, andb_true_r, andb_true_iff, !bool_decide_eq_true. split.
    + intros [_ [_ H]]. exact H.
    + intros H. destruct (Hpos H) as (agent_account' & Hlook & Hid & _).
      assert (agent_account' = agent_account) by congruence. subst agent_account'.
      split_and!; [|exact Hid|exact H].
      rewrite Hev. apply elem_of_app. right. apply list_elem_of_here.
  - exists [], None, false.
    split.
    + unfold list_fee_events_by_agent, bind, get_in_session. rewrite Hagent. reflexivity.
    + split; [intros H; inversion H|].
      intros H. destruct (Hpos H) as (agent_account' & Hlook & _). congruence.
Qed.

(** X13, witness: the message of the third scenario is listed for A1. *)
Lemma message_event_listed_for_agent_witness :
  let fee_agent_amount := if decide ("U1" ≠ "U2") then dec 4 * frac 1 2 else 0 in
  ∃ e returned next_cursor has_more,
    events (db after_message) = events (db tri_pool_start) ++ [e]
    ∧ list_fee_events_by_agent "A1" None 10 after_message
      = (Ok (returned, next_cursor, has_more), after_message)
    ∧ (e ∈ returned ↔ 0 < fee_agent_amount).
Proof.
  pose (user_account := row_or_new USER "U1" after_message).
  apply (message_event_listed_for_agent quarter_fee "A1" "U1" "M1" "M0" (dec 4) (frac 1 2)
           "U2" tri_pool_start user_account after_message 10).
  - vm_compute. reflexivity.
  - vm_compute. discriminate.
Defined.

Lemma find_app_first {A} (f : A -> bool) (l1 l2 : list A) :
  List.find f (l1 ++ l2)
  = match List.find f l1 with
    | Some x => Some x
    | None => List.find f l2
    end.
Proof.
  induction l1 as [|a l1 IH]; [reflexivity|]. cbn [app List.find].
  destruct (f a); [reflexivity|exact IH].
Qed.

(** X14. After a successful call, [fetch_credit_event_by_upstream_tx_id]
    with the call's upstream id (the message id for [expense_message])
    does not fail with 404: it returns an event of the store that carries
    the id, and it returns the call's own event when no earlier event
    carried the id. (When an earlier event of the other upstream type
    carries it too, the query has two rows and no [ORDER BY]; which one it
    returns is left open here.) *)
Theorem fetch_after_call (config : Config) (c : Call) (s : Session)
    (user_account : CreditAccount.t) (s' : Session) :
  run_call config c s = (Ok user_account, s') ->
  ∃ e found,
    events (db s') = events (db s) ++ [e]
    ∧ fetch_credit_event_by_upstream_tx_id (call_upstream_tx_id c) s' = (Ok found, s')
    ∧ found ∈ events (db s')
    ∧ CreditEvent.upstream_tx_id found = call_upstream_tx_id c
    ∧ ((∀ e0, e0 ∈ events (db s) ->
              CreditEvent.upstream_tx_id e0 ≠ call_upstream_tx_id c) ->
       found = e).
Proof.
  intros Hrun.
  destruct (run_call_ok_event config c s user_account s' Hrun)
    as (e & Hev & _ & Hetx & Hnew & _).
  exists e. unfold fetch_credit_event_by_upstream_tx_id. rewrite Hev, find_app_first.
  destruct (List.find _ (events (db s))) as [found|] eqn:Hfind.
  - apply find_some in Hfind as [Hin Hid]. apply bool_decide_eq_true in Hid.
    apply list_elem_of_In in Hin.
    exists found. split_and!; [reflexivity|reflexivity| |exact Hid|].
    + apply elem_of_app. left. exact Hin.
    + intros Hnone. exfalso. exact (Hnone found Hin Hid).
  - cbn [List.find]. rewrite bool_decide_eq_true_2 by exact Hetx.
    exists e. split_and!; [reflexivity|reflexivity| |exact Hetx|reflexivity].
    apply elem_of_app. right. apply list_elem_of_here.
Qed.

(** X14, witness: the reward under T3 after the recharge under T1. *)
Lemma fetch_after_call_witness :
  let c := Reward "U1" (dec 7) "T3" None in
  ∃ e found,
    events (db after_recharge_and_reward) = events (db after_recharge) ++ [e]
    ∧ fetch_credit_event_by_upstream_tx_id (call_upstream_tx_id c) after_recharge_and_reward
      = (Ok found, after_recharge_and_reward)
    ∧ found ∈ events (db after_recharge_and_reward)
    ∧ CreditEvent.upstream_tx_id found = call_upstream_tx_id c
    ∧ ((∀ e0, e0 ∈ events (db after_recharge) ->
              CreditEvent.upstream_tx_id e0 ≠ call_upstream_tx_id c) ->
       found = e).
Proof.
  pose (user_account := row_or_new USER "U1" after_recharge_and_reward).
  apply (fetch_after_call quarter_fee (Reward "U1" (dec 7) "T3" None) after_recharge
           user_account after_recharge_and_reward).
  vm_compute. reflexivity.
Defined.

(** ** The legs of a call *)

(** X15. The legs a successful call writes belong to its event: they are
    appended after the legs of before, one for the user and one or two
    more; each carries the id and the credit type of the call's event; the
    user's leg is on the account of the event, moves the event's
    [total_amount], and is a CREDIT for an INCOME event and a DEBIT for an
    EXPENSE event; every other leg is on the opposite side. *)
Theorem call_legs_belong_to_event (config : Config) (c : Call) (s : Session)
    (user_account : CreditAccount.t) (s' : Session) :
  run_call config c s = (Ok user_account, s') ->
  ∃ e t_user others,
    events (db s') = events (db s) ++ [e]
    ∧ transactions (db s') = transactions (db s) ++ t_user :: others
    ∧ (1 ≤ length others ≤ 2)%nat
    ∧ Forall (fun t => CreditTransaction.event_id t = CreditEvent.id e
                       ∧ CreditTransaction.credit_type t = CreditEvent.credit_type e)
        (t_user :: others)
    ∧ CreditTransaction.account_id t_user = CreditEvent.account_id e
    ∧ CreditTransaction.change_amount t_user = CreditEvent.total_amount e
    ∧ CreditTransaction.credit_debit t_user
      = match CreditEvent.direction e with INCOME => CREDIT | EXPENSE => DEBIT end
    ∧ Forall (fun t => CreditTransaction.credit_debit t
                       ≠ CreditTransaction.credit_debit t_user) others.
Proof.
  intros Hrun.
  destruct (decide (call_upstream_type c = UpstreamType.API)) as [Hapi|Hexec].
  - destruct (api_call_ok_inv config c s user_account s' Hapi Hrun)
      as (is_income & et & tt & pid & ct & amount & note & Hpos & Hentry).
    destruct (user_platform_entry_ok _ _ _ _ _ _ _ _ _ _ _ _ Hpos Hentry)
      as (pa & eid & tid1 & tid2 & _ & _ & Hev & Htx).
    eexists _, _, _. split; [exact Hev|]. split; [exact Htx|].
    cbn [length CreditTransaction.account_id CreditTransaction.change_amount
         CreditTransaction.credit_debit].
    split_and!; [lia|lia| |reflexivity|reflexivity| |].
    + repeat constructor.
    + destruct is_income; reflexivity.
    + repeat constructor. destruct is_income; discriminate.
  - destruct c; try (exfalso; apply Hexec; reflexivity).
    cbn [run_call] in Hrun.
    destruct (expense_message_ok_inv _ _ _ _ _ _ _ _ _ _ _ Hrun)
      as (ct & pa & e & tid1 & tid2 & legs & _ & _ & _ & _ & Hev & _ & _ & _ & Hdir & Hacc
          & Htotal & Hct & _ & _ & _ & _ & Htx & Hlegs).
    eexists e, _, _. split; [exact Hev|]. split; [exact Htx|].
    cbn [length CreditTransaction.account_id CreditTransaction.change_amount
         CreditTransaction.credit_debit].
    rewrite Hdir, Hacc, Htotal, Hct.
    destruct Hlegs as [(_ & tid3 & aa & ->)|[_ ->]]; cbn [length];
      (split_and!; [lia|lia| |reflexivity|reflexivity|reflexivity|]);
      repeat constructor; discriminate.
Qed.

(** X15, witness: the message of the third scenario, with three legs. *)
Lemma call_legs_belong_to_event_witness :
  ∃ e t_user others,
    events (db after_message) = events (db tri_pool_start) ++ [e]
    ∧ transactions (db after_message) = transactions (db tri_pool_start) ++ t_user :: others
    ∧ (1 ≤ length others ≤ 2)%nat
    ∧ Forall (fun t => CreditTransaction.event_id t = CreditEvent.id e
                       ∧ CreditTransaction.credit_type t = CreditEvent.credit_type e)
        (t_user :: others)
    ∧ CreditTransaction.account_id t_user = CreditEvent.account_id e
    ∧ CreditTransaction.change_amount t_user = CreditEvent.total_amount e
    ∧ CreditTransaction.credit_debit t_user
      = match CreditEvent.direction e with INCOME => CREDIT | EXPENSE => DEBIT end
    ∧ Forall (fun t => CreditTransaction.credit_debit t
                       ≠ CreditTransaction.credit_debit t_user) others.
Proof.
  pose (user_account := row_or_new USER "U1" after_message).
  apply (call_legs_belong_to_event quarter_fee
           (ExpenseMessage "A1" "U1" "M1" "M0" (dec 4) (frac 1 2) "U2") tri_pool_start
           user_account after_message).
  vm_compute. reflexivity.
Defined.

(** ** [update_daily_quota], repeated *)

Lemma with_row_found ot oid a s :
  accounts (db s) !! (ot, oid) = Some a -> with_row ot oid s = s ∧ row_or_new ot oid s = a.
Proof. intros H. unfold with_row, row_or_new. rewrite H. split; reflexivity. Qed.

(** X16. [update_daily_quota] keeps no idempotency key and is idempotent
    by its effect: its [upstream_tx_id] is not checked against the events,
    and when a call has succeeded, the same call again, on the session the
    first one left, succeeds too, returns the same account and leaves the
    session exactly as it was. *)
Theorem update_daily_quota_repeated (user_id : string)
    (free_quota refill_amount : option Decimal) (upstream_tx_id note : string)
    (s : Session) (user_account : CreditAccount.t) (s' : Session) :
  update_daily_quota user_id free_quota refill_amount upstream_tx_id note s
  = (Ok user_account, s') ->
  update_daily_quota user_id free_quota refill_amount upstream_tx_id note s'
  = (Ok user_account, s').
Proof.
  intros Hrun.
  pose proof (update_daily_quota_cases user_id free_quota refill_amount upstream_tx_id note s)
    as Hfirst.
  cbv zeta in Hfirst. rewrite Hrun in Hfirst.
  destruct Hfirst as [(_ & _ & H)|(Hgiven & [(_ & _ & H)|(Hq & [(_ & _ & H)|(Hr
    & [(_ & H)|(Hle & [(_ & H)|(Hnote & H)])])])])]; try discriminate H.
  injection H as -> ->.
  set (a := row_or_new USER user_id s) in *.
  set (q := default (CreditAccount.free_quota a) free_quota) in *.
  set (r := default (CreditAccount.refill_amount a) refill_amount) in *.
  set (s' := quota_committed user_id (with_quota q r a) s).
  assert (Hlook : accounts (db s') !! (USER, user_id) = Some (with_quota q r a))
    by apply lookup_insert_eq.
  destruct (with_row_found _ _ _ _ Hlook) as [Hwith Hrow].
  assert (Hq' : default (CreditAccount.free_quota (with_quota q r a)) free_quota = q).
  { subst q. destruct free_quota; reflexivity. }
  assert (Hr' : default (CreditAccount.refill_amount (with_quota q r a)) refill_amount = r).
  { subst r. destruct refill_amount; reflexivity. }
  pose proof (update_daily_quota_cases user_id free_quota refill_amount upstream_tx_id note s')
    as Hsecond.
  cbv zeta in Hsecond. rewrite Hrow, Hq', Hr', Hwith in Hsecond.
  assert (Hfix : quota_committed user_id (with_quota q r (with_quota q r a)) s' = s').
  { unfold quota_committed. cbv zeta. rewrite Hwith. subst s'. unfold quota_committed.
    cbn [db accounts events transactions xids now]. rewrite insert_insert_eq. reflexivity. }
  destruct Hsecond as [(Hq0 & Hr0 & _)|(_ & [(Heq & Hbad & _)|(_ & [(Heq & Hbad & _)|(_
    & [(Hbad & _)|(_ & [(Hbad & _)|(_ & H)])])])])].
  - exfalso. apply Hgiven. split; assumption.
  - exfalso. pose proof (Hq _ Heq). qc_lra.
  - exfalso. pose proof (Hr _ Heq). qc_lra.
  - exfalso. qc_lra.
  - contradiction.
  - rewrite H, Hfix. reflexivity.
Qed.

(** X16, witness: the quota of U1 set twice to 10 with a refill of 1. *)
Lemma update_daily_quota_repeated_witness :
  ∃ user_account s',
    update_daily_quota "U1" (Some (dec 10)) (Some (dec 1)) "T1" "plan" after_recharge
    = (Ok user_account, s')
    ∧ update_daily_quota "U1" (Some (dec 10)) (Some (dec 1)) "T1" "plan" s'
      = (Ok user_account, s').
Proof.
  pose (s' := (update_daily_quota "U1" (Some (dec 10)) (Some (dec 1)) "T1" "plan"
                 after_recharge).2).
  pose (user_account := row_or_new USER "U1" s').
  assert (Hrun : update_daily_quota "U1" (Some (dec 10)) (Some (dec 1)) "T1" "plan"
                   after_recharge = (Ok user_account, s'))
    by (vm_compute; reflexivity).
  exists user_account, s'. split; [exact Hrun|].
  exact (update_daily_quota_repeated "U1" (Some (dec 10)) (Some (dec 1)) "T1" "plan"
           after_recharge user_account s' Hrun).
Defined.

(** ** What a call leaves alone *)

(** An event the filter rejects does not change a page. *)
Lemma page_unselected p limit d d' e :
  events d' = events d ++ [e] -> p e = false -> page p limit d' = page p limit d.
Proof.
  intros Hev Hp. unfold page, select_events. rewrite Hev, List.filter_app.
  cbn [List.filter]. rewrite Hp, app_nil_r. reflexivity.
Qed.

(** The account rows of the other users after a successful call, and the
    agent rows after a successful API call. *)
Lemma run_call_ok_others config c s user_account s' :
  run_call config c s = (Ok user_account, s') ->
  (∀ user_id, user_id ≠ call_user c ->
     accounts (db s') !! (USER, user_id) = accounts (db s) !! (USER, user_id))
  ∧ (call_upstream_type c = UpstreamType.API ->
     ∀ agent_id, accounts (db s') !! (AGENT, agent_id) = accounts (db s) !! (AGENT, agent_id)).
Proof.
  intros Hrun.
  destruct (decide (call_upstream_type c = UpstreamType.API)) as [Hapi|Hexec].
  - destruct (api_call_ok_inv config c s user_account s' Hapi Hrun)
      as (is_income & et & tt & pid & ct & amount & note & Hpos & Hentry).
    destruct (user_platform_entry_run is_income et tt pid ct (call_user c) amount
                (call_upstream_tx_id c) note s Hpos
                (user_platform_entry_ok_covered _ _ _ _ _ _ _ _ _ _ _ _ Hentry))
      as (pa & s'' & eid & tid1 & tid2 & Hrun' & _ & _ & _ & _ & Hk & _).
    rewrite Hrun' in Hentry. injection Hentry as _ <-.
    split.
    + intros user_id Hne. apply Hk; congruence.
    + intros _ agent_id. apply Hk; congruence.
  - destruct c; try (exfalso; apply Hexec; reflexivity).
    cbn [run_call call_user] in *.
    destruct (expense_message_ok_accounts _ _ _ _ _ _ _ _ _ _ _ Hrun)
      as (e & pa & _ & _ & _ & _ & _ & _ & _ & _ & _ & Hk).
    split; [|intros H; discriminate H].
    intros uid Hne. apply Hk; congruence.
Qed.

(** X17. A call for one user does not change what another user is shown:
    after a successful call, [list_credit_events_by_user] for any other
    user, with any direction, cursor, limit and event type, returns what it
    returned before, provided the two users' accounts have different
    ids. *)
Theorem call_leaves_other_listings (config : Config) (c : Call) (s : Session)
    (user_account : CreditAccount.t) (s' : Session) (user_id : string)
    (direction : Direction) (cursor : option string) (limit : Z)
    (event_type : option EventType.t) :
  run_call config c s = (Ok user_account, s') ->
  user_id ≠ call_user c ->
  (∀ other, accounts (db s) !! (USER, user_id) = Some other ->
            CreditAccount.id other ≠ CreditAccount.id user_account) ->
  (list_credit_events_by_user user_id direction cursor limit event_type s').1
  = (list_credit_events_by_user user_id direction cursor limit event_type s).1.
Proof.
  intros Hrun Hne Hids.
  destruct (run_call_ok_event config c s user_account s' Hrun)
    as (e & Hev & _ & _ & _ & _ & _ & Hacc).
  destruct (run_call_ok_others config c s user_account s' Hrun) as [Husers _].
  specialize (Husers user_id Hne).
  destruct (accounts (db s) !! (USER, user_id)) as [other|] eqn:Hother.
  - rewrite (list_credit_events_by_user_run _ _ _ _ _ _ _ Husers).
    rewrite (list_credit_events_by_user_run _ _ _ _ _ _ _ Hother).
    cbn [fst]. f_equal. apply (page_unselected _ _ _ _ e Hev).
    unfold user_events_base. rewrite Hacc.
    rewrite (bool_decide_eq_false_2 (CreditAccount.id user_account = CreditAccount.id other)).
    + reflexivity.
    + intros Heq. exact (Hids other eq_refl (eq_sym Heq)).
  - unfold list_credit_events_by_user, bind, get_in_session. rewrite Husers, Hother.
    reflexivity.
Qed.

(** X17, witness: a recharge for U2 after the recharge and the reward for
    U1; U1's INCOME events are listed as before. *)
Lemma call_leaves_other_listings_witness :
  ∃ s',
    (list_credit_events_by_user "U1" INCOME None 10 None s').1
    = (list_credit_events_by_user "U1" INCOME None 10 None after_recharge_and_reward).1.
Proof.
  pose (s' := (recharge "U2" (dec 50) "T4" None after_recharge_and_reward).2).
  pose (user_account := row_or_new USER "U2" s').
  exists s'.
  apply (call_leaves_other_listings quarter_fee (Recharge "U2" (dec 50) "T4" None)
           after_recharge_and_reward user_account s' "U1" INCOME None 10 None).
  - vm_compute. reflexivity.
  - discriminate.
  - intros other Hother Heq.
    assert (Hid : CreditAccount.id <$> accounts (db after_recharge_and_reward) !! (USER, "U1")
                  = Some (CreditAccount.id user_account))
      by (rewrite Hother; cbn; f_equal; exact Heq).
    vm_compute in Hid. discriminate Hid.
Defined.

(** X18. [recharge], [reward] and [adjustment] never add to an agent's fee
    events: after a successful API call, [list_fee_events_by_agent] for any
    agent, with any cursor and limit, returns what it returned before. *)
Theorem api_call_leaves_fee_listings (config : Config) (c : Call) (s : Session)
    (user_account : CreditAccount.t) (s' : Session) (agent_id : string)
    (cursor : option string) (limit : Z) :
  call_upstream_type c = UpstreamType.API ->
  run_call config c s = (Ok user_account, s') ->
  (list_fee_events_by_agent agent_id cursor limit s').1
  = (list_fee_events_by_agent agent_id cursor limit s).1.
Proof.
  intros Hapi Hrun.
  destruct (run_call_ok_others config c s user_account s' Hrun) as [_ Hagents].
  specialize (Hagents Hapi agent_id).
  destruct (api_call_ok_inv config c s user_account s' Hapi Hrun)
    as (is_income & et & tt & pid & ct & amount & note & Hpos & Hentry).
  destruct (user_platform_entry_ok _ _ _ _ _ _ _ _ _ _ _ _ Hpos Hentry)
    as (pa & eid & tid1 & tid2 & _ & _ & Hev & _).
  destruct (accounts (db s) !! (AGENT, agent_id)) as [agent_account|] eqn:Hagent.
  - rewrite (list_fee_events_by_agent_run _ _ _ _ _ Hagents).
    rewrite (list_fee_events_by_agent_run _ _ _ _ _ Hagent).
    cbn [fst]. f_equal. apply (page_unselected _ _ _ _ _ Hev). reflexivity.
  - unfold list_fee_events_by_agent, bind, get_in_session. rewrite Hagents, Hagent.
    reflexivity.
Qed.

(** X18, witness: a recharge after the two messages; A1's fee events are
    listed as before. *)
Lemma api_call_leaves_fee_listings_witness :
  ∃ s',
    (list_fee_events_by_agent "A1" None 10 s').1
    = (list_fee_events_by_agent "A1" None 10 after_two_messages).1.
Proof.
  pose (s' := (recharge "U1" (dec 50) "T4" None after_two_messages).2).
  pose (user_account := row_or_new USER "U1" s').
  exists s'.
  apply (api_call_leaves_fee_listings quarter_fee (Recharge "U1" (dec 50) "T4" None)
           after_two_messages user_account s' "A1" None 10).
  - reflexivity.
  - vm_compute. reflexivity.
Defined.
